(** * scripts/train.py: training, evaluation and hyperparameter search

    A shallow embedding of [train], [test], [train_model] and [main] of
    [scripts/train.py], together with the parts of torch, wandb and optuna
    that the script drives.

    Conventions.
    - Python [float] and tensor entries are exact rationals ([Q]); rounding,
      infinities and NaN are outside the model of the script. The sums of
      [test] are modelled a second time on IEEE numbers ([spec_float]:
      float32 tensors, binary64 Python floats), where the rounding
      decides a property.
    - Python [int] is [Z]; lengths and loop indices are [nat]. The limits
      that torch puts on an integer argument (a seed of 64 bits, a batch
      size below 2^63) are outside the model.
    - Objects that the script shares by reference (the model, the tracker
      run, standard output, the optuna storage, the CPU generator) live in
      one [World]; [optimizer] and [scheduler], which are locals of
      [train_model], are passed explicitly.
    - A Python exception is a [Raise] result; the world keeps the effects
      that happened before it. *)

From Stdlib Require Import String.
From Stdlib Require Import List ZArith QArith Qpower Lia Permutation Bool.
From Stdlib Require Import SpecFloat.
Import ListNotations.

Set Implicit Arguments.

(** ** Exceptions and results *)

Inductive Exception : Type :=
| ZeroDivisionError
| UnboundLocalError
| ValueError
| RuntimeError.

Inductive result (A : Type) : Type :=
| Ok (a : A)
| Raise (e : Exception).

Arguments Ok {A} a.
Arguments Raise {A} e.

(** ** The CPU random generator

    [torch.manual_seed] installs a stream of draws; each draw advances the
    cursor. *)

Record Rng : Type := mkRng { stream : nat -> nat; cursor : nat }.

Definition next_draw (g : Rng) : nat * Rng :=
  (stream g (cursor g), mkRng (stream g) (S (cursor g))).

(** [insert_at k x l] puts [x] before position [k] of [l] (at the end when
    [l] is shorter). *)
Fixpoint insert_at {A : Type} (k : nat) (x : A) (l : list A) : list A :=
  match k, l with
  | O, _ => x :: l
  | S _, [] => [x]
  | S k', y :: l' => y :: insert_at k' x l'
  end.

(** [torch.randperm] as used by [RandomSampler]: the elements are placed
    one by one at a drawn position. *)
Fixpoint randperm {A : Type} (l : list A) (acc : list A) (g : Rng) : list A * Rng :=
  match l with
  | [] => (acc, g)
  | x :: l' =>
      let (d, g') := next_draw g in
      randperm l' (insert_at (Nat.modulo d (S (length acc))) x acc) g'
  end.

(** ** Batching ([torch.utils.data.BatchSampler], [drop_last=False]) *)

(** [chunks bs room cur l]: [cur] is the batch being filled (newest first),
    [room] the number of samples it still takes. *)
Fixpoint chunks {A : Type} (bs room : nat) (cur : list A) (l : list A) : list (list A) :=
  match l with
  | [] => match cur with [] => [] | _ :: _ => [rev cur] end
  | x :: l' =>
      match room with
      | S (S r) => chunks bs (S r) (x :: cur) l'
      | _ => rev (x :: cur) :: chunks bs bs [] l'
      end
  end.

Definition batched {A : Type} (bs : positive) (l : list A) : list (list A) :=
  chunks (Pos.to_nat bs) (Pos.to_nat bs) [] l.

(** ** Run configuration ([argparse] namespace of [main]) *)

Record Args : Type := mkArgs {
  batch_size : Z;
  test_batch_size : Z;
  epochs : Z;
  lr : Q;
  gamma : Q;
  no_cuda : bool;
  dry_run : bool;
  seed : Z;
  log_interval : Z;
  save_model : bool
}.

Inductive Device : Type := cpu | cuda.

(** ** Tracker, standard output, files *)

(** One [wandb.log] call. *)
Inductive Metric : Type :=
| training_loss (loss : Q)
| test_loss_epoch (test_loss : Q) (epoch : Z).

(** Value of a sampled hyperparameter. *)
Inductive ParamValue : Type :=
| PFloat (q : Q)
| PInt (z : Z).

(** One [print] call, with the values that are formatted into the line. *)
Inductive Line : Type :=
| TrainEpoch (epoch : Z) (processed : nat) (total : nat) (percent : Q) (loss : Q)
| TestSet (average_loss : Q) (correct : nat) (total : nat) (percent : Q)
| BestParameters (params : list (string * ParamValue)).

(** ** optuna storage *)

Inductive TrialState : Type := RUNNING | COMPLETE | FAIL.

Record FrozenTrial : Type := mkTrial {
  number : nat;
  params : list (string * ParamValue);
  state : TrialState;
  value : option Q
}.

(** ** External collaborators

    The network ([plr_exercise.models.cnn.Net]), autograd, the Adam update
    rule, the dataset files, the accelerator probe and the optuna sampler
    are taken as they come: the script only wires them together. *)

Class Backend : Type := {
  weights : Type;
  grads : Type;
  image : Type;
  label : Type;
  adam_state : Type;
  (** [pred.eq(target)] on one sample *)
  label_eqb : label -> label -> bool;
  (** the classes in index order; there is at least one *)
  class0 : label;
  classes_rest : list label;
  (** [model(data)] on one image: a score per class, given the mode
      ([training]) and the current parameters *)
  forward : bool -> weights -> image -> label -> Q;
  (** gradient of the mean negative log-likelihood of a batch *)
  backward : bool -> weights -> list (image * label) -> grads;
  adam_init : adam_state;
  (** one Adam update at the given learning rate *)
  adam_update : Q -> adam_state -> weights -> grads -> weights * adam_state;
  (** [Net()]: random initialisation *)
  Net_init : Rng -> weights * Rng;
  (** [torch.manual_seed] *)
  seed_stream : Z -> nat -> nat;
  (** [torch.cuda.is_available()] *)
  cuda_is_available : bool;
  (** [datasets.MNIST("../data", train=True/False, ...)] after the transform *)
  MNIST_train : list (image * label);
  MNIST_test : list (image * label);
  (** the study's sampler: given the trials so far, the trial number and
      the parameter name *)
  sample_float : list FrozenTrial -> nat -> string -> Q -> Q -> bool -> Q;
  sample_index : list FrozenTrial -> nat -> string -> nat -> nat
}.

Section Script.

Context {B : Backend}.

Definition sample : Type := (image * label)%type.
Definition batch : Type := list sample.

(** ** The model object ([torch.nn.Module]) *)

Record Model : Type := mkModel {
  parameters : weights;
  training : bool;
  grad : option grads
}.

(** ** Files written by [main] *)

Inductive File : Type :=
| mnist_cnn_pt (state_dict : weights)
| code_artifact (name : string) (path : string).

(** ** The world *)

Record World : Type := mkWorld {
  model : Model;
  grad_enabled : bool;
  rng : Rng;
  wandb_run : list Metric;
  stdout : list Line;
  storage : list FrozenTrial;
  files : list File
}.

Definition set_model (m : Model) (w : World) : World :=
  mkWorld m (grad_enabled w) (rng w) (wandb_run w) (stdout w) (storage w) (files w).
Definition set_grad_enabled (b : bool) (w : World) : World :=
  mkWorld (model w) b (rng w) (wandb_run w) (stdout w) (storage w) (files w).
Definition set_rng (g : Rng) (w : World) : World :=
  mkWorld (model w) (grad_enabled w) g (wandb_run w) (stdout w) (storage w) (files w).
Definition set_wandb_run (l : list Metric) (w : World) : World :=
  mkWorld (model w) (grad_enabled w) (rng w) l (stdout w) (storage w) (files w).
Definition set_stdout (l : list Line) (w : World) : World :=
  mkWorld (model w) (grad_enabled w) (rng w) (wandb_run w) l (storage w) (files w).
Definition set_storage (l : list FrozenTrial) (w : World) : World :=
  mkWorld (model w) (grad_enabled w) (rng w) (wandb_run w) (stdout w) l (files w).
Definition set_files (l : list File) (w : World) : World :=
  mkWorld (model w) (grad_enabled w) (rng w) (wandb_run w) (stdout w) (storage w) l.

(** ** The monad of the script: state and exceptions *)

Definition M (A : Type) : Type := World -> result A * World.

Definition ret {A : Type} (a : A) : M A := fun w => (Ok a, w).

Definition bind {A C : Type} (c : M A) (k : A -> M C) : M C :=
  fun w =>
    match c w with
    | (Ok a, w') => k a w'
    | (Raise e, w') => (Raise e, w')
    end.

Definition raise {A : Type} (e : Exception) : M A := fun w => (Raise e, w).

Definition gets {A : Type} (f : World -> A) : M A := fun w => (Ok (f w), w).

Definition modify (f : World -> World) : M unit := fun w => (Ok tt, f w).

(** [try: c finally: h] *)
Definition finally {A : Type} (c : M A) (h : World -> World) : M A :=
  fun w => let (r, w') := c w in (r, h w').

End Script.

Notation "x <- c1 ;; c2" := (bind c1 (fun x => c2))
  (at level 61, c1 at next level, right associativity).
Notation "c1 ;; c2" := (bind c1 (fun _ => c2))
  (at level 61, right associativity).

Section Torch.

Context {B : Backend}.

(** ** [torch.utils.data.DataLoader] *)

(** The keyword arguments the script passes to [DataLoader]; a key that is
    absent has the library's default. *)
Record LoaderKwargs : Type := mkKwargs {
  kw_batch_size : Z;
  kw_num_workers : nat;
  kw_pin_memory : bool;
  kw_shuffle : bool
}.

Definition kwargs_batch_size (n : Z) : LoaderKwargs := mkKwargs n 0 false false.

(** [kwargs.update({"num_workers": 1, "pin_memory": True, "shuffle": True})] *)
Definition update_cuda_kwargs (k : LoaderKwargs) : LoaderKwargs :=
  mkKwargs (kw_batch_size k) 1 true true.

Record DataLoader : Type := mkLoader {
  dataset : list sample;
  loader_batch_size : positive;
  shuffle : bool;
  num_workers : nat;
  pin_memory : bool
}.

(** The constructor refuses a batch size that is not positive. (It also
    refuses to shuffle an empty dataset; the datasets of the script are
    the two MNIST splits, and that check is not modelled.) *)
Definition new_DataLoader (ds : list sample) (k : LoaderKwargs) : M DataLoader :=
  match kw_batch_size k with
  | Zpos p => ret (mkLoader ds p (kw_shuffle k) (kw_num_workers k) (kw_pin_memory k))
  | _ => raise ValueError
  end.

(** [len(loader)]: the number of batches. *)
Definition loader_len (l : DataLoader) : nat :=
  length (batched (loader_batch_size l) (dataset l)).

(** [iter(loader)]: the batches of one pass. Every new iterator draws its
    base seed from the CPU generator, whether it shuffles or not. A
    shuffling loader has a [RandomSampler], which draws one more number,
    seeds a generator of its own with it and takes the order of the pass
    from that generator. *)
Definition iter_loader (l : DataLoader) : M (list batch) :=
  g <- gets rng ;;
  let (base_seed, g1) := next_draw g in
  if shuffle l then
    let (seed, g2) := next_draw g1 in
    let (order, _) := randperm (dataset l) [] (mkRng (seed_stream (Z.of_nat seed)) 0) in
    modify (set_rng g2) ;;
    ret (batched (loader_batch_size l) order)
  else
    modify (set_rng g1) ;;
    ret (batched (loader_batch_size l) (dataset l)).

(** [x.to(device)] moves a tensor and keeps its values. *)
Definition to_device {A : Type} (x : A) (d : Device) : A := x.

(** ** Tensor operations used by the script *)

(** [tensor.sum()], in exact arithmetic. *)
Definition Qsum (l : list Q) : Q := fold_right Qplus 0 l.

Inductive Reduction : Type := mean | sum.

(** [F.nll_loss(output, target, reduction=...)]: minus the score of the
    target class, per sample. *)
Definition nll_loss (output : list (label -> Q)) (target : list label)
    (reduction : Reduction) : Q :=
  let per_sample := map (fun ot => - fst ot (snd ot)) (combine output target) in
  match reduction with
  | sum => Qsum per_sample
  | mean => Qsum per_sample / inject_Z (Z.of_nat (length per_sample))
  end.

(** [row.argmax()]: the first class with the greatest score. *)
Fixpoint argmax_from (row : label -> Q) (best : label) (cs : list label) : label :=
  match cs with
  | [] => best
  | c :: cs' =>
      if Qle_bool (row c) (row best) then argmax_from row best cs'
      else argmax_from row c cs'
  end.

Definition argmax (row : label -> Q) : label := argmax_from row class0 classes_rest.

(** [pred.eq(target.view_as(pred)).sum().item()] *)
Definition count_eq (pred target : list label) : nat :=
  length (filter (fun pt => label_eqb (fst pt) (snd pt)) (combine pred target)).

(** [model.train()] and [model.eval()] *)
Definition model_set_training (mode : bool) : M unit :=
  modify (fun w => set_model (mkModel (parameters (model w)) mode (grad (model w))) w).

(** [model(data)] *)
Definition model_call (xs : list image) : M (list (label -> Q)) :=
  m <- gets model ;;
  ret (map (forward (training m) (parameters m)) xs).

(** ** [torch.optim.Adam] and [StepLR] *)

Record Optimizer : Type := mkOptimizer {
  opt_lr : Q;
  opt_state : adam_state
}.

(** [optim.Adam(model.parameters(), lr=lr)] *)
Definition Adam (lr0 : Q) : Optimizer := mkOptimizer lr0 adam_init.

(** [optimizer.zero_grad()] *)
Definition zero_grad : M unit :=
  modify (fun w => set_model (mkModel (parameters (model w)) (training (model w)) None) w).

(** [loss.backward()] for the mean loss of [b]; it needs a recorded graph. *)
Definition loss_backward (b : batch) : M unit :=
  enabled <- gets grad_enabled ;;
  if enabled then
    modify (fun w =>
      let m := model w in
      set_model (mkModel (parameters m) (training m)
                   (Some (backward (training m) (parameters m) b))) w)
  else raise RuntimeError.

(** [optimizer.step()]: parameters without a gradient are skipped. *)
Definition optimizer_step (o : Optimizer) : M Optimizer :=
  m <- gets model ;;
  match grad m with
  | None => ret o
  | Some g =>
      let (w', s') := adam_update (opt_lr o) (opt_state o) (parameters m) g in
      modify (set_model (mkModel w' (training m) (grad m))) ;;
      ret (mkOptimizer (opt_lr o) s')
  end.

Record StepLR : Type := mkStepLR {
  step_size : positive;
  sched_gamma : Q;
  last_epoch : nat
}.

(** [StepLR(optimizer, step_size=..., gamma=...)]: the initial step leaves
    the learning rate as it is. *)
Definition new_StepLR (step : positive) (g : Q) : StepLR := mkStepLR step g 0.

(** [scheduler.step()]: the learning rate is multiplied by [gamma] each
    time the epoch counter reaches a multiple of [step_size]. *)
Definition scheduler_step (s : StepLR) (o : Optimizer) : StepLR * Optimizer :=
  let e := S (last_epoch s) in
  let o' :=
    if (Z.of_nat e mod Zpos (step_size s) =? 0)%Z
    then mkOptimizer (opt_lr o * sched_gamma s) (opt_state o)
    else o in
  (mkStepLR (step_size s) (sched_gamma s) e, o').

(** ** [wandb.log], [print], [torch.no_grad] *)

Definition wandb_log (m : Metric) : M unit :=
  modify (fun w => set_wandb_run (wandb_run w ++ [m]) w).

Definition print (l : Line) : M unit :=
  modify (fun w => set_stdout (stdout w ++ [l]) w).

(** [with torch.no_grad(): body]: tracking is off inside and set back to
    what it was on every exit. *)
Definition no_grad {A : Type} (body : M A) : M A :=
  prev <- gets grad_enabled ;;
  finally (modify (set_grad_enabled false) ;; body) (set_grad_enabled prev).

(** Python's [a % b] on integers. *)
Definition py_mod (a b : Z) : M Z :=
  if (b =? 0)%Z then raise ZeroDivisionError else ret (a mod b)%Z.

(** Python's [a / b] with a float numerator and an integer denominator. *)
Definition py_div (a : Q) (b : nat) : M Q :=
  match b with
  | O => raise ZeroDivisionError
  | S _ => ret (a / inject_Z (Z.of_nat b))
  end.

End Torch.

Section Train.

Context {B : Backend}.

(** ** [train]

    [train_batch] is the body of the loop over
    [enumerate(train_loader)]; its boolean result is [true] when the body
    ends in [break]. The [model] argument of the source is the model of
    the world. *)

Definition train_batch (args : Args) (device : Device) (train_loader : DataLoader)
    (optimizer : Optimizer) (epoch : Z) (batch_idx : nat) (b : batch)
    : M (Optimizer * bool) :=
  let data := to_device (map fst b) device in
  let target := to_device (map snd b) device in
  zero_grad ;;
  output <- model_call data ;;
  let loss := nll_loss output target mean in
  loss_backward b ;;
  optimizer <- optimizer_step optimizer ;;
  r <- py_mod (Z.of_nat batch_idx) (log_interval args) ;;
  stop <- (if (r =? 0)%Z then
             percent <- py_div (100 * inject_Z (Z.of_nat batch_idx))
                               (loader_len train_loader) ;;
             print (TrainEpoch epoch (batch_idx * length data)
                      (length (dataset train_loader)) percent loss) ;;
             ret (dry_run args)
           else ret false) ;;
  if stop : bool then ret (optimizer, true)
  else
    wandb_log (training_loss loss) ;;
    ret (optimizer, false).

Fixpoint train_loop (args : Args) (device : Device) (train_loader : DataLoader)
    (optimizer : Optimizer) (epoch : Z) (batch_idx : nat) (batches : list batch)
    : M Optimizer :=
  match batches with
  | [] => ret optimizer
  | b :: rest =>
      r <- train_batch args device train_loader optimizer epoch batch_idx b ;;
      if snd r then ret (fst r)
      else train_loop args device train_loader (fst r) epoch (S batch_idx) rest
  end.

Definition train (args : Args) (device : Device) (train_loader : DataLoader)
    (optimizer : Optimizer) (epoch : Z) : M Optimizer :=
  model_set_training true ;;
  batches <- iter_loader train_loader ;;
  train_loop args device train_loader optimizer epoch 0 batches.

(** ** [test] *)

Fixpoint test_loop (device : Device) (batches : list batch)
    (test_loss : Q) (correct : nat) : M (Q * nat) :=
  match batches with
  | [] => ret (test_loss, correct)
  | b :: rest =>
      let data := to_device (map fst b) device in
      let target := to_device (map snd b) device in
      output <- model_call data ;;
      let test_loss := test_loss + nll_loss output target sum in
      let pred := map argmax output in
      let correct := (correct + count_eq pred target)%nat in
      test_loop device rest test_loss correct
  end.

Definition test (device : Device) (test_loader : DataLoader) (epoch : Z) : M Q :=
  model_set_training false ;;
  acc <- no_grad (batches <- iter_loader test_loader ;;
                  test_loop device batches 0 0%nat) ;;
  let correct := snd acc in
  test_loss <- py_div (fst acc) (length (dataset test_loader)) ;;
  percent <- py_div (100 * inject_Z (Z.of_nat correct))
                    (length (dataset test_loader)) ;;
  print (TestSet test_loss correct (length (dataset test_loader)) percent) ;;
  wandb_log (test_loss_epoch test_loss epoch) ;;
  ret test_loss.

End Train.

(** ** The summed loss of [test], over any arithmetic

    What [test] does to [test_loss], with the arithmetic left open: the
    tensor addition that [F.nll_loss(..., reduction="sum")] uses inside a
    batch, the conversion [.item()] of the batch sum to a Python float,
    and the Python addition of [test_loss += ...]. A batch is given by the
    scores that the model gives to the target classes of its samples. *)

Section Summation.

Variable N : Type.
Variable zero : N.
Variable neg : N -> N.
Variable add_tensor : N -> N -> N.
Variable item : N -> N.
Variable add_python : N -> N -> N.

(** [F.nll_loss(output, target, reduction="sum")] *)
Definition nll_loss_sum (scores : list N) : N :=
  fold_left add_tensor (map neg scores) zero.

(** [test_loss = 0], then [test_loss += F.nll_loss(...).item()] for every
    batch of the pass. *)
Definition summed_loss (batches : list (list N)) : N :=
  fold_left (fun test_loss scores => add_python test_loss (item (nll_loss_sum scores)))
            batches zero.

End Summation.

(** The arithmetic of the machine: float32 tensors, binary64 Python
    floats, both rounding to nearest, ties to even. *)
Definition float32_add : spec_float -> spec_float -> spec_float := SFadd 24 128.

Definition float64_add : spec_float -> spec_float -> spec_float := SFadd 53 1024.

(** The float32 and the binary64 number nearest to [m * 2^e]. *)
Definition float32 (m e : Z) : spec_float := binary_normalize 24 128 m e false.

Definition float64 (m e : Z) : spec_float := binary_normalize 53 1024 m e false.

(** [.item()] of a float32 scalar: the same number as a Python float. *)
Definition float32_item (x : spec_float) : spec_float :=
  match x with
  | S754_finite s m e => binary_round 53 1024 s m e
  | _ => x
  end.

Definition summed_loss_float : list (list spec_float) -> spec_float :=
  summed_loss (S754_zero false) SFopp float32_add float32_item float64_add.

Section Search.

Context {B : Backend}.

(** ** optuna: trials and studies *)

(** A trial object is a handle on its record in the storage; [ask]
    creates the record, so the record of a handle exists. *)
Record Trial : Type := mkHandle { trial_id : nat }.

Inductive Direction : Type := minimize | maximize.

Record Study : Type := mkStudy { direction : Direction }.

Fixpoint update_nth {A : Type} (n : nat) (f : A -> A) (l : list A) : list A :=
  match l, n with
  | [], _ => []
  | x :: l', O => f x :: l'
  | x :: l', S n' => x :: update_nth n' f l'
  end.

Fixpoint lookup_param (name : string) (ps : list (string * ParamValue))
    : option ParamValue :=
  match ps with
  | [] => None
  | (k, v) :: ps' => if String.eqb k name then Some v else lookup_param name ps'
  end.

Definition trial_params (t : Trial) (st : list FrozenTrial) : list (string * ParamValue) :=
  match nth_error st (trial_id t) with
  | Some r => params r
  | None => []
  end.

Definition set_trial_param (t : Trial) (name : string) (v : ParamValue) : M unit :=
  modify (fun w =>
    set_storage
      (update_nth (trial_id t)
         (fun r => mkTrial (number r) (params r ++ [(name, v)]) (state r) (value r))
         (storage w)) w).

(** A parameter that the trial already holds is returned as it is
    (a value of another kind of distribution is refused); otherwise the
    sampler draws it and the storage records it. *)
Definition suggest (t : Trial) (name : string)
    (draw : list FrozenTrial -> ParamValue) : M ParamValue :=
  st <- gets storage ;;
  match lookup_param name (trial_params t st) with
  | Some v => ret v
  | None =>
      let v := draw st in
      set_trial_param t name v ;;
      ret v
  end.

Definition suggest_float (t : Trial) (name : string) (low high : Q) (log : bool) : M Q :=
  v <- suggest t name
         (fun st => PFloat (sample_float st (trial_id t) name low high log)) ;;
  match v with
  | PFloat q => ret q
  | PInt _ => raise ValueError
  end.

(** The sampler draws an index into [choices]. *)
Definition suggest_categorical (t : Trial) (name : string) (choices : list Z) : M Z :=
  match choices with
  | [] => raise ValueError
  | c0 :: _ =>
      v <- suggest t name
             (fun st =>
                PInt (nth (Nat.modulo (sample_index st (trial_id t) name (length choices))
                                      (length choices))
                          choices c0)) ;;
      match v with
      | PInt z => ret z
      | PFloat _ => raise ValueError
      end
  end.

(** [optuna.create_study(direction=...)]: a study on a fresh in-memory
    storage. *)
Definition create_study (d : Direction) : M Study :=
  modify (set_storage []) ;;
  ret (mkStudy d).

(** [study.ask()] *)
Definition ask : M Trial :=
  st <- gets storage ;;
  modify (set_storage (st ++ [mkTrial (length st) [] RUNNING None])) ;;
  ret (mkHandle (length st)).

(** [study.tell(trial, ...)] *)
Definition tell (t : Trial) (s : TrialState) (v : option Q) : M unit :=
  modify (fun w =>
    set_storage
      (update_nth (trial_id t) (fun r => mkTrial (number r) (params r) s v) (storage w))
      w).

(** [study.optimize(func, n_trials=...)] with the default [catch=()]: the
    trials run one after the other, and an exception of the objective
    marks the trial as failed and ends the search. *)
Fixpoint optimize (func : Trial -> M Q) (n_trials : nat) : M unit :=
  match n_trials with
  | O => ret tt
  | S n =>
      trial <- ask ;;
      (fun w =>
         match func trial w with
         | (Ok v, w') => tell trial COMPLETE (Some v) w'
         | (Raise e, w') => (Raise e, snd (tell trial FAIL None w'))
         end) ;;
      optimize func n
  end.

(** Whether [new] replaces [best] as the best value. *)
Definition improves (d : Direction) (best new : Q) : bool :=
  match d with
  | minimize => negb (Qle_bool best new)
  | maximize => negb (Qle_bool new best)
  end.

(** The storage keeps the first completed trial and replaces it whenever a
    later completed trial is strictly better. *)
Fixpoint best_from (d : Direction) (best : FrozenTrial) (bv : Q)
    (ts : list FrozenTrial) : FrozenTrial :=
  match ts with
  | [] => best
  | t :: ts' =>
      match state t, value t with
      | COMPLETE, Some v =>
          if improves d bv v then best_from d t v ts' else best_from d best bv ts'
      | _, _ => best_from d best bv ts'
      end
  end.

Fixpoint best_of (d : Direction) (ts : list FrozenTrial) : option FrozenTrial :=
  match ts with
  | [] => None
  | t :: ts' =>
      match state t, value t with
      | COMPLETE, Some v => Some (best_from d t v ts')
      | _, _ => best_of d ts'
      end
  end.

(** [study.best_trial] *)
Definition best_trial (s : Study) : M FrozenTrial :=
  st <- gets storage ;;
  match best_of (direction s) st with
  | Some t => ret t
  | None => raise ValueError
  end.

(** [study.best_params] *)
Definition best_params (s : Study) : M (list (string * ParamValue)) :=
  t <- best_trial s ;;
  ret (params t).

(** ** [train_model] *)

(** [range(n)] *)
Definition range (n : Z) : list Z := map Z.of_nat (seq 0 (Z.to_nat n)).

(** The loop over [range(args.epochs)]; [loss] is [None] as long as the
    local variable is unbound. *)
Fixpoint epoch_loop (args : Args) (device : Device)
    (train_loader test_loader : DataLoader) (es : list Z)
    (optimizer : Optimizer) (scheduler : StepLR) (loss : option Q)
    : M (Optimizer * StepLR * option Q) :=
  match es with
  | [] => ret (optimizer, scheduler, loss)
  | epoch :: es' =>
      optimizer <- train args device train_loader optimizer epoch ;;
      l <- test device test_loader epoch ;;
      let so := scheduler_step scheduler optimizer in
      epoch_loop args device train_loader test_loader es' (snd so) (fst so) (Some l)
  end.

Definition train_model (trial : Trial) (args : Args) (device : Device) : M Q :=
  lr <- suggest_float trial "lr" (1 # 100000) (1 # 10) true ;;
  batch_size <- suggest_categorical trial "batch_size" [64; 128; 256]%Z ;;
  gamma <- suggest_float trial "gamma" (1 # 2) (9 # 10) false ;;
  let use_cuda := negb (no_cuda args) && cuda_is_available in
  let train_kwargs := kwargs_batch_size batch_size in
  let test_kwargs := kwargs_batch_size (test_batch_size args) in
  let train_kwargs := if use_cuda then update_cuda_kwargs train_kwargs else train_kwargs in
  let test_kwargs := if use_cuda then update_cuda_kwargs test_kwargs else test_kwargs in
  let dataset1 := MNIST_train in
  let dataset2 := MNIST_test in
  train_loader <- new_DataLoader dataset1 train_kwargs ;;
  test_loader <- new_DataLoader dataset2 test_kwargs ;;
  let optimizer := Adam lr in
  let scheduler := new_StepLR 1 gamma in
  r <- epoch_loop args device train_loader test_loader (range (epochs args))
         optimizer scheduler None ;;
  match snd r with
  | Some loss => ret loss
  | None => raise UnboundLocalError
  end.

(** ** [main] *)

(** The defaults of the argument parser. *)
Definition default_args : Args :=
  mkArgs 64 1000 2 1 (7 # 10) false false 1 10 false.

(** [torch.manual_seed(seed)], for a seed that torch accepts (from -2^63
    up to 2^64 - 1; the default of the script is 1). *)
Definition manual_seed (s : Z) : M unit :=
  modify (set_rng (mkRng (seed_stream s) 0)).

(** [Net().to(device)]: a new module is in training mode. *)
Definition new_Net (device : Device) : M unit :=
  g <- gets rng ;;
  let (w0, g') := Net_init g in
  modify (set_rng g') ;;
  modify (set_model (to_device (mkModel w0 true None) device)).

Definition main (args : Args) : M unit :=
  let use_cuda := negb (no_cuda args) && cuda_is_available in
  manual_seed (seed args) ;;
  let device := if use_cuda then cuda else cpu in
  new_Net device ;;
  study <- create_study minimize ;;
  optimize (fun trial => train_model trial args device) 10 ;;
  best <- best_params study ;;
  print (BestParameters best) ;;
  if save_model args then
    m <- gets model ;;
    modify (fun w => set_files (files w ++ [mnist_cnn_pt (parameters m)]) w) ;;
    modify (fun w => set_files
                       (files w ++ [code_artifact "training_script" "scripts/train.py"]) w)
  else ret tt.

End Search.

(** ** A small backend to run the script on

    Two classes; the image is the score of class [true] and class [false]
    scores 0. The parameters count the optimizer steps. *)

Module Toy.

Definition toy_sample_float (st : list FrozenTrial) (n : nat) (name : string)
    (low high : Q) (log : bool) : Q :=
  low + (high - low) / inject_Z (Z.of_nat (S n)).

#[local] Instance backend : Backend := {|
  weights := Z;
  grads := unit;
  image := Q;
  label := bool;
  adam_state := nat;
  label_eqb := Bool.eqb;
  class0 := false;
  classes_rest := [true];
  forward := fun _ _ x c => if c then x else 0;
  backward := fun _ _ _ => tt;
  adam_init := 0%nat;
  adam_update := fun _ s w _ => ((w + 1)%Z, S s);
  Net_init := fun g => (0%Z, g);
  seed_stream := fun s n => (Z.to_nat s + n)%nat;
  cuda_is_available := false;
  MNIST_train := [(-1, true); (-2, true); (-1, false)];
  MNIST_test := [(-1, true); (1, false)];
  sample_float := toy_sample_float;
  sample_index := fun _ n _ _ => n
|}.

Definition world0 : World :=
  mkWorld (mkModel 0%Z true None) true (mkRng (fun n => n) 0) [] [] [] [].

(** A world in which the study has just created trial 0. *)
Definition world1 : World :=
  mkWorld (mkModel 0%Z true None) true (mkRng (fun n => n) 0) [] []
    [mkTrial 0 [] RUNNING None] [].

Definition trial0 : Trial := mkHandle 0.

Definition loader (ds : list sample) (bs : positive) (sh : bool) : DataLoader :=
  mkLoader ds bs sh 0 false.

(** One epoch, progress every 10 batches. *)
Definition args0 : Args := mkArgs 64 1000 1 1 (7 # 10) false false 1 10 false.

(** [args0] with other values of [--batch-size], [--lr] and [--gamma]. *)
Definition args_flags : Args := mkArgs 256 1000 1 (1 # 100) (9 # 10) false false 1 10 false.

(** [args0] with [--dry-run]. *)
Definition args_dry : Args := mkArgs 64 1000 1 1 (7 # 10) false true 1 10 false.

(** [args_dry] with [--log-interval 0]. *)
Definition args_dry_li0 : Args := mkArgs 64 1000 1 1 (7 # 10) false true 1 0 false.

(** [args0] with [--epochs 0] and with [--epochs 2]. *)
Definition args_no_epoch : Args := mkArgs 64 1000 0 1 (7 # 10) false false 1 10 false.
Definition args_two_epochs : Args := mkArgs 64 1000 2 1 (7 # 10) false false 1 10 false.

(** [args0] with [--log-interval 0], with [--test-batch-size 0] and with
    [--save-model]. *)
Definition args_li0 : Args := mkArgs 64 1000 1 1 (7 # 10) false false 1 0 false.
Definition args_tb0 : Args := mkArgs 64 0 1 1 (7 # 10) false false 1 10 false.
Definition args_save : Args := mkArgs 64 1000 1 1 (7 # 10) false false 1 10 true.

(** A world left over from another run. *)
Definition world2 : World :=
  mkWorld (mkModel 5%Z false None) true (mkRng (fun n => 2 * n)%nat 3) [] []
    [mkTrial 0 [] COMPLETE (Some 1)] [].

End Toy.

(** ** A small backend whose loss depends on the parameters

    The parameters count the optimizer steps taken so far and the model
    scores the target class of the one test sample at minus the squared
    distance of the count from 5: the loss of a trial depends on the
    trials before it, first falling and then rising. *)

Module ToySteps.

#[local] Instance backend : Backend := {|
  weights := Z;
  grads := unit;
  image := Q;
  label := bool;
  adam_state := nat;
  label_eqb := Bool.eqb;
  class0 := false;
  classes_rest := [true];
  forward := fun _ w _ c => if c then - inject_Z ((w - 5) * (w - 5)) else 0;
  backward := fun _ _ _ => tt;
  adam_init := 0%nat;
  adam_update := fun _ s w _ => ((w + 1)%Z, S s);
  Net_init := fun g => (0%Z, g);
  seed_stream := fun s n => (Z.to_nat s + n)%nat;
  cuda_is_available := false;
  MNIST_train := [(0, true)];
  MNIST_test := [(0, true)];
  sample_float := Toy.toy_sample_float;
  sample_index := fun _ n _ _ => n
|}.

Definition world0 : World :=
  mkWorld (mkModel 0%Z true None) true (mkRng (fun n => n) 0) [] [] [] [].

End ToySteps.

(** ** Vocabulary of the properties *)

Section Vocabulary.

Context {B : Backend}.

(** [keeps f c]: the observation [f] of the world is the same after [c],
    whether [c] returns or raises. *)
Definition keeps {X A : Type} (f : World -> X) (c : M A) : Prop :=
  forall w, f (snd (c w)) = f w.

(** The worlds before and after a pass over a loader differ at most in the
    generator. *)
Definition same_but_rng (w w1 : World) : Prop :=
  model w1 = model w /\ grad_enabled w1 = grad_enabled w /\
  wandb_run w1 = wandb_run w /\ stdout w1 = stdout w /\
  storage w1 = storage w /\ files w1 = files w.

(** Negative log-likelihood of one sample under parameters [ws]. *)
Definition sample_nll (tr : bool) (ws : weights) (s : sample) : Q :=
  - forward tr ws (fst s) (snd s).

(** Whether the top-1 prediction for the sample is its label. *)
Definition top1_correct (tr : bool) (ws : weights) (s : sample) : bool :=
  label_eqb (argmax (forward tr ws (fst s))) (snd s).

(** The summed per-sample loss of a set. *)
Definition total_nll (tr : bool) (ws : weights) (ds : list sample) : Q :=
  Qsum (map (sample_nll tr ws) ds).

(** The number of correct top-1 predictions on a set. *)
Definition count_correct (tr : bool) (ws : weights) (ds : list sample) : nat :=
  length (filter (top1_correct tr ws) ds).

(** The mean loss of a batch, as [train] computes it before the step. *)
Definition batch_loss (m : Model) (b : batch) : Q :=
  nll_loss (map (forward (training m) (parameters m)) (map fst b)) (map snd b) mean.

(** [batch_idx % args.log_interval == 0], where it is defined. *)
Definition logged (args : Args) (batch_idx : nat) : bool :=
  (Z.of_nat batch_idx mod log_interval args =? 0)%Z.

(** The progress line of batch [batch_idx]. *)
Definition progress_line (train_loader : DataLoader) (epoch : Z) (m : Model)
    (batch_idx : nat) (b : batch) : Line :=
  TrainEpoch epoch (batch_idx * length b) (length (dataset train_loader))
    (100 * inject_Z (Z.of_nat batch_idx)
     / inject_Z (Z.of_nat (loader_len train_loader)))
    (batch_loss m b).

(** One Adam update of the parameters of [m] on batch [b]. *)
Definition stepped (o : Optimizer) (m : Model) (b : batch) : weights * adam_state :=
  adam_update (opt_lr o) (opt_state o) (parameters m)
    (backward (training m) (parameters m) b).

(** Two run configurations that agree on everything but [--lr], [--gamma]
    and [--batch-size]. *)
Definition same_but_superseded (a1 a2 : Args) : Prop :=
  test_batch_size a1 = test_batch_size a2 /\
  epochs a1 = epochs a2 /\
  no_cuda a1 = no_cuda a2 /\
  dry_run a1 = dry_run a2 /\
  seed a1 = seed a2 /\
  log_interval a1 = log_interval a2 /\
  save_model a1 = save_model a2.

(** [never_raises e0 c]: no run of [c] ends in the exception [e0]. *)
Definition never_raises {A : Type} (e0 : Exception) (c : M A) : Prop :=
  forall w e w', c w = (Raise e, w') -> e <> e0.

(** What the study records of a trial besides its parameters. *)
Definition outcome (t : FrozenTrial) : nat * TrialState * option Q :=
  (number t, state t, value t).

(** The outcomes of the trials of the storage, in order. *)
Definition outcomes (w : World) : list (nat * TrialState * option Q) :=
  map outcome (storage w).

(** The outcome the study records for a completed trial. *)
Definition completed (iv : nat * Q) : nat * TrialState * option Q :=
  (fst iv, COMPLETE, Some (snd iv)).

(** The search of [main] (creating the study, optimizing, reading the
    best parameters) for an objective and a number of trials. *)
Definition search_driver (func : Trial -> M Q) (n_trials : nat)
    : M (list (string * ParamValue)) :=
  study <- create_study minimize ;;
  optimize func n_trials ;;
  best_params study.

(** A stubbed trial runner: it draws the three hyperparameters as
    [train_model] does and returns the entry of [objectives] for its trial
    instead of training. *)
Definition stub_runner (objectives : list Q) (trial : Trial) : M Q :=
  lr <- suggest_float trial "lr" (1 # 100000) (1 # 10) true ;;
  batch_size <- suggest_categorical trial "batch_size" [64; 128; 256]%Z ;;
  gamma <- suggest_float trial "gamma" (1 # 2) (9 # 10) false ;;
  ret (nth (trial_id trial) objectives 0).

(** The parameters that a trial of the script holds once [train_model] has
    drawn them. *)
Definition hyperparameters (ps : list (string * ParamValue)) : Prop :=
  exists (a : Q) (b : Z) (c : Q),
    ps = [("lr"%string, PFloat a); ("batch_size"%string, PInt b);
          ("gamma"%string, PFloat c)] /\
    In b [64; 128; 256]%Z.

(** The record of trial [t] with one more parameter. *)
Definition with_param (t : Trial) (name : string) (v : ParamValue)
    (st : list FrozenTrial) : list FrozenTrial :=
  update_nth (trial_id t)
    (fun r => mkTrial (number r) (params r ++ [(name, v)]) (state r) (value r)) st.

(** The world in which the search of [main] starts: the generator seeded,
    the model initialised, the storage empty; the rest as [w] has it. *)
Definition started (args : Args) (w : World) : World :=
  let (w0, g') := Net_init (mkRng (seed_stream (seed args)) 0) in
  mkWorld (mkModel w0 true None) (grad_enabled w) g' (wandb_run w) (stdout w) []
    (files w).

End Vocabulary.

(** * Properties *)

(** ** Orders and batches *)

Lemma insert_at_perm (A : Type) (k : nat) (x : A) (l : list A) :
  Permutation (insert_at k x l) (x :: l).
Proof.
  revert k; induction l as [|y l IH]; intros [|k]; simpl; auto.
  rewrite IH. apply perm_swap.
Qed.

Lemma randperm_perm (A : Type) (l acc : list A) (g : Rng) :
  Permutation (fst (randperm l acc g)) (l ++ acc).
Proof.
  revert acc g; induction l as [|x l IH]; intros acc g; simpl.
  - reflexivity.
  - rewrite IH, insert_at_perm. symmetry. apply Permutation_middle.
Qed.

Lemma chunks_concat (A : Type) (bs : nat) (l : list A) :
  forall room cur, concat (chunks bs room cur l) = rev cur ++ l.
Proof.
  induction l as [|x l IH]; intros room cur; simpl.
  - destruct cur; simpl; now rewrite ?app_nil_r.
  - destruct room as [|[|r]]; simpl; rewrite IH; simpl;
      now rewrite <- ?app_assoc.
Qed.

Lemma batched_concat (A : Type) (bs : positive) (l : list A) :
  concat (batched bs l) = l.
Proof. unfold batched. now rewrite chunks_concat. Qed.

Lemma batched_nil (A : Type) (bs : positive) (l : list A) :
  batched bs l = [] <-> l = [].
Proof.
  split.
  - intros H. rewrite <- (batched_concat bs l), H. reflexivity.
  - intros ->. reflexivity.
Qed.

(** No batch of a pass is empty. *)
Lemma chunks_nonempty (A : Type) (bs : nat) (l : list A) :
  forall room cur, Forall (fun b => b <> []) (chunks bs room cur l).
Proof.
  induction l as [|x l IH]; intros room cur; simpl.
  - destruct cur as [|c cur]; constructor; auto.
    simpl. intros H. now apply app_eq_nil in H as [_ H].
  - destruct room as [|[|r]]; try apply IH; constructor; try apply IH;
      simpl; intros H; now apply app_eq_nil in H as [_ H].
Qed.

(** ** Frames: what a computation leaves alone *)

Create HintDb frame.

Section Frames.

Context {B : Backend}.

Lemma keeps_ret (X A : Type) (f : World -> X) (a : A) : keeps f (ret a).
Proof. intros w; reflexivity. Qed.

Lemma keeps_raise (X A : Type) (f : World -> X) (e : Exception) :
  keeps f (raise (A := A) e).
Proof. intros w; reflexivity. Qed.

Lemma keeps_gets (X A : Type) (f : World -> X) (p : World -> A) : keeps f (gets p).
Proof. intros w; reflexivity. Qed.

Lemma keeps_modify (X : Type) (f : World -> X) (h : World -> World) :
  (forall w, f (h w) = f w) -> keeps f (modify h).
Proof. intros H w; apply H. Qed.

Lemma keeps_bind (X A C : Type) (f : World -> X) (c : M A) (k : A -> M C) :
  keeps f c -> (forall a, keeps f (k a)) -> keeps f (bind c k).
Proof.
  intros Hc Hk w. unfold bind. specialize (Hc w).
  destruct (c w) as [[a|e] w1]; simpl in *.
  - now rewrite Hk.
  - exact Hc.
Qed.

Lemma keeps_finally (X A : Type) (f : World -> X) (c : M A) (h : World -> World) :
  keeps f c -> (forall w, f (h w) = f w) -> keeps f (finally c h).
Proof.
  intros Hc Hh w. unfold finally. specialize (Hc w).
  destruct (c w) as [r w1]; simpl in *. now rewrite Hh.
Qed.

Lemma keeps_no_grad (X A : Type) (f : World -> X) (body : M A) :
  (forall b w, f (set_grad_enabled b w) = f w) ->
  keeps f body -> keeps f (no_grad body).
Proof.
  intros Hf Hb. unfold no_grad.
  apply keeps_bind; [apply keeps_gets|]. intros prev.
  apply keeps_finally; [|apply Hf].
  apply keeps_bind; [apply keeps_modify, Hf | intros _; apply Hb].
Qed.

(** Whatever the body does to the flag, [no_grad] leaves it as it found
    it. *)
Lemma no_grad_restores (A : Type) (body : M A) : keeps grad_enabled (no_grad body).
Proof.
  intros w. unfold no_grad, bind, gets, finally, modify.
  destruct (body (set_grad_enabled false w)) as [[a|e] w1]; reflexivity.
Qed.

(** The body of [no_grad] starts with tracking off. *)
Lemma no_grad_body (A : Type) (body : M A) (w : World) :
  no_grad body w =
  (fst (body (set_grad_enabled false w)),
   set_grad_enabled (grad_enabled w) (snd (body (set_grad_enabled false w)))).
Proof.
  unfold no_grad, bind, gets, finally, modify.
  destruct (body (set_grad_enabled false w)) as [[a|e] w1]; reflexivity.
Qed.

Lemma keeps_iter_loader (X : Type) (f : World -> X) (l : DataLoader) :
  (forall g w, f (set_rng g w) = f w) -> keeps f (iter_loader l).
Proof.
  intros Hf. unfold iter_loader.
  apply keeps_bind; [apply keeps_gets|]. intros g.
  destruct (next_draw g) as [base_seed g1]. destruct (shuffle l).
  - destruct (next_draw g1) as [seed g2].
    destruct (randperm (dataset l) [] (mkRng (seed_stream (Z.of_nat seed)) 0))
      as [order g'].
    apply keeps_bind; [apply keeps_modify, Hf | intros _; apply keeps_ret].
  - apply keeps_bind; [apply keeps_modify, Hf | intros _; apply keeps_ret].
Qed.

Lemma keeps_model_call (X : Type) (f : World -> X) (xs : list image) :
  keeps f (model_call xs).
Proof.
  unfold model_call. apply keeps_bind; [apply keeps_gets | intros; apply keeps_ret].
Qed.

Lemma keeps_py_div (X : Type) (f : World -> X) (a : Q) (n : nat) : keeps f (py_div a n).
Proof. destruct n; [apply keeps_raise | apply keeps_ret]. Qed.

Lemma keeps_py_mod (X : Type) (f : World -> X) (a b : Z) : keeps f (py_mod a b).
Proof. unfold py_mod. destruct (b =? 0)%Z; [apply keeps_raise | apply keeps_ret]. Qed.

Lemma keeps_test_loop (X : Type) (f : World -> X) (device : Device)
    (batches : list batch) :
  forall l c, keeps f (test_loop device batches l c).
Proof.
  induction batches as [|b rest IH]; intros l c; simpl.
  - apply keeps_ret.
  - apply keeps_bind; [apply keeps_model_call | intros; apply IH].
Qed.

End Frames.

#[global] Hint Resolve keeps_ret keeps_raise keeps_gets keeps_model_call
  keeps_py_div keeps_py_mod keeps_test_loop : frame.

(** [frame] proves [keeps f c] along the structure of [c], for an
    observation that the updates of [c] do not touch. *)
Ltac frame :=
  repeat first
    [ solve [auto with frame]
    | apply keeps_iter_loader; intros; reflexivity
    | apply keeps_bind; [|intros]
    | apply keeps_modify; intros; reflexivity
    | apply keeps_no_grad; [intros; reflexivity|]
    | apply keeps_finally; [|intros; reflexivity] ].

Section Evaluator_frame.

Context {B : Backend}.

Lemma test_keeps_weights (device : Device) (test_loader : DataLoader) (epoch : Z) :
  keeps (fun w => parameters (model w)) (test device test_loader epoch).
Proof. unfold test, model_set_training, print, wandb_log. frame. Qed.

Lemma test_keeps_grad_enabled (device : Device) (test_loader : DataLoader) (epoch : Z) :
  keeps grad_enabled (test device test_loader epoch).
Proof.
  unfold test, model_set_training, print, wandb_log.
  apply keeps_bind; [frame | intros _].
  apply keeps_bind; [apply no_grad_restores | intros acc]. frame.
Qed.

(** C9. [test] leaves the parameters of the model as they were, for every
    model, loader and world, whether it returns or raises; and gradient
    tracking, which the pass switches off, is afterwards what it was
    before the call. *)
Theorem test_leaves_parameters_unchanged
    (device : Device) (test_loader : DataLoader) (epoch : Z) (w : World) :
  let w' := snd (test device test_loader epoch w) in
  parameters (model w') = parameters (model w) /\
  grad_enabled w' = grad_enabled w.
Proof.
  split.
  - apply (test_keeps_weights device test_loader epoch w).
  - apply (test_keeps_grad_enabled device test_loader epoch w).
Qed.

End Evaluator_frame.

(** ** Running the monad *)

Section Run.

Context {B : Backend}.

Lemma bind_ok (A C : Type) (c : M A) (k : A -> M C) (w w1 : World) (a : A) :
  c w = (Ok a, w1) -> bind c k w = k a w1.
Proof. intros H. unfold bind. now rewrite H. Qed.

Lemma bind_raise (A C : Type) (c : M A) (k : A -> M C) (w w1 : World) (e : Exception) :
  c w = (Raise e, w1) -> bind c k w = (Raise e, w1).
Proof. intros H. unfold bind. now rewrite H. Qed.

(** A successful [bind] ran both parts. *)
Lemma bind_inv (A C : Type) (c : M A) (k : A -> M C) (w w2 : World) (r : C) :
  bind c k w = (Ok r, w2) ->
  exists a w1, c w = (Ok a, w1) /\ k a w1 = (Ok r, w2).
Proof.
  unfold bind. destruct (c w) as [[a|e] w1]; intros H; [eauto | discriminate].
Qed.

Lemma iter_loader_run (l : DataLoader) (w : World) :
  exists order w1,
    iter_loader l w = (Ok (batched (loader_batch_size l) order), w1) /\
    Permutation order (dataset l) /\ same_but_rng w w1.
Proof.
  unfold iter_loader, bind, gets, modify, ret.
  destruct (next_draw (rng w)) as [base_seed g1]. destruct (shuffle l).
  - destruct (next_draw g1) as [seed g2].
    pose proof (randperm_perm (dataset l) []
                  (mkRng (seed_stream (Z.of_nat seed)) 0)) as HP.
    destruct (randperm (dataset l) [] (mkRng (seed_stream (Z.of_nat seed)) 0))
      as [order g'].
    exists order, (set_rng g2 w). simpl in HP. rewrite app_nil_r in HP.
    repeat split; auto.
  - exists (dataset l), (set_rng g1 w). repeat split; auto.
Qed.

End Run.

Arguments bind_ok {B A C c} k {w w1 a} _.
Arguments bind_raise {B A C c} k {w w1 e} _.

(** ** The evaluator's aggregates *)

Section Evaluator.

Context {B : Backend}.

Lemma Qsum_app (l l' : list Q) : Qsum (l ++ l') == Qsum l + Qsum l'.
Proof.
  induction l as [|x l IH]; simpl.
  - now rewrite Qplus_0_l.
  - rewrite IH. apply Qplus_assoc.
Qed.

Lemma Qsum_perm (l l' : list Q) : Permutation l l' -> Qsum l == Qsum l'.
Proof.
  induction 1; simpl.
  - reflexivity.
  - now rewrite IHPermutation.
  - rewrite !Qplus_assoc. now rewrite (Qplus_comm y x).
  - now rewrite IHPermutation1.
Qed.

Lemma total_nll_app (tr : bool) (ws : weights) (l l' : list sample) :
  total_nll tr ws (l ++ l') == total_nll tr ws l + total_nll tr ws l'.
Proof. unfold total_nll. rewrite map_app. apply Qsum_app. Qed.

Lemma total_nll_perm (tr : bool) (ws : weights) (l l' : list sample) :
  Permutation l l' -> total_nll tr ws l == total_nll tr ws l'.
Proof. intros H. apply Qsum_perm, Permutation_map, H. Qed.

Lemma count_correct_app (tr : bool) (ws : weights) (l l' : list sample) :
  count_correct tr ws (l ++ l') = (count_correct tr ws l + count_correct tr ws l')%nat.
Proof. unfold count_correct. now rewrite filter_app, length_app. Qed.

Lemma filter_perm (A : Type) (p : A -> bool) (l l' : list A) :
  Permutation l l' -> Permutation (filter p l) (filter p l').
Proof.
  induction 1; simpl.
  - constructor.
  - destruct (p x); auto.
  - destruct (p x), (p y); auto using perm_swap.
  - etransitivity; eauto.
Qed.

Lemma count_correct_perm (tr : bool) (ws : weights) (l l' : list sample) :
  Permutation l l' -> count_correct tr ws l = count_correct tr ws l'.
Proof. intros H. apply Permutation_length, filter_perm, H. Qed.

Lemma count_correct_le (tr : bool) (ws : weights) (l : list sample) :
  (count_correct tr ws l <= length l)%nat.
Proof. apply filter_length_le. Qed.

(** The summed loss of one batch, as [test] computes it. *)
Lemma nll_loss_sum_batch (tr : bool) (ws : weights) (b : batch) :
  nll_loss (map (forward tr ws) (map fst b)) (map snd b) sum = total_nll tr ws b.
Proof.
  unfold nll_loss, total_nll. f_equal.
  induction b as [|[x y] b IH]; simpl; [reflexivity | now rewrite IH].
Qed.

(** The correct count of one batch, as [test] computes it. *)
Lemma count_eq_batch (tr : bool) (ws : weights) (b : batch) :
  count_eq (map argmax (map (forward tr ws) (map fst b))) (map snd b)
  = count_correct tr ws b.
Proof.
  unfold count_eq, count_correct.
  induction b as [|[x y] b IH]; simpl; [reflexivity|].
  unfold top1_correct at 1. simpl.
  destruct (label_eqb (argmax (forward tr ws x)) y); simpl; now rewrite IH.
Qed.

End Evaluator.

Section Evaluator_run.

Context {B : Backend}.

(** The loop of [test] adds up the batches' losses and correct counts and
    leaves the world alone. *)
Lemma test_loop_run (device : Device) (batches : list batch) :
  forall (l : Q) (c : nat) (w : World),
    let tr := training (model w) in
    let ws := parameters (model w) in
    exists l',
      test_loop device batches l c w
      = (Ok (l', (c + count_correct tr ws (concat batches))%nat), w) /\
      l' == l + total_nll tr ws (concat batches).
Proof.
  induction batches as [|b rest IH]; intros l c w tr ws; cbn [test_loop concat].
  - exists l. split.
    + unfold ret. now rewrite Nat.add_0_r.
    + unfold total_nll; simpl. now rewrite Qplus_0_r.
  - unfold bind at 1, model_call, bind, gets, ret, to_device.
    fold tr ws. rewrite nll_loss_sum_batch, count_eq_batch.
    destruct (IH (l + total_nll tr ws b) (c + count_correct tr ws b)%nat w)
      as (l' & Hrun & Hl').
    exists l'. fold tr ws in Hrun, Hl'. split.
    + rewrite Hrun, count_correct_app. now rewrite Nat.add_assoc.
    + rewrite Hl', total_nll_app. now rewrite Qplus_assoc.
Qed.

(** What a call of [test] on a non-empty set returns, prints and logs. *)
Lemma test_run (device : Device) (test_loader : DataLoader) (epoch : Z) (w : World) :
  dataset test_loader <> [] ->
  let ws := parameters (model w) in
  let ds := dataset test_loader in
  let c := count_correct false ws ds in
  exists (v : Q) (w' : World),
    test device test_loader epoch w = (Ok v, w') /\
    v == total_nll false ws ds / inject_Z (Z.of_nat (length ds)) /\
    stdout w' = stdout w ++
      [TestSet v c (length ds)
         (100 * inject_Z (Z.of_nat c) / inject_Z (Z.of_nat (length ds)))] /\
    wandb_run w' = wandb_run w ++ [test_loss_epoch v epoch].
Proof.
  intros Hne ws ds c. unfold test.
  set (w0 := set_model (mkModel (parameters (model w)) false (grad (model w))) w).
  rewrite (bind_ok _ (eq_refl : model_set_training false w = (Ok tt, w0))).
  unfold bind at 1. rewrite no_grad_body.
  destruct (iter_loader_run test_loader (set_grad_enabled false w0))
    as (order & w1 & Hiter & Hperm & Hm & Hg & Hwb & Hout & _).
  rewrite (bind_ok _ Hiter).
  destruct (test_loop_run device (batched (loader_batch_size test_loader) order)
              0 0%nat w1) as (l' & Hloop & Hl').
  rewrite Hloop. cbn [fst snd].
  rewrite Hm in *. cbn [model set_grad_enabled w0 set_model training parameters] in *.
  rewrite batched_concat in *.
  rewrite (count_correct_perm _ _ Hperm), (total_nll_perm _ _ Hperm) in *.
  fold ws ds c in Hl' |- *. rewrite Qplus_0_l in Hl'.
  change (0 + c)%nat with c.
  remember (length ds) as n eqn:Hn.
  destruct n as [|n].
  { exfalso. apply Hne. fold ds. now destruct ds. }
  unfold py_div, bind, ret, print, wandb_log, modify.
  eexists _, _. split; [reflexivity|].
  cbn [stdout wandb_run set_wandb_run set_stdout set_grad_enabled].
  rewrite Hout, Hwb. cbn [stdout wandb_run set_grad_enabled w0 set_model].
  split; [now rewrite Hl' | split; reflexivity].
Qed.

End Evaluator_run.

Section Evaluator_claims.

Context {B : Backend}.


Lemma Qsum_nonneg (l : list Q) : Forall (fun q => 0 <= q) l -> 0 <= Qsum l.
Proof.
  induction 1; simpl.
  - apply Qle_refl.
  - rewrite <- (Qplus_0_r 0). now apply Qplus_le_compat.
Qed.

Lemma Qdiv_nat_nonneg (q : Q) (n : nat) : 0 <= q -> 0 <= q / inject_Z (Z.of_nat n).
Proof.
  intros H. apply Qmult_le_0_compat; [exact H|].
  apply Qinv_le_0_compat. change 0 with (inject_Z 0). rewrite <- Zle_Qle. lia.
Qed.

Lemma Qdiv_nat_le_1 (c n : nat) :
  (c <= n)%nat -> n <> 0%nat ->
  inject_Z (Z.of_nat c) / inject_Z (Z.of_nat n) <= 1.
Proof.
  intros Hc Hn. apply Qle_shift_div_r.
  - change 0 with (inject_Z 0). rewrite <- Zlt_Qlt. lia.
  - rewrite Qmult_1_l. rewrite <- Zle_Qle. lia.
Qed.

(** C5, as the code has it. For every model, world and non-empty test set
    [test] returns and the accuracy that it reports lies in [0, 1], with
    no assumption on what the model computes. The average loss that it
    returns is at least 0 when the model scores no sample's target class
    above 0 (as a model that ends in a log-softmax does). *)
Theorem test_accuracy_and_loss_bounds
    (device : Device) (test_loader : DataLoader) (epoch : Z) (w : World) :
  dataset test_loader <> [] ->
  exists (v percent : Q) (c n : nat) (w' : World),
    test device test_loader epoch w = (Ok v, w') /\
    stdout w' = stdout w ++ [TestSet v c n percent] /\
    percent == 100 * (inject_Z (Z.of_nat c) / inject_Z (Z.of_nat n)) /\
    0 <= inject_Z (Z.of_nat c) / inject_Z (Z.of_nat n) <= 1 /\
    (Forall (fun s => forward false (parameters (model w)) (fst s) (snd s) <= 0)
            (dataset test_loader) ->
     0 <= v).
Proof.
  intros Hne.
  destruct (test_run device test_loader epoch w Hne)
    as (v & w' & Hrun & Hv & Hout & _).
  eexists v, _, _, _, w'. split; [exact Hrun|]. split; [exact Hout|].
  split; [|split; [split|]].
  - unfold Qdiv. now rewrite Qmult_assoc.
  - apply Qdiv_nat_nonneg. change 0 with (inject_Z 0). rewrite <- Zle_Qle. lia.
  - apply Qdiv_nat_le_1; [apply count_correct_le|].
    destruct (dataset test_loader); [contradiction | discriminate].
  - intros Hscore. rewrite Hv. apply Qdiv_nat_nonneg, Qsum_nonneg.
    apply Forall_map. revert Hscore. apply Forall_impl. intros s Hs.
    unfold sample_nll. apply (Qopp_le_compat _ 0) in Hs. exact Hs.
Qed.

(** The loop of [test] computes [summed_loss] in the arithmetic of the
    model, exact rationals. *)
Lemma fold_left_Qplus (l : list Q) : forall a : Q, fold_left Qplus l a == a + Qsum l.
Proof.
  induction l as [|x l IH]; intros a; simpl.
  - now rewrite Qplus_0_r.
  - rewrite IH. now rewrite Qplus_assoc.
Qed.

Lemma summed_loss_exact_from (tr : bool) (ws : weights) (batches : list batch) :
  forall a : Q,
    fold_left (fun test_loss scores => test_loss + nll_loss_sum 0 Qopp Qplus scores)
              (map (map (fun s : sample => forward tr ws (fst s) (snd s))) batches) a
    == a + total_nll tr ws (concat batches).
Proof.
  induction batches as [|b rest IH]; intros a; cbn [map fold_left concat].
  - unfold total_nll; simpl. now rewrite Qplus_0_r.
  - rewrite IH. rewrite total_nll_app, Qplus_assoc.
    unfold nll_loss_sum. rewrite fold_left_Qplus, Qplus_0_l.
    unfold total_nll. rewrite map_map. reflexivity.
Qed.

Lemma test_loop_summed_loss (device : Device) (batches : list batch) (w : World) :
  let score (s : sample) :=
    forward (training (model w)) (parameters (model w)) (fst s) (snd s) in
  exists (l : Q) (c : nat),
    test_loop device batches 0 0%nat w = (Ok (l, c), w) /\
    l == summed_loss 0 Qopp Qplus (fun x => x) Qplus (map (map score) batches).
Proof.
  intros score.
  destruct (test_loop_run device batches 0 0%nat w) as (l & Hrun & Hl).
  eexists l, _. split; [exact Hrun|]. rewrite Hl. unfold summed_loss.
  symmetry. apply summed_loss_exact_from.
Qed.

(** C6, as the code has it. For every test set and every way of splitting
    it into batches (in any order), the loop of [test] over the batches
    ends with the correct count that it has over the whole set as a single
    batch: the number of samples of the set that the model classifies
    correctly. *)
Theorem test_correct_count_batch_invariant
    (device : Device) (ds : list sample) (bs : list batch) (w : World) :
  Permutation (concat bs) ds ->
  exists (l l1 : Q) (c c1 : nat),
    test_loop device bs 0 0%nat w = (Ok (l, c), w) /\
    test_loop device [ds] 0 0%nat w = (Ok (l1, c1), w) /\
    c = c1 /\
    c1 = count_correct (training (model w)) (parameters (model w)) ds.
Proof.
  intros Hperm.
  destruct (test_loop_run device bs 0 0%nat w) as (l & Hrun & _).
  destruct (test_loop_run device [ds] 0 0%nat w) as (l1 & Hrun1 & _).
  eexists l, l1, _, _. split; [exact Hrun|]. split; [exact Hrun1|].
  cbn [concat] in *. rewrite app_nil_r in *. split.
  - f_equal. apply count_correct_perm, Hperm.
  - reflexivity.
Qed.

End Evaluator_claims.

(** ** The epoch trainer *)

Section Trainer.

Context {B : Backend}.

Ltac run_train_batch :=
  unfold train_batch, zero_grad, model_call, loss_backward, optimizer_step,
    py_mod, py_div, print, wandb_log, bind, gets, modify, ret, raise, to_device;
  cbn [model grad_enabled set_model grad parameters training].

(** The loop body of [train], when nothing stops it: with tracking on, a
    log interval other than 0 and a loader that has a batch. *)
Lemma train_batch_run (args : Args) (device : Device) (train_loader : DataLoader)
    (optimizer : Optimizer) (epoch : Z) (batch_idx : nat) (b : batch) (w : World) :
  grad_enabled w = true ->
  log_interval args <> 0%Z ->
  (logged args batch_idx = true -> loader_len train_loader <> 0%nat) ->
  let m := model w in
  let stop := logged args batch_idx && dry_run args in
  exists w',
    train_batch args device train_loader optimizer epoch batch_idx b w
    = (Ok (mkOptimizer (opt_lr optimizer) (snd (stepped optimizer m b)), stop), w') /\
    model w' = mkModel (fst (stepped optimizer m b)) (training m)
                 (Some (backward (training m) (parameters m) b)) /\
    grad_enabled w' = true /\ rng w' = rng w /\
    wandb_run w' = wandb_run w ++
      (if stop then [] else [training_loss (batch_loss m b)]) /\
    stdout w' = stdout w ++
      (if logged args batch_idx
       then [progress_line train_loader epoch m batch_idx b] else []) /\
    storage w' = storage w /\ files w' = files w.
Proof.
  intros Hg Hli Hlen m stop. subst stop. unfold logged, stepped, progress_line, batch_loss.
  run_train_batch. rewrite Hg.
  cbn [model grad_enabled set_model grad parameters training]. fold m.
  destruct (adam_update _ _ _ _) as [ws' s']. cbn [fst snd].
  apply Z.eqb_neq in Hli. rewrite Hli. cbv beta iota.
  unfold logged in Hlen.
  destruct (Z.of_nat batch_idx mod log_interval args =? 0)%Z; cbv beta iota.
  - specialize (Hlen eq_refl).
    destruct (loader_len train_loader) as [|n] eqn:En; [now elim Hlen|].
    cbv beta iota. cbn [andb]. rewrite length_map.
    destruct (dry_run args); cbv beta iota; eexists; (split; [reflexivity|]);
      cbn [model grad_enabled rng wandb_run stdout storage files
           set_model set_stdout set_wandb_run];
      rewrite ?app_nil_r; repeat split; try reflexivity; try exact Hg;
      now rewrite En.
  - cbn [andb]. eexists; (split; [reflexivity|]).
    cbn [model grad_enabled rng wandb_run stdout storage files
         set_model set_stdout set_wandb_run];
      rewrite ?app_nil_r; repeat split; try reflexivity; exact Hg.
Qed.

(** The three ways in which the loop body raises. *)
Lemma train_batch_raises (args : Args) (device : Device) (train_loader : DataLoader)
    (optimizer : Optimizer) (epoch : Z) (batch_idx : nat) (b : batch) (w : World) :
  grad_enabled w = false \/ log_interval args = 0%Z \/
  (logged args batch_idx = true /\ loader_len train_loader = 0%nat) ->
  exists e w',
    train_batch args device train_loader optimizer epoch batch_idx b w = (Raise e, w').
Proof.
  intros H. unfold logged in H. run_train_batch.
  destruct (grad_enabled w); [|eauto].
  cbn [model grad_enabled set_model grad parameters training].
  destruct (adam_update _ _ _ _) as [ws' s']. cbv beta iota.
  destruct (log_interval args =? 0)%Z eqn:Hli; cbv beta iota; [eauto|].
  apply Z.eqb_neq in Hli.
  destruct H as [H | [H | [Hl Hn]]]; [discriminate | contradiction |].
  rewrite Hl, Hn. cbv beta iota. eauto.
Qed.

End Trainer.

Section Trainer_claims.

Context {B : Backend}.

(** A loop body that returns was run with tracking on, a log interval other
    than 0 and, when it prints, a loader that has a batch. *)
Lemma train_batch_ok_inv (args : Args) (device : Device) (train_loader : DataLoader)
    (optimizer : Optimizer) (epoch : Z) (batch_idx : nat) (b : batch)
    (w w' : World) (r : Optimizer * bool) :
  train_batch args device train_loader optimizer epoch batch_idx b w = (Ok r, w') ->
  grad_enabled w = true /\ log_interval args <> 0%Z /\
  (logged args batch_idx = true -> loader_len train_loader <> 0%nat).
Proof.
  intros Hok.
  assert (Hno : ~ (grad_enabled w = false \/ log_interval args = 0%Z \/
                   (logged args batch_idx = true /\ loader_len train_loader = 0%nat))).
  { intros H.
    destruct (train_batch_raises args device train_loader optimizer epoch batch_idx b w H)
      as (e & w1 & He).
    rewrite He in Hok. discriminate. }
  repeat split.
  - destruct (grad_enabled w); [reflexivity | exfalso; auto].
  - intros H. auto.
  - intros Hl Hn. auto.
Qed.

(** C1, as the code has it. Whenever the loop body of [train] completes
    for batch index [batch_idx]: the progress line is printed if and only if
    [batch_idx] is a multiple of [log_interval]; the batch's loss is
    emitted to the metric stream unless the body ends in [break], that is
    unless the dry-run flag is set and the batch is a printed one. Without
    the dry-run flag the loss of every batch is emitted. *)
Theorem train_batch_emits_loss
    (args : Args) (device : Device) (train_loader : DataLoader)
    (optimizer : Optimizer) (epoch : Z) (batch_idx : nat) (b : batch)
    (w w' : World) (r : Optimizer * bool) :
  train_batch args device train_loader optimizer epoch batch_idx b w = (Ok r, w') ->
  let m := model w in
  let multiple := (Z.of_nat batch_idx mod log_interval args =? 0)%Z in
  wandb_run w' = wandb_run w ++
    (if multiple && dry_run args then [] else [training_loss (batch_loss m b)]) /\
  stdout w' = stdout w ++
    (if multiple then [progress_line train_loader epoch m batch_idx b] else []) /\
  snd r = multiple && dry_run args.
Proof.
  intros Hok m multiple.
  destruct (train_batch_ok_inv _ _ _ _ _ _ _ _ Hok) as (Hg & Hli & Hlen).
  destruct (train_batch_run args device train_loader optimizer epoch batch_idx b
              w Hg Hli Hlen) as (w1 & Hrun & _ & _ & _ & Hwb & Hout & _).
  rewrite Hrun in Hok. injection Hok as <- <-.
  repeat split; assumption || reflexivity.
Qed.

Lemma batched_cons (A : Type) (bs : positive) (l : list A) :
  l <> [] -> exists b rest, batched bs l = b :: rest.
Proof.
  intros Hne. destruct (batched bs l) as [|b rest] eqn:E; [|eauto].
  apply batched_nil in E. contradiction.
Qed.

Lemma loader_len_nonzero (l : DataLoader) : dataset l <> [] -> loader_len l <> 0%nat.
Proof.
  intros Hne Hz. unfold loader_len in Hz. apply length_zero_iff_nil in Hz.
  apply batched_nil in Hz. contradiction.
Qed.

(** C4, as the code has it. With the dry-run flag set, a log interval
    other than 0 and gradient tracking on, [train] on a training set that
    has a batch returns after the loop body has run once, on the first
    batch of the pass at index 0: the parameters have taken one optimizer
    step, one progress line is printed and no loss is emitted, whatever the
    size of the training set. *)
Theorem train_dry_run_one_batch
    (args : Args) (device : Device) (train_loader : DataLoader)
    (optimizer : Optimizer) (epoch : Z) (w : World) :
  dry_run args = true ->
  log_interval args <> 0%Z ->
  grad_enabled w = true ->
  dataset train_loader <> [] ->
  let m := mkModel (parameters (model w)) true (grad (model w)) in
  exists (b : batch) (rest : list batch) (w0 w' : World),
    iter_loader train_loader (set_model m w) = (Ok (b :: rest), w0) /\
    train_batch args device train_loader optimizer epoch 0 b w0
    = (Ok (mkOptimizer (opt_lr optimizer) (snd (stepped optimizer m b)), true), w') /\
    train args device train_loader optimizer epoch w
    = (Ok (mkOptimizer (opt_lr optimizer) (snd (stepped optimizer m b))), w') /\
    parameters (model w') = fst (stepped optimizer m b) /\
    stdout w' = stdout w ++ [progress_line train_loader epoch m 0 b] /\
    wandb_run w' = wandb_run w.
Proof.
  intros Hdry Hli Hg Hne m.
  destruct (iter_loader_run train_loader (set_model m w))
    as (order & w0 & Hiter & Hperm & Hm & Hg0 & Hwb0 & Hout0 & _).
  assert (Horder : order <> []).
  { intros ->. apply Permutation_nil in Hperm. auto. }
  destruct (batched_cons (loader_batch_size train_loader) Horder) as (b & rest & Hb).
  rewrite Hb in Hiter.
  assert (Hg0' : grad_enabled w0 = true) by (rewrite Hg0; exact Hg).
  destruct (train_batch_run args device train_loader optimizer epoch 0 b w0 Hg0' Hli
              (fun _ => loader_len_nonzero train_loader Hne))
    as (w' & Hrun & Hmodel & _ & _ & Hwb & Hout & _).
  assert (Hlog : logged args 0 = true).
  { unfold logged. cbn [Z.of_nat]. rewrite Zmod_0_l. reflexivity. }
  rewrite Hlog, Hdry, Hm in *. cbn [andb set_model model] in *.
  exists b, rest, w0, w'. split; [exact Hiter|]. split; [exact Hrun|].
  split.
  - unfold train.
    rewrite (bind_ok _ (eq_refl : model_set_training true w = (Ok tt, set_model m w))).
    rewrite (bind_ok _ Hiter). cbn [train_loop].
    rewrite (bind_ok _ Hrun). reflexivity.
  - rewrite Hmodel, Hout, Hwb, Hout0, Hwb0. cbn [parameters].
    rewrite app_nil_r. repeat split; reflexivity.
Qed.

End Trainer_claims.

(** ** The decay schedule *)

Section Schedule.

Context {B : Backend}.

Lemma train_loop_lr (args : Args) (device : Device) (train_loader : DataLoader)
    (epoch : Z) (batches : list batch) :
  forall (optimizer o' : Optimizer) (batch_idx : nat) (w w' : World),
    train_loop args device train_loader optimizer epoch batch_idx batches w = (Ok o', w') ->
    opt_lr o' = opt_lr optimizer.
Proof.
  induction batches as [|b rest IH]; intros optimizer o' batch_idx w w' Hrun;
    cbn [train_loop] in Hrun.
  - now injection Hrun as <- _.
  - apply bind_inv in Hrun as (r & w1 & Hb & Hrest).
    destruct (train_batch_ok_inv _ _ _ _ _ _ _ _ Hb) as (Hg & Hli & Hlen).
    destruct (train_batch_run args device train_loader optimizer epoch batch_idx b
                w Hg Hli Hlen) as (w2 & Hrun & _).
    rewrite Hrun in Hb. injection Hb as <- <-. cbn [fst snd] in Hrest.
    destruct (logged args batch_idx && dry_run args).
    + now injection Hrest as <- _.
    + apply IH in Hrest. exact Hrest.
Qed.

(** The optimizer steps of an epoch leave the learning rate alone. *)
Lemma train_lr (args : Args) (device : Device) (train_loader : DataLoader)
    (optimizer o' : Optimizer) (epoch : Z) (w w' : World) :
  train args device train_loader optimizer epoch w = (Ok o', w') ->
  opt_lr o' = opt_lr optimizer.
Proof.
  unfold train. intros Hrun.
  apply bind_inv in Hrun as (? & w1 & _ & Hrun).
  apply bind_inv in Hrun as (batches & w2 & _ & Hrun).
  eapply train_loop_lr, Hrun.
Qed.

Lemma Qpower_succ_nat (q : Q) (n : nat) : q ^ Z.of_nat (S n) == q ^ Z.of_nat n * q.
Proof.
  rewrite Nat2Z.inj_succ. unfold Z.succ.
  rewrite Qpower_plus' by lia. now rewrite Qpower_1_r.
Qed.

(** A schedule of step size 1 multiplies the rate by [gamma] once per
    epoch of the loop. *)
Lemma epoch_loop_lr (args : Args) (device : Device)
    (train_loader test_loader : DataLoader) (es : list Z) :
  forall (o o' : Optimizer) (s s' : StepLR) (l l' : option Q) (w w' : World),
    step_size s = 1%positive ->
    epoch_loop args device train_loader test_loader es o s l w = (Ok (o', s', l'), w') ->
    opt_lr o' == opt_lr o * sched_gamma s ^ Z.of_nat (length es) /\
    last_epoch s' = (last_epoch s + length es)%nat.
Proof.
  induction es as [|e es IH]; intros o o' s s' l l' w w' Hstep Hrun;
    cbn [epoch_loop] in Hrun.
  - injection Hrun as <- <- _ _. cbn. split; [now rewrite Qmult_1_r | lia].
  - apply bind_inv in Hrun as (o1 & w1 & Htrain & Hrun).
    apply bind_inv in Hrun as (v & w2 & _ & Hrun).
    apply train_lr in Htrain.
    unfold scheduler_step in Hrun. rewrite Hstep, Z.mod_1_r in Hrun.
    cbn [Z.eqb fst snd] in Hrun.
    apply IH in Hrun as [Hlr Hlast]; [|reflexivity].
    cbn [opt_lr sched_gamma last_epoch] in Hlr, Hlast. split.
    + rewrite Hlr, Htrain. cbn [length]. rewrite Qpower_succ_nat.
      rewrite <- !Qmult_assoc. now rewrite (Qmult_comm (sched_gamma s)).
    + rewrite Hlast. cbn [length]. lia.
Qed.

(** The loop over a list of epochs is the loop over a prefix followed by
    the loop over the rest. *)
Lemma epoch_loop_app (args : Args) (device : Device)
    (train_loader test_loader : DataLoader) (es1 es2 : list Z) :
  forall (o : Optimizer) (s : StepLR) (l : option Q) (w : World),
    epoch_loop args device train_loader test_loader (es1 ++ es2) o s l w
    = bind (epoch_loop args device train_loader test_loader es1 o s l)
           (fun r => epoch_loop args device train_loader test_loader es2
                       (fst (fst r)) (snd (fst r)) (snd r)) w.
Proof.
  induction es1 as [|e es1 IH]; intros o s l w; cbn [epoch_loop app].
  - reflexivity.
  - unfold bind.
    destruct (train args device train_loader o e w) as [[o1|ex] w1]; [|reflexivity].
    destruct (test device test_loader e w1) as [[v|ex] w2]; [|reflexivity].
    rewrite IH. reflexivity.
Qed.

Lemma range_length (n : Z) : length (range n) = Z.to_nat n.
Proof. unfold range. now rewrite length_map, length_seq. Qed.

End Schedule.

(** ** The flags that the search supersedes *)

Section Dead_configuration.

Context {B : Backend}.

Lemma bind_ext (A C : Type) (c : M A) (k1 k2 : A -> M C) (w : World) :
  (forall a w1, k1 a w1 = k2 a w1) -> bind c k1 w = bind c k2 w.
Proof.
  intros H. unfold bind. destruct (c w) as [[a|e] w1]; [apply H | reflexivity].
Qed.

Lemma train_batch_args (a1 a2 : Args) (device : Device) (train_loader : DataLoader)
    (optimizer : Optimizer) (epoch : Z) (batch_idx : nat) (b : batch) :
  log_interval a1 = log_interval a2 -> dry_run a1 = dry_run a2 ->
  train_batch a1 device train_loader optimizer epoch batch_idx b
  = train_batch a2 device train_loader optimizer epoch batch_idx b.
Proof. intros Hli Hdry. unfold train_batch. now rewrite Hli, Hdry. Qed.

Lemma train_loop_args (a1 a2 : Args) (device : Device) (train_loader : DataLoader)
    (epoch : Z) (batches : list batch) :
  log_interval a1 = log_interval a2 -> dry_run a1 = dry_run a2 ->
  forall (optimizer : Optimizer) (batch_idx : nat) (w : World),
    train_loop a1 device train_loader optimizer epoch batch_idx batches w
    = train_loop a2 device train_loader optimizer epoch batch_idx batches w.
Proof.
  intros Hli Hdry.
  induction batches as [|b rest IH]; intros optimizer batch_idx w; cbn [train_loop].
  - reflexivity.
  - rewrite (train_batch_args a1 a2 _ _ _ _ _ _ Hli Hdry).
    apply bind_ext. intros r w1. destruct (snd r); [reflexivity | apply IH].
Qed.

Lemma train_args (a1 a2 : Args) (device : Device) (train_loader : DataLoader)
    (optimizer : Optimizer) (epoch : Z) (w : World) :
  log_interval a1 = log_interval a2 -> dry_run a1 = dry_run a2 ->
  train a1 device train_loader optimizer epoch w
  = train a2 device train_loader optimizer epoch w.
Proof.
  intros Hli Hdry. unfold train.
  apply bind_ext. intros _ w1. apply bind_ext. intros batches w2.
  now apply train_loop_args.
Qed.

Lemma epoch_loop_args (a1 a2 : Args) (device : Device)
    (train_loader test_loader : DataLoader) (es : list Z) :
  log_interval a1 = log_interval a2 -> dry_run a1 = dry_run a2 ->
  forall (o : Optimizer) (s : StepLR) (l : option Q) (w : World),
    epoch_loop a1 device train_loader test_loader es o s l w
    = epoch_loop a2 device train_loader test_loader es o s l w.
Proof.
  intros Hli Hdry.
  induction es as [|e es IH]; intros o s l w; cbn [epoch_loop].
  - reflexivity.
  - unfold bind at 1 3. rewrite (train_args a1 a2 _ _ _ _ _ Hli Hdry).
    destruct (train a2 device train_loader o e w) as [[o1|ex] w1]; [|reflexivity].
    apply bind_ext. intros v w2. apply IH.
Qed.

(** C8. [train_model] does not read [args.lr], [args.gamma] or
    [args.batch_size]: on two run configurations that differ at most in
    these three fields it has, for the same trial, device and world, the
    same result and the same effects. *)
Theorem train_model_ignores_superseded_flags
    (a1 a2 : Args) (trial : Trial) (device : Device) (w : World) :
  same_but_superseded a1 a2 ->
  train_model trial a1 device w = train_model trial a2 device w.
Proof.
  intros (Htb & Hep & Hnc & Hdry & _ & Hli & _).
  unfold train_model. rewrite Htb, Hep, Hnc.
  apply bind_ext. intros lr0 w1.
  apply bind_ext. intros bs w2.
  apply bind_ext. intros g w3.
  apply bind_ext. intros train_loader w4.
  apply bind_ext. intros test_loader w5.
  unfold bind. rewrite (epoch_loop_args a1 a2 _ _ _ _ Hli Hdry). reflexivity.
Qed.

End Dead_configuration.

(** ** Which exceptions a computation can raise *)

Section Raises.

Context {B : Backend}.

Lemma nr_ret (A : Type) (e0 : Exception) (a : A) : never_raises e0 (ret a).
Proof. intros w e w' H. discriminate. Qed.

Lemma nr_gets (A : Type) (e0 : Exception) (p : World -> A) : never_raises e0 (gets p).
Proof. intros w e w' H. discriminate. Qed.

Lemma nr_modify (e0 : Exception) (h : World -> World) : never_raises e0 (modify h).
Proof. intros w e w' H. discriminate. Qed.

Lemma nr_raise (A : Type) (e0 e1 : Exception) :
  e1 <> e0 -> never_raises e0 (raise (A := A) e1).
Proof. intros Hne w e w' H. injection H as <- _. exact Hne. Qed.

Lemma nr_bind (A C : Type) (e0 : Exception) (c : M A) (k : A -> M C) :
  never_raises e0 c -> (forall a, never_raises e0 (k a)) -> never_raises e0 (bind c k).
Proof.
  intros Hc Hk w e w' H. unfold bind in H.
  destruct (c w) as [[a|e1] w1] eqn:E.
  - eapply Hk, H.
  - injection H as <- _. eapply Hc, E.
Qed.

Lemma nr_finally (A : Type) (e0 : Exception) (c : M A) (h : World -> World) :
  never_raises e0 c -> never_raises e0 (finally c h).
Proof.
  intros Hc w e w' H. unfold finally in H.
  destruct (c w) as [r w1] eqn:E. injection H as -> _. eapply Hc, E.
Qed.

End Raises.

(** [no_raise] proves [never_raises e0 c] along the structure of [c]. *)
Ltac no_raise :=
  repeat first
    [ apply nr_ret | apply nr_gets | apply nr_modify
    | apply nr_raise; discriminate
    | apply nr_bind; [|intros]
    | apply nr_finally
    | match goal with
      | |- never_raises _ (if ?c then _ else _) => destruct c
      | |- never_raises _ (match ?x with _ => _ end) => destruct x
      end ].

Section Epoch_precondition.

Context {B : Backend}.

Lemma nr_train_batch (e0 : Exception) (args : Args) (device : Device)
    (train_loader : DataLoader) (optimizer : Optimizer) (epoch : Z)
    (batch_idx : nat) (b : batch) :
  e0 = UnboundLocalError ->
  never_raises e0 (train_batch args device train_loader optimizer epoch batch_idx b).
Proof.
  intros ->.
  unfold train_batch, zero_grad, model_call, loss_backward, optimizer_step,
    py_mod, py_div, print, wandb_log.
  no_raise.
Qed.

Lemma nr_train_loop (args : Args) (device : Device) (train_loader : DataLoader)
    (epoch : Z) (batches : list batch) :
  forall (optimizer : Optimizer) (batch_idx : nat),
    never_raises UnboundLocalError
      (train_loop args device train_loader optimizer epoch batch_idx batches).
Proof.
  induction batches as [|b rest IH]; intros optimizer batch_idx; cbn [train_loop].
  - no_raise.
  - apply nr_bind; [now apply nr_train_batch|].
    intros r. destruct (snd r); [no_raise | apply IH].
Qed.

Lemma nr_train (args : Args) (device : Device) (train_loader : DataLoader)
    (optimizer : Optimizer) (epoch : Z) :
  never_raises UnboundLocalError (train args device train_loader optimizer epoch).
Proof.
  unfold train, model_set_training, iter_loader. no_raise. apply nr_train_loop.
Qed.

Lemma nr_test_loop (device : Device) (batches : list batch) :
  forall (l : Q) (c : nat),
    never_raises UnboundLocalError (test_loop device batches l c).
Proof.
  induction batches as [|b rest IH]; intros l c; cbn [test_loop].
  - no_raise.
  - unfold model_call. no_raise. apply IH.
Qed.

Lemma nr_test (device : Device) (test_loader : DataLoader) (epoch : Z) :
  never_raises UnboundLocalError (test device test_loader epoch).
Proof.
  unfold test, model_set_training, no_grad, iter_loader, py_div, print, wandb_log.
  no_raise; apply nr_test_loop.
Qed.

Lemma nr_epoch_loop (args : Args) (device : Device)
    (train_loader test_loader : DataLoader) (es : list Z) :
  forall (o : Optimizer) (s : StepLR) (l : option Q),
    never_raises UnboundLocalError
      (epoch_loop args device train_loader test_loader es o s l).
Proof.
  induction es as [|e es IH]; intros o s l; cbn [epoch_loop].
  - no_raise.
  - apply nr_bind; [apply nr_train | intros o1].
    apply nr_bind; [apply nr_test | intros v]. apply IH.
Qed.

(** After at least one epoch the local variable [loss] is bound. *)
Lemma epoch_loop_loss (args : Args) (device : Device)
    (train_loader test_loader : DataLoader) (es : list Z) :
  forall (o o' : Optimizer) (s s' : StepLR) (l l' : option Q) (w w' : World),
    epoch_loop args device train_loader test_loader es o s l w = (Ok (o', s', l'), w') ->
    es <> [] \/ l <> None -> l' <> None.
Proof.
  induction es as [|e es IH]; intros o o' s s' l l' w w' Hrun Hor;
    cbn [epoch_loop] in Hrun.
  - injection Hrun as _ _ <- _. destruct Hor as [H|H]; [now elim H | exact H].
  - apply bind_inv in Hrun as (o1 & w1 & _ & Hrun).
    apply bind_inv in Hrun as (v & w2 & _ & Hrun).
    eapply IH; [exact Hrun|]. right. discriminate.
Qed.

Lemma range_nil (n : Z) : range n = [] <-> (n <= 0)%Z.
Proof.
  rewrite <- length_zero_iff_nil, range_length. lia.
Qed.

Lemma nth_error_update_nth (A : Type) (f : A -> A) (l : list A) :
  forall n, nth_error (update_nth n f l) n = option_map f (nth_error l n).
Proof.
  induction l as [|x l IH]; intros [|n]; cbn; auto.
Qed.

Lemma lookup_param_app_other (name name' : string) (v : ParamValue)
    (ps : list (string * ParamValue)) :
  name <> name' ->
  lookup_param name' (ps ++ [(name, v)]) = lookup_param name' ps.
Proof.
  intros Hne. induction ps as [|[k u] ps IH]; cbn.
  - apply String.eqb_neq in Hne. now rewrite Hne.
  - destruct (String.eqb k name'); [reflexivity | exact IH].
Qed.

(** Drawing a parameter that the trial does not hold yet. *)
Lemma suggest_new (t : Trial) (name : string) (draw : list FrozenTrial -> ParamValue)
    (w : World) :
  lookup_param name (trial_params t (storage w)) = None ->
  exists w1,
    suggest t name draw w = (Ok (draw (storage w)), w1) /\
    forall name', name <> name' ->
      lookup_param name' (trial_params t (storage w1))
      = lookup_param name' (trial_params t (storage w)).
Proof.
  intros Hnew. unfold suggest, bind, gets. rewrite Hnew.
  unfold set_trial_param, modify, ret. eexists. split; [reflexivity|].
  intros name' Hne. cbn [storage set_storage]. unfold trial_params.
  rewrite nth_error_update_nth.
  destruct (nth_error (storage w) (trial_id t)) as [r|]; cbn; [|reflexivity].
  now apply lookup_param_app_other.
Qed.

Lemma suggest_float_new (t : Trial) (name : string) (low high : Q) (log : bool)
    (w : World) :
  lookup_param name (trial_params t (storage w)) = None ->
  exists w1,
    suggest_float t name low high log w
    = (Ok (sample_float (storage w) (trial_id t) name low high log), w1) /\
    forall name', name <> name' ->
      lookup_param name' (trial_params t (storage w1))
      = lookup_param name' (trial_params t (storage w)).
Proof.
  intros Hnew. unfold suggest_float.
  destruct (suggest_new t name
              (fun st => PFloat (sample_float st (trial_id t) name low high log))
              w Hnew) as (w1 & Hrun & Hkeep).
  exists w1. split; [|exact Hkeep]. now rewrite (bind_ok _ Hrun).
Qed.

Lemma suggest_categorical_new (t : Trial) (name : string) (c0 : Z) (cs : list Z)
    (w : World) :
  lookup_param name (trial_params t (storage w)) = None ->
  let n := length (c0 :: cs) in
  exists w1,
    suggest_categorical t name (c0 :: cs) w
    = (Ok (nth (Nat.modulo (sample_index (storage w) (trial_id t) name n) n)
               (c0 :: cs) c0), w1) /\
    forall name', name <> name' ->
      lookup_param name' (trial_params t (storage w1))
      = lookup_param name' (trial_params t (storage w)).
Proof.
  intros Hnew n. unfold suggest_categorical.
  destruct (suggest_new t name
              (fun st => PInt (nth (Nat.modulo (sample_index st (trial_id t) name n) n)
                                   (c0 :: cs) c0))
              w Hnew) as (w1 & Hrun & Hkeep).
  exists w1. split; [|exact Hkeep]. now rewrite (bind_ok _ Hrun).
Qed.

Lemma choice_positive (k : nat) :
  exists p, nth (Nat.modulo k 3) [64; 128; 256]%Z 64%Z = Zpos p.
Proof. destruct (Nat.modulo k 3) as [|[|[|[|n]]]]; cbn; eauto. Qed.

Lemma nr_suggest (t : Trial) (name : string) (draw : list FrozenTrial -> ParamValue) :
  never_raises UnboundLocalError (suggest t name draw).
Proof. unfold suggest, set_trial_param. no_raise. Qed.

Lemma nr_suggest_float (t : Trial) (name : string) (low high : Q) (log : bool) :
  never_raises UnboundLocalError (suggest_float t name low high log).
Proof. unfold suggest_float. apply nr_bind; [apply nr_suggest | intros]. no_raise. Qed.

Lemma nr_suggest_categorical (t : Trial) (name : string) (choices : list Z) :
  never_raises UnboundLocalError (suggest_categorical t name choices).
Proof.
  unfold suggest_categorical. destruct choices; [no_raise|].
  apply nr_bind; [apply nr_suggest | intros]. no_raise.
Qed.

Lemma nr_new_DataLoader (ds : list sample) (k : LoaderKwargs) :
  never_raises UnboundLocalError (new_DataLoader ds k).
Proof. unfold new_DataLoader. no_raise. Qed.

(** With at least one epoch [train_model] does not end in the
    unbound-variable error. *)
Lemma train_model_bound (trial : Trial) (args : Args) (device : Device) :
  (1 <= epochs args)%Z ->
  never_raises UnboundLocalError (train_model trial args device).
Proof.
  intros Hep. unfold train_model.
  apply nr_bind; [apply nr_suggest_float | intros lr0].
  apply nr_bind; [apply nr_suggest_categorical | intros bs].
  apply nr_bind; [apply nr_suggest_float | intros g].
  apply nr_bind; [apply nr_new_DataLoader | intros train_loader].
  apply nr_bind; [apply nr_new_DataLoader | intros test_loader].
  intros w e w' H. unfold bind in H.
  destruct (epoch_loop _ _ _ _ _ _ _ _ w) as [[[[o s] l]|e1] w1] eqn:E.
  - cbn [snd] in H. apply epoch_loop_loss in E.
    + destruct l; [discriminate | now elim E].
    + left. rewrite range_nil. lia.
  - injection H as <- _. eapply nr_epoch_loop, E.
Qed.

(** Without an epoch, and when the draws and the loaders go through,
    [train_model] ends in the unbound-variable error. *)
Lemma train_model_unbound (trial : Trial) (args : Args) (device : Device) (w : World) :
  (epochs args <= 0)%Z ->
  (0 < test_batch_size args)%Z ->
  trial_params trial (storage w) = [] ->
  fst (train_model trial args device w) = Raise UnboundLocalError.
Proof.
  intros Hep Htb Hfresh. unfold train_model.
  assert (Hnone : forall name, lookup_param name (trial_params trial (storage w)) = None).
  { intros name. now rewrite Hfresh. }
  destruct (suggest_float_new trial "lr" (1 # 100000) (1 # 10) true w (Hnone _))
    as (w1 & Hlr & Hkeep1).
  rewrite (bind_ok _ Hlr).
  destruct (suggest_categorical_new trial "batch_size" 64 [128; 256]%Z w1)
    as (w2 & Hbs & Hkeep2).
  { rewrite Hkeep1 by discriminate. apply Hnone. }
  rewrite (bind_ok _ Hbs).
  destruct (suggest_float_new trial "gamma" (1 # 2) (9 # 10) false w2)
    as (w3 & Hg & _).
  { rewrite Hkeep2, Hkeep1 by discriminate. apply Hnone. }
  rewrite (bind_ok _ Hg).
  cbn [length].
  destruct (choice_positive (sample_index (storage w1) (trial_id trial) "batch_size" 3))
    as [p Hp].
  rewrite Hp.
  destruct (test_batch_size args) as [|q|q] eqn:Eq; try lia.
  apply range_nil in Hep. rewrite Hep.
  unfold new_DataLoader, kwargs_batch_size.
  destruct (negb (no_cuda args) && cuda_is_available); reflexivity.
Qed.

(** C10. [train_model] needs an epoch count of at least 1 to return a
    value. For a trial that holds no parameter yet and a positive test
    batch size (so that the draws and the loaders go through), it ends in
    the unbound-variable error of [return loss] exactly when the epoch
    count is at most 0; and whenever it returns a value the epoch count is
    at least 1. *)
Theorem train_model_needs_an_epoch
    (trial : Trial) (args : Args) (device : Device) (w : World) :
  (0 < test_batch_size args)%Z ->
  trial_params trial (storage w) = [] ->
  (fst (train_model trial args device w) = Raise UnboundLocalError
   <-> (epochs args <= 0)%Z) /\
  (forall v, fst (train_model trial args device w) = Ok v -> (1 <= epochs args)%Z).
Proof.
  intros Htb Hfresh. split; [split|].
  - intros Hraise. destruct (Z_le_gt_dec (epochs args) 0) as [Hle|Hgt]; [exact Hle|].
    exfalso.
    destruct (train_model trial args device w) as [r w'] eqn:E. cbn [fst] in Hraise.
    subst r.
    apply (train_model_bound trial args device) in E; [now elim E | lia].
  - intros Hep. now apply train_model_unbound.
  - intros v Hok. destruct (Z_le_gt_dec (epochs args) 0) as [Hle|Hgt]; [|lia].
    rewrite (train_model_unbound trial args device w Hle Htb Hfresh) in Hok.
    discriminate.
Qed.

End Epoch_precondition.

(** ** The search *)

Section Search_frames.

Context {B : Backend}.

Lemma map_update_nth (A C : Type) (g : A -> C) (f : A -> A) (f' : C -> C) (l : list A) :
  (forall x, g (f x) = f' (g x)) ->
  forall n, map g (update_nth n f l) = update_nth n f' (map g l).
Proof.
  intros H. induction l as [|x l IH]; intros [|n]; cbn; auto.
  - now rewrite H.
  - now rewrite IH.
Qed.

Lemma update_nth_id (A : Type) (l : list A) :
  forall n, update_nth n (fun x => x) l = l.
Proof. induction l as [|x l IH]; intros [|n]; cbn; auto. now rewrite IH. Qed.

Lemma update_nth_last (A : Type) (f : A -> A) (x : A) (l : list A) :
  update_nth (length l) f (l ++ [x]) = l ++ [f x].
Proof. induction l as [|y l IH]; cbn; auto. now rewrite IH. Qed.

Lemma keeps_outcomes_train_batch (args : Args) (device : Device)
    (train_loader : DataLoader) (optimizer : Optimizer) (epoch : Z)
    (batch_idx : nat) (b : batch) :
  keeps outcomes (train_batch args device train_loader optimizer epoch batch_idx b).
Proof.
  unfold train_batch, zero_grad, loss_backward, optimizer_step, print, wandb_log.
  repeat first
    [ progress frame
    | match goal with
      | |- keeps _ (if ?c then _ else _) => destruct c
      | |- keeps _ (match ?x with _ => _ end) => destruct x
      end ].
Qed.

Lemma keeps_outcomes_train_loop (args : Args) (device : Device)
    (train_loader : DataLoader) (epoch : Z) (batches : list batch) :
  forall (optimizer : Optimizer) (batch_idx : nat),
    keeps outcomes (train_loop args device train_loader optimizer epoch batch_idx batches).
Proof.
  induction batches as [|b rest IH]; intros optimizer batch_idx; cbn [train_loop].
  - frame.
  - apply keeps_bind; [apply keeps_outcomes_train_batch | intros r].
    destruct (snd r); [frame | apply IH].
Qed.

Lemma keeps_outcomes_train (args : Args) (device : Device) (train_loader : DataLoader)
    (optimizer : Optimizer) (epoch : Z) :
  keeps outcomes (train args device train_loader optimizer epoch).
Proof.
  unfold train, model_set_training. frame. apply keeps_outcomes_train_loop.
Qed.

Lemma keeps_outcomes_test (device : Device) (test_loader : DataLoader) (epoch : Z) :
  keeps outcomes (test device test_loader epoch).
Proof. unfold test, model_set_training, print, wandb_log. frame. Qed.

Lemma keeps_outcomes_epoch_loop (args : Args) (device : Device)
    (train_loader test_loader : DataLoader) (es : list Z) :
  forall (o : Optimizer) (s : StepLR) (l : option Q),
    keeps outcomes (epoch_loop args device train_loader test_loader es o s l).
Proof.
  induction es as [|e es IH]; intros o s l; cbn [epoch_loop].
  - frame.
  - apply keeps_bind; [apply keeps_outcomes_train | intros o1].
    apply keeps_bind; [apply keeps_outcomes_test | intros v]. apply IH.
Qed.

Lemma keeps_outcomes_set_trial_param (t : Trial) (name : string) (v : ParamValue) :
  keeps outcomes (set_trial_param t name v).
Proof.
  apply keeps_modify. intros w. unfold outcomes. cbn [storage set_storage].
  rewrite (map_update_nth outcome _ (fun x => x)) by reflexivity.
  apply update_nth_id.
Qed.

(** [train_model] changes nothing in the storage but the parameters of
    trials. *)
Lemma keeps_outcomes_train_model (trial : Trial) (args : Args) (device : Device) :
  keeps outcomes (train_model trial args device).
Proof.
  unfold train_model, suggest_float, suggest_categorical, suggest, new_DataLoader.
  repeat first
    [ apply keeps_outcomes_set_trial_param
    | apply keeps_outcomes_epoch_loop
    | progress frame
    | match goal with
      | |- keeps _ (if ?c then _ else _) => destruct c
      | |- keeps _ (match ?x with _ => _ end) => destruct x
      end ].
Qed.

End Search_frames.

Section Search_claims.

Context {B : Backend}.

(** A search of [n_trials] trials that returns has appended [n_trials]
    completed trials, numbered in the order in which they ran, provided
    the objective changes nothing in the storage but parameters. *)
Lemma optimize_ok (func : Trial -> M Q) :
  (forall trial, keeps outcomes (func trial)) ->
  forall (n_trials : nat) (w w' : World),
    optimize func n_trials w = (Ok tt, w') ->
    exists vs : list Q,
      length vs = n_trials /\
      outcomes w' = outcomes w ++
        map completed (combine (seq (length (storage w)) n_trials) vs).
Proof.
  intros Hfunc. induction n_trials as [|n IH]; intros w w' Hrun; cbn [optimize] in Hrun.
  - injection Hrun as <-. exists []. split; [reflexivity|].
    cbn. now rewrite app_nil_r.
  - unfold ask in Hrun. unfold bind at 1 2 3, gets, modify, ret in Hrun.
    set (len := length (storage w)) in *.
    set (w1 := set_storage (storage w ++ [mkTrial len [] RUNNING None]) w) in *.
    unfold bind at 1 in Hrun.
    pose proof (Hfunc (mkHandle len) w1) as Hkeep.
    destruct (func (mkHandle len) w1) as [[v|e] w2]; cbn [snd] in Hkeep.
    2:{ discriminate. }
    unfold tell, modify in Hrun. cbn [trial_id] in Hrun.
    apply IH in Hrun as (vs & Hlen & Hout).
    assert (Hw2 : outcomes w2 = outcomes w ++ [(len, RUNNING, None)]).
    { rewrite Hkeep. unfold outcomes, w1. cbn [storage set_storage].
      now rewrite map_app. }
    assert (Hlen_w : length (outcomes w) = len).
    { unfold outcomes. now rewrite length_map. }
    assert (Hw3 : map outcome
                    (update_nth len
                       (fun r => mkTrial (number r) (params r) COMPLETE (Some v))
                       (storage w2))
                  = outcomes w ++ [completed (len, v)]).
    { rewrite (map_update_nth outcome _
                 (fun o => (fst (fst o), COMPLETE, Some v))) by reflexivity.
      fold (outcomes w2). rewrite Hw2, <- Hlen_w. now rewrite update_nth_last. }
    exists (v :: vs). split; [cbn; now rewrite Hlen|].
    unfold outcomes in Hout at 2. cbn [storage set_storage] in Hout.
    rewrite Hw3 in Hout. rewrite Hout. cbn [storage set_storage].
    assert (Hl3 : length (update_nth len
                            (fun r => mkTrial (number r) (params r) COMPLETE (Some v))
                            (storage w2)) = S len).
    { rewrite <- (length_map outcome), Hw3, length_app, Hlen_w. cbn. lia. }
    rewrite Hl3. cbn [seq combine map]. now rewrite <- app_assoc.
Qed.

Lemma improves_minimize (bv v : Q) :
  if improves minimize bv v then v <= bv else bv <= v.
Proof.
  cbn. destruct (Qle_bool bv v) eqn:E; cbn.
  - now apply Qle_bool_iff.
  - apply Qlt_le_weak, Qnot_le_lt. intros H. apply Qle_bool_iff in H. congruence.
Qed.

Lemma best_from_minimum (ts : list FrozenTrial) :
  forall (best : FrozenTrial) (bv : Q),
    value best = Some bv ->
    let t := best_from minimize best bv ts in
    (t = best \/ In t ts) /\
    exists tv, value t = Some tv /\ tv <= bv /\
      forall t' v, In t' ts -> state t' = COMPLETE -> value t' = Some v -> tv <= v.
Proof.
  induction ts as [|t0 ts IH]; intros best bv Hbest; cbn [best_from].
  - split; [now left|]. exists bv. repeat split; auto using Qle_refl.
    intros t' v [].
  - assert (Hskip : let t := best_from minimize best bv ts in
              (state t0 <> COMPLETE \/ value t0 = None) ->
              (t = best \/ In t (t0 :: ts)) /\
              exists tv, value t = Some tv /\ tv <= bv /\
                forall t' v, In t' (t0 :: ts) -> state t' = COMPLETE ->
                             value t' = Some v -> tv <= v).
    { intros t Hno. destruct (IH best bv Hbest) as (Hin & tv & Htv & Hle & Hmin).
      fold t in Hin, Htv. split; [destruct Hin; [now left | right; now right]|].
      exists tv. repeat split; auto.
      intros t' v [<- | Hin'] Hst Hv; [|eauto].
      destruct Hno; congruence. }
    destruct (state t0) eqn:Est; try (apply Hskip; left; discriminate).
    destruct (value t0) as [v0|] eqn:Ev; [|apply Hskip; now right].
    clear Hskip. pose proof (improves_minimize bv v0) as Himp.
    destruct (improves minimize bv v0).
    + destruct (IH t0 v0 Ev) as (Hin & tv & Htv & Hle & Hmin).
      split; [right; destruct Hin as [-> | Hin]; [now left | now right]|].
      exists tv. repeat split; auto.
      * eapply Qle_trans; eauto.
      * intros t' v [<- | Hin'] Hst Hv; [|eauto]. congruence.
    + destruct (IH best bv Hbest) as (Hin & tv & Htv & Hle & Hmin).
      split; [destruct Hin; [now left | right; now right]|].
      exists tv. repeat split; auto.
      intros t' v [<- | Hin'] Hst Hv; [|eauto].
      rewrite Ev in Hv. injection Hv as <-. eapply Qle_trans; eauto.
Qed.

(** The best trial of a minimizing study is a completed trial of the
    storage whose value is at most the value of every completed trial. *)
Lemma best_of_minimum (ts : list FrozenTrial) (t : FrozenTrial) :
  best_of minimize ts = Some t ->
  In t ts /\
  exists tv, value t = Some tv /\
    forall t' v, In t' ts -> state t' = COMPLETE -> value t' = Some v -> tv <= v.
Proof.
  induction ts as [|t0 ts IH]; cbn [best_of]; [discriminate|].
  assert (Hskip : best_of minimize ts = Some t ->
            (state t0 <> COMPLETE \/ value t0 = None) ->
            In t (t0 :: ts) /\
            exists tv, value t = Some tv /\
              forall t' v, In t' (t0 :: ts) -> state t' = COMPLETE ->
                           value t' = Some v -> tv <= v).
  { intros Hb Hno. destruct (IH Hb) as (Hin & tv & Htv & Hmin).
    split; [now right|]. exists tv. split; [exact Htv|].
    intros t' v [<- | Hin'] Hst Hv; [|eauto]. destruct Hno; congruence. }
  destruct (state t0) eqn:Est; try (intros Hb; apply Hskip; auto; left; discriminate).
  destruct (value t0) as [v0|] eqn:Ev; [|intros Hb; apply Hskip; auto].
  clear Hskip. intros Hb. injection Hb as <-.
  destruct (best_from_minimum ts t0 Ev) as (Hin & tv & Htv & Hle & Hmin).
  split; [destruct Hin as [-> | Hin]; [now left | now right]|].
  exists tv. split; [exact Htv|].
  intros t' v [<- | Hin'] Hst Hv; [|eauto]. congruence.
Qed.

End Search_claims.

Section Search_driver.

Context {B : Backend}.

Lemma bind_bind (A C D : Type) (c : M A) (k : A -> M C) (h : C -> M D) (w : World) :
  bind (bind c k) h w = bind c (fun a => bind (k a) h) w.
Proof.
  unfold bind. destruct (c w) as [[a|e] w1]; reflexivity.
Qed.

(** [main] runs the search driver on [train_model] with 10 trials. *)
Lemma main_search_driver (args : Args) (w : World) :
  main args w =
  (let use_cuda := negb (no_cuda args) && cuda_is_available in
   let device := if use_cuda then cuda else cpu in
   manual_seed (seed args) ;;
   new_Net device ;;
   best <- search_driver (fun trial => train_model trial args device) 10 ;;
   print (BestParameters best) ;;
   if save_model args then
     m <- gets model ;;
     modify (fun w => set_files (files w ++ [mnist_cnn_pt (parameters m)]) w) ;;
     modify (fun w => set_files
                        (files w ++ [code_artifact "training_script" "scripts/train.py"]) w)
   else ret tt) w.
Proof.
  unfold main, search_driver. cbv zeta.
  apply bind_ext. intros _ w1. apply bind_ext. intros _ w2.
  rewrite bind_bind. apply bind_ext. intros study w3.
  rewrite bind_bind. reflexivity.
Qed.

(** What a search that returns leaves behind. *)
Lemma search_driver_ok (func : Trial -> M Q) (n_trials : nat)
    (w w' : World) (ps : list (string * ParamValue)) :
  (forall trial, keeps outcomes (func trial)) ->
  search_driver func n_trials w = (Ok ps, w') ->
  exists (vs : list Q) (best : FrozenTrial) (bv : Q),
    length vs = n_trials /\
    outcomes w' = map completed (combine (seq 0 n_trials) vs) /\
    In best (storage w') /\ value best = Some bv /\ params best = ps /\
    (forall v, In v vs -> bv <= v) /\
    stdout w' = stdout (snd (optimize func n_trials (set_storage [] w))).
Proof.
  intros Hfunc Hrun. unfold search_driver, create_study in Hrun.
  rewrite bind_bind in Hrun. unfold bind at 1, modify at 1 in Hrun.
  unfold bind at 1, ret at 1 in Hrun.
  apply bind_inv in Hrun as ([] & w1 & Hopt & Hbest).
  rewrite Hopt. cbn [snd].
  apply (optimize_ok _ Hfunc) in Hopt as (vs & Hlen & Hout).
  cbn in Hout.
  unfold best_params, best_trial in Hbest. rewrite bind_bind in Hbest.
  unfold bind at 1, gets in Hbest. cbn [direction] in Hbest.
  destruct (best_of minimize (storage w1)) as [t|] eqn:Eb; [|discriminate].
  unfold bind, ret in Hbest. injection Hbest as <- <-.
  apply best_of_minimum in Eb as (Hin & tv & Htv & Hmin).
  exists vs, t, tv. repeat split; auto.
  intros v Hv.
  assert (Hex : exists i, In (completed (i, v)) (outcomes w1)).
  { rewrite Hout. apply In_nth with (d := 0) in Hv as (i & Hi & Hnth).
    exists i. apply in_map.
    assert (E : nth i (combine (seq 0 n_trials) vs) (0%nat, 0) = (i, v)).
    { rewrite combine_nth by (rewrite length_seq; lia).
      rewrite seq_nth by lia. now rewrite Hnth. }
    rewrite <- E. apply nth_In. rewrite length_combine, length_seq. lia. }
  destruct Hex as (i & Hi). unfold outcomes in Hi.
  apply in_map_iff in Hi as (t' & Ht' & Hi).
  unfold outcome, completed in Ht'. cbn in Ht'. injection Ht' as _ Hs Hval.
  eapply Hmin; eauto.
Qed.

End Search_driver.

(** ** When the script runs through *)

Section Totality.

Context {B : Backend}.

Lemma train_loop_returns (args : Args) (device : Device) (train_loader : DataLoader)
    (epoch : Z) (batches : list batch) :
  log_interval args <> 0%Z ->
  (batches <> [] -> loader_len train_loader <> 0%nat) ->
  forall (optimizer : Optimizer) (batch_idx : nat) (w : World),
    grad_enabled w = true ->
    exists o' w',
      train_loop args device train_loader optimizer epoch batch_idx batches w
      = (Ok o', w') /\ grad_enabled w' = true.
Proof.
  intros Hli. induction batches as [|b rest IH]; intros Hlen optimizer batch_idx w Hg;
    cbn [train_loop].
  - exists optimizer, w. split; [reflexivity | exact Hg].
  - assert (Hlen' : loader_len train_loader <> 0%nat) by (apply Hlen; discriminate).
    destruct (train_batch_run args device train_loader optimizer epoch batch_idx b
                w Hg Hli (fun _ => Hlen')) as (w1 & Hrun & _ & Hg1 & _).
    rewrite (bind_ok _ Hrun). cbn [fst snd].
    destruct (logged args batch_idx && dry_run args).
    + eexists _, w1. split; [reflexivity | exact Hg1].
    + apply IH; [intros _; exact Hlen' | exact Hg1].
Qed.

(** With tracking on and a log interval other than 0, [train] returns. *)
Lemma train_returns (args : Args) (device : Device) (train_loader : DataLoader)
    (optimizer : Optimizer) (epoch : Z) (w : World) :
  log_interval args <> 0%Z ->
  grad_enabled w = true ->
  exists o' w',
    train args device train_loader optimizer epoch w = (Ok o', w') /\
    grad_enabled w' = true.
Proof.
  intros Hli Hg. unfold train.
  set (w0 := set_model (mkModel (parameters (model w)) true (grad (model w))) w).
  rewrite (bind_ok _ (eq_refl : model_set_training true w = (Ok tt, w0))).
  destruct (iter_loader_run train_loader w0)
    as (order & w1 & Hiter & Hperm & _ & Hg1 & _).
  rewrite (bind_ok _ Hiter).
  apply train_loop_returns; [exact Hli | | rewrite Hg1; exact Hg].
  intros Hne. apply loader_len_nonzero. intros Hds. apply Hne.
  rewrite Hds in Hperm. apply Permutation_sym, Permutation_nil in Hperm.
  subst order. reflexivity.
Qed.

Lemma nth_error_last (A : Type) (l : list A) (x : A) :
  nth_error (l ++ [x]) (length l) = Some x.
Proof. induction l as [|y l IH]; cbn; auto. Qed.

Lemma best_of_some (d : Direction) (ts : list FrozenTrial) :
  (exists t v, In t ts /\ state t = COMPLETE /\ value t = Some v) ->
  exists b, best_of d ts = Some b.
Proof.
  induction ts as [|t0 ts IH]; intros (t & v & Hin & Hs & Hv); [destruct Hin|].
  cbn [best_of]. destruct Hin as [-> | Hin].
  - rewrite Hs, Hv. eauto.
  - destruct (state t0); try (apply IH; eauto).
    destruct (value t0); [eauto | apply IH; eauto].
Qed.

End Totality.

Section Search_theorem.

Context {B : Backend}.

(** C3. [main] runs exactly 10 trials, one after the other, and reports
    the parameters of a trial of least objective value: whenever it
    returns, the storage holds the 10 trials in the order in which they
    ran, each completed with the value its run of [train_model] returned,
    and the parameters printed as best are those of a trial whose value is
    the least of the ten. In the scenario of a stubbed trial runner that
    returns 0.5, 0.1 and 0.9 on three successive trials, the search driver
    reports the parameters of the second trial. *)
Theorem search_reports_minimum :
  (forall (args : Args) (w w' : World),
     main args w = (Ok tt, w') ->
     exists (vs : list Q) (best : FrozenTrial) (bv : Q),
       length vs = 10%nat /\
       outcomes w' = map completed (combine (seq 0 10) vs) /\
       In best (storage w') /\ value best = Some bv /\
       (forall v, In v vs -> bv <= v) /\
       exists out, stdout w' = out ++ [BestParameters (params best)]) /\
  (forall w : World,
     exists (ps : list (string * ParamValue)) (w' : World),
       search_driver (stub_runner [1 # 2; 1 # 10; 9 # 10]) 3 w = (Ok ps, w') /\
       exists t, nth_error (storage w') 1 = Some t /\
                 number t = 1%nat /\ value t = Some (1 # 10) /\ params t = ps).
Proof.
  split.
  - intros args w w' Hrun. rewrite main_search_driver in Hrun. cbv zeta in Hrun.
    apply bind_inv in Hrun as ([] & w1 & _ & Hrun).
    apply bind_inv in Hrun as ([] & w2 & _ & Hrun).
    apply bind_inv in Hrun as (ps & w3 & Hsearch & Hrun).
    apply search_driver_ok in Hsearch
      as (vs & best & bv & Hlen & Hout & Hin & Hbv & Hps & Hmin & _);
      [|intros trial; apply keeps_outcomes_train_model].
    exists vs, best, bv.
    unfold print, bind, modify, gets, ret in Hrun.
    destruct (save_model args); injection Hrun as <-;
      (repeat split; auto; [exists (stdout w3); now rewrite Hps]).
  - intros w. eexists _, _. split.
    + cbv. reflexivity.
    + cbv. eexists. repeat split; reflexivity.
Qed.

End Search_theorem.

(** ** The decay schedule of a trial *)

Section Decay_schedule.

Context {B : Backend}.

Lemma nth_error_update_nth_other (A : Type) (f : A -> A) (l : list A) :
  forall n i, i <> n -> nth_error (update_nth n f l) i = nth_error l i.
Proof.
  induction l as [|x l IH]; intros [|n] [|i] Hne; cbn; auto;
    try (now elim Hne).
Qed.

Lemma suggest_step (t : Trial) (name : string) (draw : list FrozenTrial -> ParamValue)
    (w : World) (r : FrozenTrial) :
  nth_error (storage w) (trial_id t) = Some r ->
  lookup_param name (params r) = None ->
  suggest t name draw w
  = (Ok (draw (storage w)),
     set_storage (with_param t name (draw (storage w)) (storage w)) w).
Proof.
  intros Hnth Hnone. unfold suggest, bind, gets, trial_params.
  rewrite Hnth, Hnone. reflexivity.
Qed.

Lemma with_param_nth (t : Trial) (name : string) (v : ParamValue)
    (st : list FrozenTrial) (r : FrozenTrial) :
  nth_error st (trial_id t) = Some r ->
  nth_error (with_param t name v st) (trial_id t)
  = Some (mkTrial (number r) (params r ++ [(name, v)]) (state r) (value r)) /\
  forall i, i <> trial_id t -> nth_error (with_param t name v st) i = nth_error st i.
Proof.
  intros Hnth. unfold with_param. split.
  - now rewrite nth_error_update_nth, Hnth.
  - intros i Hi. now apply nth_error_update_nth_other.
Qed.

Lemma new_DataLoader_run (ds : list sample) (k : LoaderKwargs) (w : World) :
  new_DataLoader ds k w
  = match kw_batch_size k with
    | Zpos p => (Ok (mkLoader ds p (kw_shuffle k) (kw_num_workers k) (kw_pin_memory k)), w)
    | _ => (Raise ValueError, w)
    end.
Proof. unfold new_DataLoader. destruct (kw_batch_size k); reflexivity. Qed.

(** C7. [train_model] builds the optimizer at the rate that it draws and
    a schedule of step size 1 with the factor that it draws, and the
    epoch loop steps the schedule once after each epoch. For a trial that
    holds no parameter yet and a positive test batch size (so that the
    draws and the loaders go through): what [train_model] does after
    them is the epoch loop over [range(args.epochs)], started with [Adam]
    at the [lr] that the trial now holds and [StepLR] with step size 1
    and the [gamma] that the trial now holds; and once the first [k]
    epochs of that loop have completed, for any [k] up to the epoch
    count, the optimizer's learning rate is [lr] times [gamma] to the
    [k]. *)
Theorem step_decay_learning_rate
    (trial : Trial) (args : Args) (device : Device) (w : World) (r : FrozenTrial) :
  nth_error (storage w) (trial_id trial) = Some r ->
  params r = [] ->
  (0 < test_batch_size args)%Z ->
  exists (initial_lr gamma : Q) (batch_size : Z)
         (train_loader test_loader : DataLoader) (w3 : World),
    trial_params trial (storage w3)
    = [("lr"%string, PFloat initial_lr); ("batch_size"%string, PInt batch_size);
       ("gamma"%string, PFloat gamma)] /\
    train_model trial args device w
    = bind (epoch_loop args device train_loader test_loader (range (epochs args))
              (Adam initial_lr) (new_StepLR 1 gamma) None)
           (fun r => match snd r with
                     | Some loss => ret loss
                     | None => raise UnboundLocalError
                     end) w3 /\
    forall (k : nat) (o : Optimizer) (s : StepLR) (l : option Q) (w' : World),
      (Z.of_nat k <= epochs args)%Z ->
      epoch_loop args device train_loader test_loader (firstn k (range (epochs args)))
        (Adam initial_lr) (new_StepLR 1 gamma) None w3
      = (Ok (o, s, l), w') ->
      opt_lr o == initial_lr * gamma ^ Z.of_nat k.
Proof.
  intros Hnth Hfresh Htb.
  unfold train_model.
  unfold suggest_float at 1.
  rewrite bind_bind, (bind_ok _ (suggest_step trial "lr" _ w Hnth
                                   (eq_trans (f_equal _ Hfresh) eq_refl))).
  unfold bind at 1, ret at 1.
  set (a := sample_float (storage w) (trial_id trial) "lr" (1 # 100000) (1 # 10) true).
  set (w1 := set_storage (with_param trial "lr" (PFloat a) (storage w)) w).
  destruct (with_param_nth trial "lr" (PFloat a) (storage w) Hnth) as [Hn1 _].
  rewrite Hfresh in Hn1. cbn [app] in Hn1.
  unfold suggest_categorical.
  rewrite bind_bind, (bind_ok _ (suggest_step trial "batch_size" _ w1 Hn1 eq_refl)).
  unfold bind at 1, ret at 1.
  set (b := nth _ _ _).
  set (w2 := set_storage (with_param trial "batch_size" (PInt b) (storage w1)) w1).
  destruct (with_param_nth trial "batch_size" (PInt b) (storage w1) Hn1) as [Hn2 _].
  cbn [params app] in Hn2.
  unfold suggest_float at 1.
  rewrite bind_bind, (bind_ok _ (suggest_step trial "gamma" _ w2 Hn2 eq_refl)).
  unfold bind at 1, ret at 1.
  set (c := sample_float (storage w2) (trial_id trial) "gamma" (1 # 2) (9 # 10) false).
  set (w3 := set_storage (with_param trial "gamma" (PFloat c) (storage w2)) w2).
  destruct (with_param_nth trial "gamma" (PFloat c) (storage w2) Hn2) as [Hn3 _].
  cbn [params app number state value] in Hn3.
  destruct (choice_positive (sample_index (storage w1) (trial_id trial) "batch_size" 3))
    as [p Hp].
  destruct (test_batch_size args) as [|q|q] eqn:Eq; try lia.
  assert (Hb : b = Zpos p) by exact Hp.
  assert (Hloop : forall (train_loader test_loader : DataLoader) (k : nat)
                    (o : Optimizer) (s : StepLR) (l : option Q) (w' : World),
             (Z.of_nat k <= epochs args)%Z ->
             epoch_loop args device train_loader test_loader
               (firstn k (range (epochs args))) (Adam a) (new_StepLR 1 c) None w3
             = (Ok (o, s, l), w') ->
             opt_lr o == a * c ^ Z.of_nat k).
  { intros train_loader test_loader k o s l w' Hk Hrun.
    apply epoch_loop_lr in Hrun as [Hlr _]; [|reflexivity].
    rewrite length_firstn, range_length in Hlr.
    rewrite Nat.min_l in Hlr by lia. exact Hlr. }
  assert (Hparams : trial_params trial (storage w3)
                    = [("lr"%string, PFloat a); ("batch_size"%string, PInt b);
                       ("gamma"%string, PFloat c)]).
  { unfold trial_params, w3. cbn [storage set_storage]. now rewrite Hn3. }
  destruct (negb (no_cuda args) && cuda_is_available);
    eexists a, c, b, _, _, w3;
    (split; [exact Hparams|]); (split; [|apply Hloop]);
    unfold bind at 1; rewrite new_DataLoader_run;
    cbn [kw_batch_size update_cuda_kwargs kwargs_batch_size]; rewrite Hb;
    unfold bind at 1; rewrite new_DataLoader_run;
    cbn [kw_batch_size update_cuda_kwargs kwargs_batch_size]; reflexivity.
Qed.

End Decay_schedule.

(** * Further properties *)

(** ** The evaluator at its edges *)

Section Evaluator_edges.

Context {B : Backend}.

(** Once it has put the model in evaluation mode, [test] leaves the mode
    alone. *)
Lemma test_eval_mode (device : Device) (test_loader : DataLoader) (epoch : Z)
    (w : World) :
  training (model (snd (test device test_loader epoch w))) = false.
Proof.
  unfold test.
  set (w0 := set_model (mkModel (parameters (model w)) false (grad (model w))) w).
  rewrite (bind_ok _ (eq_refl : model_set_training false w = (Ok tt, w0))).
  match goal with |- training (model (snd (?c w0))) = false =>
    assert (Hk : keeps (fun w => training (model w)) c) end.
  { unfold print, wandb_log. frame. }
  rewrite Hk. reflexivity.
Qed.

(** On an empty test set the division by the number of samples fails. *)
Lemma test_empty_run (device : Device) (test_loader : DataLoader) (epoch : Z)
    (w : World) :
  dataset test_loader = [] ->
  exists w',
    test device test_loader epoch w = (Raise ZeroDivisionError, w') /\
    stdout w' = stdout w /\ wandb_run w' = wandb_run w.
Proof.
  intros Hds. unfold test.
  set (w0 := set_model (mkModel (parameters (model w)) false (grad (model w))) w).
  rewrite (bind_ok _ (eq_refl : model_set_training false w = (Ok tt, w0))).
  unfold bind at 1. rewrite no_grad_body.
  destruct (iter_loader_run test_loader (set_grad_enabled false w0))
    as (order & w1 & Hiter & Hperm & _ & _ & Hwb & Hout & _).
  rewrite Hds in Hperm. apply Permutation_sym, Permutation_nil in Hperm. subst order.
  rewrite (bind_ok _ Hiter). cbn [batched chunks test_loop]. unfold ret at 1.
  cbn [fst snd]. rewrite Hds. cbn [length]. unfold py_div at 1, raise, bind.
  eexists. split; [reflexivity|]. unfold ret.
  cbn [snd stdout wandb_run set_grad_enabled].
  rewrite Hout, Hwb. split; reflexivity.
Qed.

(** X1. [test] returns exactly when the test set is not empty; on an empty
    set it ends in a division by zero, having printed and logged nothing
    and left the model in evaluation mode. *)
Theorem test_returns_iff_nonempty
    (device : Device) (test_loader : DataLoader) (epoch : Z) (w : World) :
  ((exists v w', test device test_loader epoch w = (Ok v, w'))
   <-> dataset test_loader <> []) /\
  (dataset test_loader = [] ->
   exists w',
     test device test_loader epoch w = (Raise ZeroDivisionError, w') /\
     stdout w' = stdout w /\ wandb_run w' = wandb_run w /\
     training (model w') = false).
Proof.
  split; [split|].
  - intros (v & w' & Hrun) Hds.
    destruct (test_empty_run device test_loader epoch w Hds) as (w1 & Hraise & _).
    rewrite Hraise in Hrun. discriminate.
  - intros Hne.
    destruct (test_run device test_loader epoch w Hne) as (v & w' & Hrun & _).
    eauto.
  - intros Hds.
    destruct (test_empty_run device test_loader epoch w Hds)
      as (w' & Hraise & Hout & Hwb).
    exists w'. repeat split; auto.
    pose proof (test_eval_mode device test_loader epoch w) as Hmode.
    now rewrite Hraise in Hmode.
Qed.

(** X2. When [test] returns a loss, that loss is what it has logged: the
    metric stream has grown by the single entry (test_loss, epoch) with
    the returned value and the epoch it was given, standard output has
    grown by one line that carries the same value, and the model is left
    in evaluation mode. *)
Theorem test_logs_what_it_returns
    (device : Device) (test_loader : DataLoader) (epoch : Z) (w w' : World) (v : Q) :
  test device test_loader epoch w = (Ok v, w') ->
  wandb_run w' = wandb_run w ++ [test_loss_epoch v epoch] /\
  (exists c n percent, stdout w' = stdout w ++ [TestSet v c n percent]) /\
  training (model w') = false.
Proof.
  intros Hrun.
  assert (Hne : dataset test_loader <> []).
  { intros Hds.
    destruct (test_empty_run device test_loader epoch w Hds) as (w1 & Hraise & _).
    rewrite Hraise in Hrun. discriminate. }
  destruct (test_run device test_loader epoch w Hne) as (v1 & w1 & Hrun1 & _ & Hout & Hwb).
  rewrite Hrun1 in Hrun. injection Hrun as <- <-.
  split; [exact Hwb|]. split; [eauto|].
  pose proof (test_eval_mode device test_loader epoch w) as Hmode.
  now rewrite Hrun1 in Hmode.
Qed.

End Evaluator_edges.

(** ** The epoch trainer at its edges *)

Section Trainer_edges.

Context {B : Backend}.

(** The number of batches depends on the number of samples only. *)
Lemma chunks_length (A : Type) (bs : nat) (l : list A) :
  forall (l' : list A) (room : nat) (cur cur' : list A),
    length l = length l' -> length cur = length cur' ->
    length (chunks bs room cur l) = length (chunks bs room cur' l').
Proof.
  induction l as [|x l IH]; intros [|x' l'] room cur cur' Hl Hc; try discriminate;
    cbn [chunks].
  - destruct cur, cur'; try discriminate; reflexivity.
  - injection Hl as Hl.
    destruct room as [|[|r]]; cbn [length]; try (f_equal; now apply IH).
    apply IH; [exact Hl | cbn; now rewrite Hc].
Qed.

(** A pass over a loader has [len(loader)] batches. *)
Lemma iter_loader_len (l : DataLoader) (w w1 : World) (batches : list batch) :
  iter_loader l w = (Ok batches, w1) -> length batches = loader_len l.
Proof.
  intros Hrun.
  destruct (iter_loader_run l w) as (order & w2 & Hiter & Hperm & _).
  rewrite Hiter in Hrun. injection Hrun as <- _.
  unfold loader_len, batched. apply chunks_length; [|reflexivity].
  now apply Permutation_length.
Qed.

(** The loop body with a log interval of 0: the step is taken, then the
    remainder fails. *)
Lemma train_batch_log_interval_zero (args : Args) (device : Device)
    (train_loader : DataLoader) (optimizer : Optimizer) (epoch : Z)
    (batch_idx : nat) (b : batch) (w : World) :
  grad_enabled w = true ->
  log_interval args = 0%Z ->
  exists w',
    train_batch args device train_loader optimizer epoch batch_idx b w
    = (Raise ZeroDivisionError, w') /\
    parameters (model w') = fst (stepped optimizer (model w) b) /\
    stdout w' = stdout w /\ wandb_run w' = wandb_run w.
Proof.
  intros Hg Hli. unfold stepped.
  unfold train_batch, zero_grad, model_call, loss_backward, optimizer_step,
    py_mod, py_div, print, wandb_log, bind, gets, modify, ret, raise, to_device.
  cbn [model grad_enabled set_model grad parameters training]. rewrite Hg.
  cbn [model grad_enabled set_model grad parameters training].
  destruct (adam_update _ _ _ _) as [ws' s']. cbn [fst snd].
  rewrite Hli. cbn [Z.eqb]. eexists. split; [reflexivity|].
  repeat split; reflexivity.
Qed.

(** X3. With a log interval of 0, gradient tracking on and a training set
    that is not empty, [train] takes the optimizer step of the first batch
    and then ends in a division by zero: nothing is printed and nothing is
    logged. *)
Theorem train_log_interval_zero
    (args : Args) (device : Device) (train_loader : DataLoader)
    (optimizer : Optimizer) (epoch : Z) (w : World) :
  log_interval args = 0%Z ->
  grad_enabled w = true ->
  dataset train_loader <> [] ->
  let m := mkModel (parameters (model w)) true (grad (model w)) in
  exists (b : batch) (rest : list batch) (w0 w' : World),
    iter_loader train_loader (set_model m w) = (Ok (b :: rest), w0) /\
    train args device train_loader optimizer epoch w = (Raise ZeroDivisionError, w') /\
    parameters (model w') = fst (stepped optimizer m b) /\
    stdout w' = stdout w /\ wandb_run w' = wandb_run w.
Proof.
  intros Hli Hg Hne m.
  destruct (iter_loader_run train_loader (set_model m w))
    as (order & w0 & Hiter & Hperm & Hm & Hg0 & Hwb0 & Hout0 & _).
  assert (Horder : order <> []).
  { intros ->. apply Permutation_nil in Hperm. auto. }
  destruct (batched_cons (loader_batch_size train_loader) Horder) as (b & rest & Hb).
  rewrite Hb in Hiter.
  assert (Hg0' : grad_enabled w0 = true) by (rewrite Hg0; exact Hg).
  destruct (train_batch_log_interval_zero args device train_loader optimizer epoch 0 b
              w0 Hg0' Hli) as (w' & Hrun & Hpar & Hout & Hwb).
  exists b, rest, w0, w'. split; [exact Hiter|]. split.
  - unfold train.
    rewrite (bind_ok _ (eq_refl : model_set_training true w = (Ok tt, set_model m w))).
    rewrite (bind_ok _ Hiter). cbn [train_loop].
    now rewrite (bind_raise _ Hrun).
  - rewrite Hpar, Hout, Hwb, Hm, Hout0, Hwb0. repeat split; reflexivity.
Qed.

(** On an empty training set the loop has nothing to do. *)
Lemma train_empty_run (args : Args) (device : Device) (train_loader : DataLoader)
    (optimizer : Optimizer) (epoch : Z) (w : World) :
  dataset train_loader = [] ->
  exists w',
    train args device train_loader optimizer epoch w = (Ok optimizer, w') /\
    model w' = mkModel (parameters (model w)) true (grad (model w)) /\
    stdout w' = stdout w /\ wandb_run w' = wandb_run w.
Proof.
  intros Hds. unfold train.
  set (w0 := set_model (mkModel (parameters (model w)) true (grad (model w))) w).
  rewrite (bind_ok _ (eq_refl : model_set_training true w = (Ok tt, w0))).
  destruct (iter_loader_run train_loader w0)
    as (order & w1 & Hiter & Hperm & Hm & _ & Hwb & Hout & _).
  rewrite Hds in Hperm. apply Permutation_sym, Permutation_nil in Hperm. subst order.
  rewrite (bind_ok _ Hiter). cbn [batched chunks train_loop]. unfold ret.
  exists w1. split; [reflexivity|]. rewrite Hm, Hout, Hwb. repeat split; reflexivity.
Qed.

(** X4. [train] returns exactly when the training set is empty or gradient
    tracking is on and the log interval is not 0. On an empty training set
    it returns the optimizer as it got it, for any log interval, with the
    parameters unchanged, the model in training mode and nothing printed
    or logged. *)
Theorem train_returns_iff
    (args : Args) (device : Device) (train_loader : DataLoader)
    (optimizer : Optimizer) (epoch : Z) (w : World) :
  ((exists o w', train args device train_loader optimizer epoch w = (Ok o, w'))
   <-> dataset train_loader = [] \/
       (grad_enabled w = true /\ log_interval args <> 0%Z)) /\
  (dataset train_loader = [] ->
   exists w',
     train args device train_loader optimizer epoch w = (Ok optimizer, w') /\
     model w' = mkModel (parameters (model w)) true (grad (model w)) /\
     stdout w' = stdout w /\ wandb_run w' = wandb_run w).
Proof.
  split; [split|].
  - intros (o & w' & Hrun).
    destruct (dataset train_loader) as [|s0 ds] eqn:Hds; [now left | right].
    unfold train in Hrun.
    apply bind_inv in Hrun as ([] & w0 & Hmode & Hrun).
    apply bind_inv in Hrun as (batches & w1 & Hiter & Hrun).
    destruct (iter_loader_run train_loader w0)
      as (order & w2 & Hiter' & Hperm & _ & Hg2 & _).
    rewrite Hiter' in Hiter. injection Hiter as <- <-.
    assert (Horder : order <> []).
    { intros ->. rewrite Hds in Hperm. apply Permutation_nil in Hperm. discriminate. }
    destruct (batched_cons (loader_batch_size train_loader) Horder) as (b & rest & Hb).
    rewrite Hb in Hrun. cbn [train_loop] in Hrun.
    apply bind_inv in Hrun as (r & w3 & Hbatch & _).
    apply train_batch_ok_inv in Hbatch as (Hg & Hli & _).
    split; [|exact Hli].
    rewrite Hg2 in Hg. unfold model_set_training, modify in Hmode.
    injection Hmode as <-. exact Hg.
  - intros [Hds | [Hg Hli]].
    + destruct (train_empty_run args device train_loader optimizer epoch w Hds)
        as (w' & Hrun & _). eauto.
    + destruct (train_returns args device train_loader optimizer epoch w Hli Hg)
        as (o & w' & Hrun & _). eauto.
  - apply train_empty_run.
Qed.

Lemma train_loop_counts (args : Args) (device : Device) (train_loader : DataLoader)
    (epoch : Z) (batches : list batch) :
  dry_run args = false ->
  log_interval args <> 0%Z ->
  (batches <> [] -> loader_len train_loader <> 0%nat) ->
  forall (optimizer : Optimizer) (batch_idx : nat) (w : World),
    grad_enabled w = true ->
    exists o' w' ls lines,
      train_loop args device train_loader optimizer epoch batch_idx batches w
      = (Ok o', w') /\
      wandb_run w' = wandb_run w ++ ls /\
      length ls = length batches /\
      Forall (fun m => exists q, m = training_loss q) ls /\
      stdout w' = stdout w ++ lines /\
      length lines = length (filter (logged args) (seq batch_idx (length batches))).
Proof.
  intros Hdry Hli. induction batches as [|b rest IH];
    intros Hlen optimizer batch_idx w Hg; cbn [train_loop].
  - exists optimizer, w, [], []. rewrite !app_nil_r. repeat split; auto.
  - assert (Hlen' : loader_len train_loader <> 0%nat) by (apply Hlen; discriminate).
    destruct (train_batch_run args device train_loader optimizer epoch batch_idx b
                w Hg Hli (fun _ => Hlen'))
      as (w1 & Hrun & _ & Hg1 & _ & Hwb & Hout & _).
    rewrite Hdry, andb_false_r in Hrun, Hwb.
    rewrite (bind_ok _ Hrun). cbn [fst snd].
    destruct (IH (fun _ => Hlen') (mkOptimizer (opt_lr optimizer)
                                     (snd (stepped optimizer (model w) b)))
                (S batch_idx) w1 Hg1)
      as (o' & w' & ls & lines & Hloop & Hwb' & Hls & Hall & Hout' & Hlines).
    eexists o', w', (_ :: ls), (_ ++ lines).
    split; [exact Hloop|].
    split; [rewrite Hwb', Hwb, <- app_assoc; reflexivity|].
    split; [cbn; now rewrite Hls|].
    split; [constructor; eauto|].
    split; [rewrite Hout', Hout, <- app_assoc; reflexivity|].
    cbn [length seq filter]. rewrite length_app, Hlines.
    destruct (logged args batch_idx); reflexivity.
Qed.

(** X5. Without the dry-run flag, with a log interval other than 0 and
    gradient tracking on, [train] returns after it has emitted one
    training loss per batch of the loader and printed one progress line
    for every batch index that is a multiple of the log interval. *)
Theorem train_emits_one_loss_per_batch
    (args : Args) (device : Device) (train_loader : DataLoader)
    (optimizer : Optimizer) (epoch : Z) (w : World) :
  dry_run args = false ->
  log_interval args <> 0%Z ->
  grad_enabled w = true ->
  exists o' w' ls lines,
    train args device train_loader optimizer epoch w = (Ok o', w') /\
    wandb_run w' = wandb_run w ++ ls /\
    length ls = loader_len train_loader /\
    Forall (fun m => exists q, m = training_loss q) ls /\
    stdout w' = stdout w ++ lines /\
    length lines
    = length (filter (fun i => (Z.of_nat i mod log_interval args =? 0)%Z)
                (seq 0 (loader_len train_loader))).
Proof.
  intros Hdry Hli Hg. unfold train.
  set (w0 := set_model (mkModel (parameters (model w)) true (grad (model w))) w).
  rewrite (bind_ok _ (eq_refl : model_set_training true w = (Ok tt, w0))).
  destruct (iter_loader_run train_loader w0)
    as (order & w1 & Hiter & Hperm & _ & Hg1 & Hwb1 & Hout1 & _).
  pose proof (iter_loader_len _ _ Hiter) as Hn.
  rewrite (bind_ok _ Hiter).
  assert (Hlen : batched (loader_batch_size train_loader) order <> [] ->
                 loader_len train_loader <> 0%nat).
  { intros Hne Hz. rewrite <- Hn in Hz. apply length_zero_iff_nil in Hz. auto. }
  assert (Hg1' : grad_enabled w1 = true) by (rewrite Hg1; exact Hg).
  destruct (@train_loop_counts args device train_loader epoch
              (batched (loader_batch_size train_loader) order) Hdry Hli Hlen
              optimizer 0%nat w1 Hg1')
    as (o' & w' & ls & lines & Hloop & Hwb & Hls & Hall & Hout & Hlines).
  exists o', w', ls, lines. rewrite Hn in Hls, Hlines.
  split; [exact Hloop|]. rewrite Hwb, Hout, Hwb1, Hout1. repeat split; auto.
Qed.

End Trainer_edges.

(** ** What training and evaluation leave alone *)

Section Pass_frames.

Context {B : Backend}.

Variables (X : Type) (f : World -> X).

(** An observation that does not look at the model, the tracking flag,
    the metric stream or standard output. *)
Hypothesis Hmodel : forall m w, f (set_model m w) = f w.
Hypothesis Hflag : forall b w, f (set_grad_enabled b w) = f w.
Hypothesis Hwandb : forall l w, f (set_wandb_run l w) = f w.
Hypothesis Hstdout : forall l w, f (set_stdout l w) = f w.

Ltac pass_frame :=
  repeat first
    [ solve [auto with frame]
    | assumption
    | apply keeps_bind; [|intros]
    | apply keeps_modify; intros;
      first [apply Hmodel | apply Hflag | apply Hwandb | apply Hstdout]
    | apply keeps_no_grad; [exact Hflag|]
    | match goal with
      | |- keeps _ (if ?c then _ else _) => destruct c
      | |- keeps _ (match ?x with _ => _ end) => destruct x
      end ].

Lemma pass_train_batch (args : Args) (device : Device)
    (train_loader : DataLoader) (optimizer : Optimizer) (epoch : Z)
    (batch_idx : nat) (b : batch) :
  keeps f (train_batch args device train_loader optimizer epoch batch_idx b).
Proof.
  unfold train_batch, zero_grad, loss_backward, optimizer_step, print, wandb_log.
  pass_frame.
Qed.

Lemma pass_train_loop (args : Args) (device : Device)
    (train_loader : DataLoader) (epoch : Z) (batches : list batch) :
  forall (optimizer : Optimizer) (batch_idx : nat),
    keeps f (train_loop args device train_loader optimizer epoch batch_idx batches).
Proof.
  induction batches as [|b rest IH]; intros optimizer batch_idx; cbn [train_loop].
  - pass_frame.
  - apply keeps_bind; [apply pass_train_batch | intros r].
    destruct (snd r); [pass_frame | apply IH].
Qed.

Lemma pass_train (args : Args) (device : Device) (train_loader : DataLoader)
    (optimizer : Optimizer) (epoch : Z) :
  keeps f (iter_loader train_loader) ->
  keeps f (train args device train_loader optimizer epoch).
Proof.
  intros Hiter. unfold train, model_set_training.
  apply keeps_bind; [pass_frame | intros _].
  apply keeps_bind; [exact Hiter | intros batches]. apply pass_train_loop.
Qed.

Lemma pass_test (device : Device) (test_loader : DataLoader) (epoch : Z) :
  keeps f (iter_loader test_loader) ->
  keeps f (test device test_loader epoch).
Proof.
  intros Hiter. unfold test, model_set_training, print, wandb_log.
  apply keeps_bind; [pass_frame | intros _].
  apply keeps_bind; [|intros acc; pass_frame].
  apply keeps_no_grad; [exact Hflag|].
  apply keeps_bind; [exact Hiter | intros batches]. apply keeps_test_loop.
Qed.

Lemma pass_epoch_loop (args : Args) (device : Device)
    (train_loader test_loader : DataLoader) (es : list Z) :
  keeps f (iter_loader train_loader) ->
  keeps f (iter_loader test_loader) ->
  forall (o : Optimizer) (s : StepLR) (l : option Q),
    keeps f (epoch_loop args device train_loader test_loader es o s l).
Proof.
  intros Htrain Htest. induction es as [|e es IH]; intros o s l; cbn [epoch_loop].
  - apply keeps_ret.
  - apply keeps_bind; [now apply pass_train | intros o1].
    apply keeps_bind; [now apply pass_test | intros v]. apply IH.
Qed.

End Pass_frames.

(** ** The trial runner at its edges *)

Section Runner_edges.

Context {B : Backend}.

(** A loss that [test] returns is the last entry of the metric stream. *)
Lemma test_ok_logged (device : Device) (test_loader : DataLoader) (epoch : Z)
    (w w' : World) (v : Q) :
  test device test_loader epoch w = (Ok v, w') ->
  wandb_run w' = wandb_run w ++ [test_loss_epoch v epoch].
Proof.
  intros Hrun.
  assert (Hne : dataset test_loader <> []).
  { intros Hds.
    destruct (test_empty_run device test_loader epoch w Hds) as (w1 & Hraise & _).
    rewrite Hraise in Hrun. discriminate. }
  destruct (test_run device test_loader epoch w Hne) as (v1 & w1 & Hrun1 & _ & _ & Hwb).
  rewrite Hrun1 in Hrun. injection Hrun as <- <-. exact Hwb.
Qed.

Lemma epoch_loop_last (args : Args) (device : Device)
    (train_loader test_loader : DataLoader) (es : list Z) :
  forall (o o' : Optimizer) (s s' : StepLR) (l l' : option Q) (w w' : World),
    epoch_loop args device train_loader test_loader es o s l w = (Ok (o', s', l'), w') ->
    es <> [] ->
    exists v pre,
      l' = Some v /\ wandb_run w' = pre ++ [test_loss_epoch v (last es 0%Z)].
Proof.
  induction es as [|e es IH]; intros o o' s s' l l' w w' Hrun Hne; [now elim Hne|].
  cbn [epoch_loop] in Hrun.
  apply bind_inv in Hrun as (o1 & w1 & _ & Hrun).
  apply bind_inv in Hrun as (v & w2 & Htest & Hrun).
  apply test_ok_logged in Htest.
  destruct es as [|e' es'].
  - cbn [epoch_loop] in Hrun. injection Hrun as _ _ <- <-.
    exists v, (wandb_run w1). split; [reflexivity | exact Htest].
  - apply IH in Hrun as (v' & pre & Hl & Hwb); [|discriminate].
    exists v', pre. split; [exact Hl | exact Hwb].
Qed.

Lemma range_last (n : Z) : (1 <= n)%Z -> last (range n) 0%Z = (n - 1)%Z.
Proof.
  intros Hn. unfold range.
  destruct (Z.to_nat n) as [|k] eqn:Ek; [lia|].
  rewrite seq_S, map_app. cbn [map]. rewrite last_last. lia.
Qed.

(** X6. The objective that [train_model] returns is the evaluation loss of
    the last epoch: whenever it returns a value there is at least one
    epoch, and the last entry of the metric stream is (test_loss, epoch)
    with that value and the index of the last epoch. *)
Theorem train_model_returns_last_logged_loss
    (trial : Trial) (args : Args) (device : Device) (w w' : World) (v : Q) :
  train_model trial args device w = (Ok v, w') ->
  (1 <= epochs args)%Z /\
  exists pre, wandb_run w' = pre ++ [test_loss_epoch v (epochs args - 1)].
Proof.
  intros Hrun. unfold train_model in Hrun.
  apply bind_inv in Hrun as (lr0 & w1 & _ & Hrun).
  apply bind_inv in Hrun as (bs & w2 & _ & Hrun).
  apply bind_inv in Hrun as (g & w3 & _ & Hrun).
  apply bind_inv in Hrun as (train_loader & w4 & _ & Hrun).
  apply bind_inv in Hrun as (test_loader & w5 & _ & Hrun).
  apply bind_inv in Hrun as ([[o s] l] & w6 & Hloop & Hrun).
  cbn [snd] in Hrun.
  assert (Hep : (1 <= epochs args)%Z).
  { destruct (Z_le_gt_dec (epochs args) 0) as [Hle|Hgt]; [|lia].
    apply range_nil in Hle. rewrite Hle in Hloop. cbn [epoch_loop] in Hloop.
    injection Hloop as _ _ <- _. discriminate. }
  split; [exact Hep|].
  apply epoch_loop_last in Hloop as (v0 & pre & -> & Hwb).
  - injection Hrun as <- <-. exists pre. now rewrite range_last in Hwb.
  - rewrite range_nil. lia.
Qed.

(** What the first part of [train_model] (the draws and the loaders) can
    raise. *)
Lemma suggest_raises (t : Trial) (name : string) (draw : list FrozenTrial -> ParamValue)
    (w w' : World) (e : Exception) :
  suggest t name draw w = (Raise e, w') -> False.
Proof.
  unfold suggest, set_trial_param, bind, gets, modify, ret.
  destruct (lookup_param name (trial_params t (storage w))); discriminate.
Qed.

Lemma suggest_float_raises (t : Trial) (name : string) (low high : Q) (log : bool)
    (w w' : World) (e : Exception) :
  suggest_float t name low high log w = (Raise e, w') -> e = ValueError.
Proof.
  unfold suggest_float, bind. intros H.
  destruct (suggest t name _ w) as [[v|e1] w1] eqn:E.
  - destruct v; [discriminate|]. unfold raise in H. now injection H as <- _.
  - now apply suggest_raises in E.
Qed.

Lemma suggest_categorical_raises (t : Trial) (name : string) (choices : list Z)
    (w w' : World) (e : Exception) :
  suggest_categorical t name choices w = (Raise e, w') -> e = ValueError.
Proof.
  unfold suggest_categorical. destruct choices as [|c0 cs]; intros H.
  - unfold raise in H. now injection H as <- _.
  - unfold bind in H. destruct (suggest t name _ w) as [[v|e1] w1] eqn:E.
    + destruct v; [|discriminate]. unfold raise in H. now injection H as <- _.
    + now apply suggest_raises in E.
Qed.

(** The draws change nothing but the storage. *)
Lemma keeps_suggest_float (X : Type) (f : World -> X) (t : Trial) (name : string)
    (low high : Q) (log : bool) :
  (forall st w, f (set_storage st w) = f w) ->
  keeps f (suggest_float t name low high log).
Proof.
  intros Hf. unfold suggest_float, suggest, set_trial_param.
  repeat first
    [ solve [auto with frame]
    | apply keeps_bind; [|intros]
    | apply keeps_modify; intros; apply Hf
    | match goal with
      | |- keeps _ (match ?x with _ => _ end) => destruct x
      end ].
Qed.

Lemma keeps_suggest_categorical (X : Type) (f : World -> X) (t : Trial) (name : string)
    (choices : list Z) :
  (forall st w, f (set_storage st w) = f w) ->
  keeps f (suggest_categorical t name choices).
Proof.
  intros Hf. unfold suggest_categorical, suggest, set_trial_param.
  repeat first
    [ solve [auto with frame]
    | apply keeps_bind; [|intros]
    | apply keeps_modify; intros; apply Hf
    | match goal with
      | |- keeps _ (match ?x with _ => _ end) => destruct x
      end ].
Qed.

Lemma keeps_new_DataLoader (X : Type) (f : World -> X) (ds : list sample)
    (k : LoaderKwargs) :
  keeps f (new_DataLoader ds k).
Proof. unfold new_DataLoader. destruct (kw_batch_size k); auto with frame. Qed.

(** X7. When the test batch size is not positive, [train_model] ends in a
    [ValueError] before any training: the model, the metric stream and
    standard output are as they were. *)
Theorem train_model_test_batch_size_not_positive
    (trial : Trial) (args : Args) (device : Device) (w : World) :
  (test_batch_size args <= 0)%Z ->
  exists w',
    train_model trial args device w = (Raise ValueError, w') /\
    model w' = model w /\ wandb_run w' = wandb_run w /\ stdout w' = stdout w.
Proof.
  intros Htb.
  set (f := fun w : World => (model w, wandb_run w, stdout w)).
  assert (Hf : forall st w0, f (set_storage st w0) = f w0) by reflexivity.
  assert (Hframe : forall w1 w2 : World, f w2 = f w1 ->
            model w2 = model w1 /\ wandb_run w2 = wandb_run w1 /\ stdout w2 = stdout w1).
  { unfold f. intros w1 w2 H. injection H as -> -> ->. auto. }
  unfold train_model.
  pose proof (keeps_suggest_float f trial "lr" (1 # 100000) (1 # 10) true Hf w) as K1.
  unfold bind at 1.
  destruct (suggest_float trial "lr" (1 # 100000) (1 # 10) true w) as [[lr0|e] w1] eqn:E1;
    cbn [snd] in K1.
  2:{ apply suggest_float_raises in E1 as ->. exists w1. split; [reflexivity | auto]. }
  pose proof (keeps_suggest_categorical f trial "batch_size" [64; 128; 256]%Z Hf w1) as K2.
  unfold bind at 1.
  destruct (suggest_categorical trial "batch_size" [64; 128; 256]%Z w1)
    as [[bs|e] w2] eqn:E2; cbn [snd] in K2.
  2:{ apply suggest_categorical_raises in E2 as ->. exists w2.
      split; [reflexivity | apply Hframe; congruence]. }
  pose proof (keeps_suggest_float f trial "gamma" (1 # 2) (9 # 10) false Hf w2) as K3.
  unfold bind at 1.
  destruct (suggest_float trial "gamma" (1 # 2) (9 # 10) false w2) as [[g|e] w3] eqn:E3;
    cbn [snd] in K3.
  2:{ apply suggest_float_raises in E3 as ->. exists w3.
      split; [reflexivity | apply Hframe; congruence]. }
  exists w3. split; [|apply Hframe; congruence].
  unfold bind at 1. rewrite new_DataLoader_run.
  destruct (kw_batch_size _); try reflexivity.
  unfold bind at 1. rewrite new_DataLoader_run.
  destruct (negb (no_cuda args) && cuda_is_available);
    cbn [kw_batch_size update_cuda_kwargs kwargs_batch_size];
    destruct (test_batch_size args); try reflexivity; lia.
Qed.

(** X8. Without an epoch [train_model] trains nothing and returns nothing:
    it ends in an exception (the unbound variable of [return loss], or a
    [ValueError] of the draws or the loaders), and the model, the metric
    stream, standard output and the generator are as they were. *)
Theorem train_model_without_epoch
    (trial : Trial) (args : Args) (device : Device) (w : World) :
  (epochs args <= 0)%Z ->
  exists e w',
    train_model trial args device w = (Raise e, w') /\
    (e = UnboundLocalError \/ e = ValueError) /\
    model w' = model w /\ wandb_run w' = wandb_run w /\
    stdout w' = stdout w /\ rng w' = rng w.
Proof.
  intros Hep. apply range_nil in Hep.
  set (f := fun w : World => (model w, wandb_run w, stdout w, rng w)).
  assert (Hf : forall st w0, f (set_storage st w0) = f w0) by reflexivity.
  assert (Hk : keeps f (train_model trial args device)).
  { unfold train_model. rewrite Hep.
    apply keeps_bind; [now apply keeps_suggest_float | intros lr0].
    apply keeps_bind; [now apply keeps_suggest_categorical | intros bs].
    apply keeps_bind; [now apply keeps_suggest_float | intros g].
    apply keeps_bind; [apply keeps_new_DataLoader | intros train_loader].
    apply keeps_bind; [apply keeps_new_DataLoader | intros test_loader].
    cbn [epoch_loop]. apply keeps_bind; [apply keeps_ret | intros r].
    destruct (snd r); auto with frame. }
  specialize (Hk w).
  assert (Hres : exists e w', train_model trial args device w = (Raise e, w') /\
                    (e = UnboundLocalError \/ e = ValueError)).
  { unfold train_model. rewrite Hep.
    unfold bind at 1.
    destruct (suggest_float trial "lr" _ _ _ w) as [[lr0|e] w1] eqn:E1.
    2:{ apply suggest_float_raises in E1 as ->. eauto. }
    unfold bind at 1.
    destruct (suggest_categorical trial "batch_size" _ w1) as [[bs|e] w2] eqn:E2.
    2:{ apply suggest_categorical_raises in E2 as ->. eauto. }
    unfold bind at 1.
    destruct (suggest_float trial "gamma" _ _ _ w2) as [[g|e] w3] eqn:E3.
    2:{ apply suggest_float_raises in E3 as ->. eauto. }
    unfold bind at 1. rewrite new_DataLoader_run.
    destruct (kw_batch_size _); eauto.
    unfold bind at 1. rewrite new_DataLoader_run.
    destruct (kw_batch_size _); eauto.
    cbn [epoch_loop]. unfold bind, ret, raise. cbn [snd]. eauto. }
  destruct Hres as (e & w' & Hrun & He).
  exists e, w'. split; [exact Hrun|]. split; [exact He|].
  rewrite Hrun in Hk. unfold f in Hk. cbn [snd] in Hk.
  injection Hk as -> -> -> ->. auto.
Qed.

End Runner_edges.

(** ** The parameters of a trial *)

Section Trial_parameters.

Context {B : Backend}.

Lemma update_nth_length (A : Type) (f : A -> A) (l : list A) :
  forall n, length (update_nth n f l) = length l.
Proof. induction l as [|x l IH]; intros [|n]; cbn; auto. Qed.

Lemma Forall_update_nth (A : Type) (P : A -> Prop) (f : A -> A) (l : list A) :
  (forall x, P x -> P (f x)) -> Forall P l ->
  forall n, Forall P (update_nth n f l).
Proof.
  intros Hf. induction 1 as [|x l Hx Hl IH]; intros [|n]; cbn; constructor; auto.
Qed.

Lemma Forall_nth_error (A : Type) (P : A -> Prop) (l : list A) :
  (forall i x, nth_error l i = Some x -> P x) -> Forall P l.
Proof.
  induction l as [|y l IH]; intros H; constructor.
  - apply (H 0%nat). reflexivity.
  - apply IH. intros i x Hi. apply (H (S i)). exact Hi.
Qed.

Lemma choice_in (k : nat) :
  In (nth (Nat.modulo k 3) [64; 128; 256]%Z 64%Z) [64; 128; 256]%Z.
Proof. destruct (Nat.modulo k 3) as [|[|[|[|n]]]]; cbn; auto. Qed.

(** After the draws, [train_model] leaves the storage alone. *)
Lemma keeps_storage_after_draws (args : Args) (device : Device)
    (train_kwargs test_kwargs : LoaderKwargs) (o : Optimizer) (s : StepLR) :
  keeps storage
    (train_loader <- new_DataLoader MNIST_train train_kwargs ;;
     test_loader <- new_DataLoader MNIST_test test_kwargs ;;
     r <- epoch_loop args device train_loader test_loader (range (epochs args))
            o s None ;;
     match snd r with
     | Some loss => ret loss
     | None => raise UnboundLocalError
     end).
Proof.
  apply keeps_bind; [apply keeps_new_DataLoader | intros train_loader].
  apply keeps_bind; [apply keeps_new_DataLoader | intros test_loader].
  apply keeps_bind.
  - apply pass_epoch_loop; try (intros; reflexivity);
      apply keeps_iter_loader; intros; reflexivity.
  - intros r. destruct (snd r); auto with frame.
Qed.

(** The draws of [train_model] as the storage holds them afterwards: a trial that held no parameter holds
    afterwards exactly lr, batch_size and gamma, in this order, with a
    batch size among 64, 128 and 256; its number, state and value and all
    other trials of the storage are untouched. *)
Lemma train_model_draws_recorded
    (trial : Trial) (args : Args) (device : Device) (w : World) (r : FrozenTrial) :
  nth_error (storage w) (trial_id trial) = Some r ->
  params r = [] ->
  let w' := snd (train_model trial args device w) in
  exists r',
    nth_error (storage w') (trial_id trial) = Some r' /\
    hyperparameters (params r') /\
    (number r', state r', value r') = (number r, state r, value r) /\
    forall i, i <> trial_id trial -> nth_error (storage w') i = nth_error (storage w) i.
Proof.
  intros Hnth Hfresh. cbv zeta.
  remember (storage (snd (train_model trial args device w))) as st eqn:Hst.
  unfold train_model in Hst.
  unfold suggest_float at 1 in Hst.
  rewrite bind_bind, (bind_ok _ (suggest_step trial "lr" _ w Hnth
                                   (eq_trans (f_equal _ Hfresh) eq_refl))) in Hst.
  unfold bind at 1, ret at 1 in Hst.
  set (a := sample_float (storage w) (trial_id trial) "lr" (1 # 100000) (1 # 10) true)
    in *.
  set (w1 := set_storage (with_param trial "lr" (PFloat a) (storage w)) w) in *.
  destruct (with_param_nth trial "lr" (PFloat a) (storage w) Hnth) as [Hn1 Ho1].
  rewrite Hfresh in Hn1. cbn [app] in Hn1.
  unfold suggest_categorical in Hst.
  rewrite bind_bind, (bind_ok _ (suggest_step trial "batch_size" _ w1 Hn1 eq_refl))
    in Hst.
  unfold bind at 1, ret at 1 in Hst.
  set (b := nth _ _ _) in *.
  set (w2 := set_storage (with_param trial "batch_size" (PInt b) (storage w1)) w1) in *.
  destruct (with_param_nth trial "batch_size" (PInt b) (storage w1) Hn1) as [Hn2 Ho2].
  cbn [params app] in Hn2.
  unfold suggest_float at 1 in Hst.
  rewrite bind_bind, (bind_ok _ (suggest_step trial "gamma" _ w2 Hn2 eq_refl)) in Hst.
  unfold bind at 1, ret at 1 in Hst.
  set (c := sample_float (storage w2) (trial_id trial) "gamma" (1 # 2) (9 # 10) false)
    in *.
  set (w3 := set_storage (with_param trial "gamma" (PFloat c) (storage w2)) w2) in *.
  destruct (with_param_nth trial "gamma" (PFloat c) (storage w2) Hn2) as [Hn3 Ho3].
  cbn [params app number state value] in Hn3.
  rewrite keeps_storage_after_draws in Hst. subst st.
  eexists. split; [exact Hn3|]. split; [|split].
  - exists a, b, c. split; [reflexivity|]. apply choice_in.
  - reflexivity.
  - intros i Hi.
    etransitivity; [exact (Ho3 i Hi)|]. etransitivity; [exact (Ho2 i Hi)|].
    exact (Ho1 i Hi).
Qed.

(** X9. [train_model] records its three draws in the trial, whether it
    then returns or raises: a trial that held no parameter holds
    afterwards exactly lr, batch_size and gamma, in this order, with a
    batch size among 64, 128 and 256; its number, state and value and all
    other trials of the storage are untouched. *)
Theorem train_model_records_hyperparameters
    (trial : Trial) (args : Args) (device : Device) (w : World) (r : FrozenTrial) :
  nth_error (storage w) (trial_id trial) = Some r ->
  params r = [] ->
  let w' := snd (train_model trial args device w) in
  exists r',
    nth_error (storage w') (trial_id trial) = Some r' /\
    hyperparameters (params r') /\
    (number r', state r', value r') = (number r, state r, value r) /\
    forall i, i <> trial_id trial -> nth_error (storage w') i = nth_error (storage w) i.
Proof. intros Hnth Hfresh. exact (train_model_draws_recorded trial args device w Hnth Hfresh). Qed.

(** Every trial of a search on [train_model] ends up with the three
    parameters. *)
Lemma optimize_hyperparameters (args : Args) (device : Device) (n_trials : nat) :
  forall w w' : World,
    optimize (fun trial => train_model trial args device) n_trials w = (Ok tt, w') ->
    Forall (fun t => hyperparameters (params t)) (storage w) ->
    Forall (fun t => hyperparameters (params t)) (storage w').
Proof.
  induction n_trials as [|n IH]; intros w w' Hrun Hall; cbn [optimize] in Hrun.
  - now injection Hrun as <-.
  - unfold ask in Hrun. unfold bind at 1 2 3, gets, modify, ret in Hrun.
    set (len := length (storage w)) in *.
    set (w1 := set_storage (storage w ++ [mkTrial len [] RUNNING None]) w) in *.
    unfold bind at 1 in Hrun.
    assert (Hnth : nth_error (storage w1) (trial_id (mkHandle len))
                   = Some (mkTrial len [] RUNNING None)).
    { unfold w1, len. cbn [storage set_storage trial_id]. apply nth_error_last. }
    destruct (train_model_draws_recorded (mkHandle len) args device w1 Hnth eq_refl)
      as (r' & Hr' & Hhyp & _ & Hother).
    pose proof (keeps_outcomes_train_model (mkHandle len) args device w1) as Hkeep.
    destruct (train_model (mkHandle len) args device w1) as [[v|e] w2];
      [|discriminate].
    cbn [snd] in Hr', Hother, Hkeep.
    unfold tell, modify in Hrun. apply IH in Hrun; [exact Hrun|].
    cbn [storage set_storage].
    apply Forall_update_nth; [intros x Hx; exact Hx|].
    apply Forall_nth_error. intros i x Hi.
    destruct (Nat.eq_dec i len) as [-> | Hne].
    + cbn [trial_id] in Hr'. rewrite Hr' in Hi. injection Hi as <-. exact Hhyp.
    + rewrite (Hother i Hne) in Hi. unfold w1 in Hi. cbn [storage set_storage] in Hi.
      assert (Hlt : (i < len)%nat).
      { assert (Hs : nth_error (storage w ++ [mkTrial len [] RUNNING None]) i <> None)
          by (rewrite Hi; discriminate).
        apply nth_error_Some in Hs. rewrite length_app in Hs. cbn in Hs.
        fold len in Hs. lia. }
      rewrite nth_error_app1 in Hi by exact Hlt.
      rewrite Forall_forall in Hall. apply Hall. eapply nth_error_In, Hi.
Qed.

(** X10. The parameters that [main] prints as best are always the three
    hyperparameters of a trial: lr, batch_size and gamma, in this order,
    with a batch size among 64, 128 and 256. *)
Theorem main_reports_three_hyperparameters (args : Args) (w w' : World) :
  main args w = (Ok tt, w') ->
  exists (a : Q) (b : Z) (c : Q) (out : list Line),
    stdout w' = out ++ [BestParameters [("lr"%string, PFloat a);
                                        ("batch_size"%string, PInt b);
                                        ("gamma"%string, PFloat c)]] /\
    In b [64; 128; 256]%Z.
Proof.
  intros Hrun. rewrite main_search_driver in Hrun. cbv zeta in Hrun.
  apply bind_inv in Hrun as ([] & w1 & _ & Hrun).
  apply bind_inv in Hrun as ([] & w2 & _ & Hrun).
  apply bind_inv in Hrun as (ps & w3 & Hsearch & Hrun).
  unfold search_driver, create_study in Hsearch.
  rewrite bind_bind in Hsearch. unfold bind at 1, modify at 1 in Hsearch.
  unfold bind at 1, ret at 1 in Hsearch.
  apply bind_inv in Hsearch as ([] & w4 & Hopt & Hbest).
  apply optimize_hyperparameters in Hopt; [|constructor].
  unfold best_params, best_trial in Hbest. rewrite bind_bind in Hbest.
  unfold bind at 1, gets in Hbest. cbn [direction] in Hbest.
  destruct (best_of minimize (storage w4)) as [t|] eqn:Eb; [|discriminate].
  unfold bind, ret in Hbest. injection Hbest as <- <-.
  apply best_of_minimum in Eb as (Hin & _).
  rewrite Forall_forall in Hopt. destruct (Hopt t Hin) as (a & b & c & Hps & Hb).
  exists a, b, c, (stdout w4). split; [|exact Hb].
  unfold print, bind, modify, gets, ret in Hrun. rewrite <- Hps.
  destruct (save_model args); injection Hrun as <-; reflexivity.
Qed.

End Trial_parameters.

(** ** What the trial runner and the search leave alone *)

Section Runner_frames.

Context {B : Backend}.

(** A continuation of [DataLoader(...)] only runs on the loader that the
    constructor builds. *)
Lemma keeps_with_loader (X A : Type) (f : World -> X) (ds : list sample)
    (k : LoaderKwargs) (K : DataLoader -> M A) :
  (forall p, kw_batch_size k = Zpos p ->
     keeps f (K (mkLoader ds p (kw_shuffle k) (kw_num_workers k) (kw_pin_memory k)))) ->
  keeps f (bind (new_DataLoader ds k) K).
Proof.
  intros H w. unfold bind. rewrite new_DataLoader_run.
  destruct (kw_batch_size k) as [|p|p] eqn:E; try reflexivity.
  apply (H p eq_refl).
Qed.

Lemma keeps_files_train_model (trial : Trial) (args : Args) (device : Device) :
  keeps files (train_model trial args device).
Proof.
  unfold train_model.
  apply keeps_bind; [apply keeps_suggest_float; reflexivity | intros lr0].
  apply keeps_bind; [apply keeps_suggest_categorical; reflexivity | intros bs].
  apply keeps_bind; [apply keeps_suggest_float; reflexivity | intros g].
  apply keeps_bind; [apply keeps_new_DataLoader | intros train_loader].
  apply keeps_bind; [apply keeps_new_DataLoader | intros test_loader].
  apply keeps_bind.
  - apply pass_epoch_loop; try (intros; reflexivity);
      apply keeps_iter_loader; intros; reflexivity.
  - intros r. destruct (snd r); auto with frame.
Qed.

(** A search changes nothing that its objective and the storage updates
    leave alone. *)
Lemma keeps_optimize (X : Type) (f : World -> X) (func : Trial -> M Q) :
  (forall t, keeps f (func t)) ->
  (forall st w, f (set_storage st w) = f w) ->
  forall n_trials, keeps f (optimize func n_trials).
Proof.
  intros Hfunc Hst. induction n_trials as [|n IH]; intros w; cbn [optimize].
  - reflexivity.
  - unfold ask. unfold bind at 1 2 3, gets, modify, ret.
    set (len := length (storage w)).
    set (w1 := set_storage (storage w ++ [mkTrial len [] RUNNING None]) w).
    unfold bind at 1. pose proof (Hfunc (mkHandle len) w1) as Hk.
    destruct (func (mkHandle len) w1) as [[v|e] w2]; cbn [snd] in Hk;
      unfold tell, modify; cbn [snd].
    + rewrite IH, Hst, Hk. apply Hst.
    + rewrite Hst, Hk. apply Hst.
Qed.

Lemma keeps_files_search_driver (func : Trial -> M Q) (n_trials : nat) :
  (forall t, keeps files (func t)) ->
  keeps files (search_driver func n_trials).
Proof.
  intros Hfunc. unfold search_driver, create_study, best_params, best_trial.
  apply keeps_bind; [frame | intros study].
  apply keeps_bind; [apply keeps_optimize; [exact Hfunc | reflexivity] | intros _].
  apply keeps_bind; [|intros t; frame].
  apply keeps_bind; [frame | intros st].
  destruct (best_of (direction study) st); auto with frame.
Qed.

Lemma keeps_files_new_Net (device : Device) : keeps files (new_Net device).
Proof.
  intros w. unfold new_Net, bind, gets, modify.
  destruct (Net_init (rng w)) as [w0 g']. reflexivity.
Qed.

(** X12. When [main] returns it has written files only if [--save-model]
    is set, and then exactly two: the snapshot [mnist_cnn.pt], which holds
    the parameters the model has at the end of the search (after the last
    trial, whichever trial was best), and the code artifact. *)
Theorem main_saves_final_parameters (args : Args) (w w' : World) :
  main args w = (Ok tt, w') ->
  files w' = files w ++
    (if save_model args
     then [mnist_cnn_pt (parameters (model w'));
           code_artifact "training_script" "scripts/train.py"]
     else []).
Proof.
  intros Hrun. rewrite main_search_driver in Hrun. cbv zeta in Hrun.
  set (device := if negb (no_cuda args) && cuda_is_available then cuda else cpu) in *.
  apply bind_inv in Hrun as ([] & w1 & Hseed & Hrun).
  apply bind_inv in Hrun as ([] & w2 & Hnet & Hrun).
  apply bind_inv in Hrun as (ps & w3 & Hsearch & Hrun).
  assert (H1 : files w1 = files w).
  { unfold manual_seed, modify in Hseed. now injection Hseed as <-. }
  assert (H2 : files w2 = files w1).
  { pose proof (keeps_files_new_Net device w1) as K. now rewrite Hnet in K. }
  assert (H3 : files w3 = files w2).
  { pose proof (keeps_files_search_driver
                  (fun t => train_model t args device) 10
                  (fun t => keeps_files_train_model t args device) w2) as K.
    now rewrite Hsearch in K. }
  unfold print, bind, modify, gets, ret in Hrun.
  destruct (save_model args); injection Hrun as <-;
    cbn [files set_files set_stdout model]; rewrite H3, H2, H1.
  - now rewrite <- app_assoc.
  - now rewrite app_nil_r.
Qed.

End Runner_frames.

(** ** What [main] depends on *)

Section Main_inputs.

Context {B : Backend}.

Lemma new_Net_run (device : Device) (w : World) :
  new_Net device w
  = (Ok tt, let (w0, g') := Net_init (rng w) in
            set_model (mkModel w0 true None) (set_rng g' w)).
Proof.
  unfold new_Net, bind, gets, modify, to_device.
  destruct (Net_init (rng w)) as [w0 g']. reflexivity.
Qed.

(** The first steps of [main]: seeding, building the model, creating the
    study. *)
Lemma main_start (args : Args) (w : World) :
  let device := if negb (no_cuda args) && cuda_is_available then cuda else cpu in
  main args w =
  (optimize (fun trial => train_model trial args device) 10 ;;
   best <- best_params (mkStudy minimize) ;;
   print (BestParameters best) ;;
   if save_model args then
     m <- gets model ;;
     modify (fun w => set_files (files w ++ [mnist_cnn_pt (parameters m)]) w) ;;
     modify (fun w => set_files
                        (files w ++ [code_artifact "training_script" "scripts/train.py"]) w)
   else ret tt) (started args w).
Proof.
  intros device. unfold main. cbv zeta. fold device.
  rewrite (bind_ok _ (eq_refl : manual_seed (seed args) w
                                = (Ok tt, set_rng (mkRng (seed_stream (seed args)) 0) w))).
  rewrite (bind_ok _ (new_Net_run device _)).
  unfold create_study. rewrite bind_bind. unfold bind at 1, modify at 1.
  unfold bind at 1, ret at 1.
  f_equal. unfold started. cbn [rng set_rng].
  destruct (Net_init (mkRng (seed_stream (seed args)) 0)) as [w0 g']. reflexivity.
Qed.

(** X13. [main] reads nothing of the model, the generator or the storage
    it starts from: it seeds the generator, builds the model and creates
    the study first. Two runs with the same arguments from worlds that
    agree on the tracking flag, the metric stream, standard output and the
    files have the same result and leave the same world. *)
Theorem main_forgets_initial_state (args : Args) (w1 w2 : World) :
  grad_enabled w1 = grad_enabled w2 ->
  wandb_run w1 = wandb_run w2 ->
  stdout w1 = stdout w2 ->
  files w1 = files w2 ->
  main args w1 = main args w2.
Proof.
  intros Hg Hwb Hout Hfiles.
  rewrite (main_start args w1), (main_start args w2). cbv zeta.
  f_equal. unfold started. now rewrite Hg, Hwb, Hout, Hfiles.
Qed.

Lemma train_model_args (a1 a2 : Args) (trial : Trial) (device : Device) (w : World) :
  same_but_superseded a1 a2 ->
  train_model trial a1 device w = train_model trial a2 device w.
Proof.
  intros (Htb & Hep & Hnc & Hdry & _ & Hli & _).
  unfold train_model. rewrite Htb, Hep, Hnc.
  do 5 (apply bind_ext; intros ? ?).
  unfold bind. now rewrite (epoch_loop_args a1 a2 _ _ _ _ Hli Hdry).
Qed.

(** Two objectives with the same runs give the same search. *)
Lemma optimize_ext (f1 f2 : Trial -> M Q) :
  (forall t w, f1 t w = f2 t w) ->
  forall n_trials w, optimize f1 n_trials w = optimize f2 n_trials w.
Proof.
  intros H. induction n_trials as [|n IH]; intros w; cbn [optimize].
  - reflexivity.
  - apply bind_ext. intros trial w1. unfold bind. rewrite H.
    destruct (f2 trial w1) as [[v|e] w2]; [|reflexivity].
    destruct (tell trial COMPLETE (Some v) w2) as [[[]|e] w3]; [apply IH | reflexivity].
Qed.

(** X14. The whole run is independent of [--lr], [--gamma] and
    [--batch-size]: on two run configurations that differ at most in
    these three flags [main] has the same result and the same effects. *)
Theorem main_ignores_superseded_flags (a1 a2 : Args) (w : World) :
  same_but_superseded a1 a2 ->
  main a1 w = main a2 w.
Proof.
  intros Hsame. pose proof Hsame as (_ & _ & Hnc & _ & Hseed & _ & Hsave).
  unfold main. cbv zeta. rewrite Hnc, Hseed, Hsave.
  do 3 (apply bind_ext; intros ? ?).
  unfold bind at 1 3.
  rewrite (optimize_ext _ _ (fun t w0 => train_model_args t _ w0 Hsame)).
  reflexivity.
Qed.

End Main_inputs.

(** ** A trial that fails *)

Section Failing_trial.

Context {B : Backend}.

Lemma bind_raise_inv (A C : Type) (c : M A) (k : A -> M C) (w w' : World)
    (e : Exception) :
  bind c k w = (Raise e, w') ->
  c w = (Raise e, w') \/ exists a w1, c w = (Ok a, w1) /\ k a w1 = (Raise e, w').
Proof.
  unfold bind. destruct (c w) as [[a|e1] w1]; intros H; [right; eauto | left].
  now injection H as <- <-.
Qed.

(** The outcome of the newest trial after [tell]. *)
Lemma outcomes_after_tell (w w2 : World) (s : TrialState) (v : option Q) :
  outcomes w2 = outcomes w ++ [(length (storage w), RUNNING, None)] ->
  map outcome
    (update_nth (length (storage w))
       (fun r => mkTrial (number r) (params r) s v) (storage w2))
  = outcomes w ++ [(length (storage w), s, v)].
Proof.
  intros Hw2.
  rewrite (map_update_nth outcome _ (fun o => (fst (fst o), s, v))) by reflexivity.
  fold (outcomes w2). rewrite Hw2.
  replace (length (storage w)) with (length (outcomes w)) at 1
    by (unfold outcomes; apply length_map).
  now rewrite update_nth_last.
Qed.

(** A search that raises stopped at its first failing trial: the trials
    before it are completed, the failing one is recorded as failed, and
    no later trial was started. *)
Lemma optimize_raise (func : Trial -> M Q) :
  (forall trial, keeps outcomes (func trial)) ->
  forall (n_trials : nat) (w w' : World) (e : Exception),
    optimize func n_trials w = (Raise e, w') ->
    exists (k : nat) (vs : list Q),
      (k < n_trials)%nat /\ length vs = k /\
      outcomes w' = outcomes w ++
        map completed (combine (seq (length (storage w)) k) vs) ++
        [((length (storage w) + k)%nat, FAIL, None)].
Proof.
  intros Hfunc. induction n_trials as [|n IH]; intros w w' e Hrun;
    cbn [optimize] in Hrun; [discriminate|].
  unfold ask in Hrun. unfold bind at 1 2 3, gets, modify, ret in Hrun.
  set (len := length (storage w)) in *.
  set (w1 := set_storage (storage w ++ [mkTrial len [] RUNNING None]) w) in *.
  unfold bind at 1 in Hrun.
  pose proof (Hfunc (mkHandle len) w1) as Hkeep.
  assert (Hw1 : outcomes w1 = outcomes w ++ [(len, RUNNING, None)]).
  { unfold outcomes, w1. cbn [storage set_storage]. now rewrite map_app. }
  destruct (func (mkHandle len) w1) as [[v|e1] w2]; cbn [snd] in Hkeep;
    rewrite Hw1 in Hkeep; unfold tell, modify in Hrun; cbn [trial_id snd] in Hrun.
  - apply IH in Hrun as (k & vs & Hk & Hlen & Hout).
    unfold outcomes in Hout at 2. cbn [storage set_storage] in Hout.
    pose proof (outcomes_after_tell w w2 COMPLETE (Some v) Hkeep) as Ht.
    fold len in Ht. rewrite Ht in Hout.
    assert (Hl3 : length (update_nth len
                            (fun r => mkTrial (number r) (params r) COMPLETE (Some v))
                            (storage w2)) = S len).
    { rewrite <- (length_map outcome), Ht.
      rewrite length_app. unfold outcomes. rewrite length_map. cbn. fold len. lia. }
    rewrite Hl3 in Hout.
    exists (S k), (v :: vs). split; [lia|]. split; [cbn; now rewrite Hlen|].
    rewrite Hout. cbn [seq combine map]. rewrite <- app_assoc. cbn [app].
    now replace (S len + k)%nat with (len + S k)%nat by lia.
  - injection Hrun as <- <-.
    exists 0%nat, []. split; [lia|]. split; [reflexivity|].
    unfold outcomes at 1. cbn [storage set_storage seq combine map app].
    pose proof (outcomes_after_tell w w2 FAIL None Hkeep) as Ht.
    fold len in Ht. rewrite Ht. now rewrite Nat.add_0_r.
Qed.

(** X15. When the search of [main] raises (the study created, [optimize]
    on [train_model] for 10 trials, [best_params] read), a trial has
    failed and the search has stopped there: the storage holds the
    completed trials that ran before it and the failed trial as its last,
    with at most 9 completed; no trial was started after the failure and
    no file was written. Reading the best parameters after ten completed
    trials does not fail. *)
Theorem search_stops_at_first_failure
    (args : Args) (device : Device) (w w' : World) (e : Exception) :
  search_driver (fun trial => train_model trial args device) 10 w = (Raise e, w') ->
  exists (k : nat) (vs : list Q),
    (k < 10)%nat /\ length vs = k /\
    outcomes w' = map completed (combine (seq 0 k) vs) ++ [(k, FAIL, None)] /\
    files w' = files w.
Proof.
  intros Hrun. unfold search_driver, create_study in Hrun.
  rewrite bind_bind in Hrun. unfold bind at 1, modify at 1 in Hrun.
  unfold bind at 1, ret at 1 in Hrun.
  pose proof (keeps_optimize (f := files) (fun t => train_model t args device)
                (fun t => keeps_files_train_model t args device)
                (fun _ _ => eq_refl) 10 (set_storage [] w)) as Hfiles.
  apply bind_raise_inv in Hrun as [Hopt | ([] & w1 & Hopt & Hrest)].
  - rewrite Hopt in Hfiles. cbn [snd] in Hfiles.
    apply (optimize_raise _ (fun t => keeps_outcomes_train_model t args device))
      in Hopt as (k & vs & Hk & Hlen & Hout).
    cbn in Hout.
    exists k, vs. repeat split; auto.
  - exfalso.
    apply (optimize_ok _ (fun t => keeps_outcomes_train_model t args device))
      in Hopt as (vs & Hlen & Hout).
    destruct (best_of_some minimize (storage w1)) as [b Hb].
    { destruct vs as [|v vs]; [discriminate|].
      unfold outcomes in Hout.
      cbn [storage set_storage map app seq combine length] in Hout.
      destruct (storage w1) as [|t ts]; [discriminate|].
      cbn [map] in Hout. injection Hout as _ Hs Hv _.
      exists t, v. repeat split; auto. now left. }
    unfold best_params, best_trial, print, bind, gets, modify, ret in Hrest.
    cbn [direction] in Hrest. rewrite Hb in Hrest. discriminate.
Qed.

End Failing_trial.

(** ** One pass over a loader *)

Section Loader_pass.

Context {B : Backend}.

(** No batch is larger than the batch size. *)
Lemma chunks_sizes (A : Type) (bs : nat) (l : list A) :
  forall room cur,
    (1 <= room)%nat -> (length cur + room = bs)%nat ->
    Forall (fun b => (length b <= bs)%nat) (chunks bs room cur l).
Proof.
  induction l as [|x l IH]; intros room cur Hroom Hsum; cbn [chunks].
  - destruct cur as [|c cur]; constructor; auto.
    rewrite length_rev. lia.
  - destruct room as [|[|r]]; [lia | |].
    + constructor.
      * rewrite length_rev. cbn [length]. lia.
      * apply IH; cbn [length]; lia.
    + apply IH; cbn [length]; lia.
Qed.

(** X17. One pass over a loader, shuffling or not, presents every sample
    of its dataset exactly once: the batches, put end to end, are a
    permutation of the dataset; there are [len(loader)] of them, none is
    empty and none is larger than the batch size. *)
Theorem iter_loader_covers_dataset (l : DataLoader) (w w1 : World)
    (batches : list batch) :
  iter_loader l w = (Ok batches, w1) ->
  Permutation (concat batches) (dataset l) /\
  length batches = loader_len l /\
  Forall (fun b => (1 <= length b <= Pos.to_nat (loader_batch_size l))%nat) batches.
Proof.
  intros Hrun.
  destruct (iter_loader_run l w) as (order & w2 & Hiter & Hperm & _).
  rewrite Hiter in Hrun. injection Hrun as <- _.
  split; [now rewrite batched_concat|]. split.
  - unfold loader_len, batched. apply chunks_length; [|reflexivity].
    now apply Permutation_length.
  - unfold batched.
    pose proof (chunks_nonempty (Pos.to_nat (loader_batch_size l)) order
                  (Pos.to_nat (loader_batch_size l)) []) as Hne.
    pose proof (@chunks_sizes sample (Pos.to_nat (loader_batch_size l)) order
                  (Pos.to_nat (loader_batch_size l)) []
                  (Pos2Nat.is_pos _) eq_refl) as Hle.
    rewrite Forall_forall in *. intros b Hb. split; [|now apply Hle].
    specialize (Hne b Hb). destruct b; [now elim Hne | cbn; lia].
Qed.

End Loader_pass.

(** ** Runs on the small backend *)

#[local] Existing Instance Toy.backend.

(** C1 as stated fails: with a log interval of 10 and no dry run, the loop
    body at batch index 1, which is not a multiple of 10, emits the batch's
    loss; and an epoch of three batches emits three losses while it prints
    one progress line. *)
Lemma train_emits_loss_off_interval :
  (exists r w' l,
     train_batch (B := Toy.backend) Toy.args0 cpu (Toy.loader MNIST_train 1 false)
       (Adam 1) 0 1 [(-2, true)] Toy.world0 = (Ok r, w') /\
     (Z.of_nat 1 mod log_interval Toy.args0 <> 0)%Z /\
     wandb_run w' = wandb_run Toy.world0 ++ [training_loss l]) /\
  (exists o w' l0 l1 l2 line,
     train (B := Toy.backend) Toy.args0 cpu (Toy.loader MNIST_train 1 false)
       (Adam 1) 0 Toy.world0 = (Ok o, w') /\
     wandb_run w' = [training_loss l0; training_loss l1; training_loss l2] /\
     stdout w' = [line]).
Proof.
  split.
  - eexists _, _, _. split; [vm_compute; reflexivity|].
    split; [discriminate | reflexivity].
  - eexists _, _, _, _, _, _. split; [vm_compute; reflexivity|]. split; reflexivity.
Qed.

Lemma train_batch_emits_loss_witness :
  exists r w',
    train_batch (B := Toy.backend) Toy.args0 cpu (Toy.loader MNIST_train 1 false)
      (Adam 1) 0 1 [(-2, true)] Toy.world0 = (Ok r, w') /\
    wandb_run w' = [training_loss (batch_loss (model Toy.world0) [(-2, true)])] /\
    stdout w' = [] /\ snd r = false.
Proof.
  eexists _, _.
  assert (H : train_batch (B := Toy.backend) Toy.args0 cpu
                (Toy.loader MNIST_train 1 false) (Adam 1) 0 1 [(-2, true)] Toy.world0
              = (Ok _, _)) by (vm_compute; reflexivity).
  split; [exact H|].
  exact (train_batch_emits_loss _ _ _ _ _ _ _ _ H).
Defined.

(** C4 as stated fails: with the dry-run flag and a log interval of 0,
    [train] takes one optimizer step and then ends in a division by zero,
    without a logged batch. *)
Lemma train_dry_run_log_interval_zero :
  exists w',
    train (B := Toy.backend) Toy.args_dry_li0 cpu (Toy.loader MNIST_train 1 false)
      (Adam 1) 0 Toy.world0 = (Raise ZeroDivisionError, w') /\
    dry_run Toy.args_dry_li0 = true /\
    parameters (model w') = 1%Z /\ stdout w' = [].
Proof. eexists. split; [vm_compute; reflexivity|]. repeat split; reflexivity. Qed.

Lemma train_dry_run_one_batch_witness :
  dry_run Toy.args_dry = true /\
  log_interval Toy.args_dry <> 0%Z /\
  grad_enabled Toy.world0 = true /\
  dataset (Toy.loader MNIST_train 1 false) <> [] /\
  exists o w',
    train (B := Toy.backend) Toy.args_dry cpu (Toy.loader MNIST_train 1 false)
      (Adam 1) 0 Toy.world0 = (Ok o, w') /\
    parameters (model w') = 1%Z /\
    length (stdout w') = 1%nat /\ wandb_run w' = [].
Proof.
  assert (H1 : dry_run Toy.args_dry = true) by reflexivity.
  assert (H2 : log_interval Toy.args_dry <> 0%Z) by discriminate.
  assert (H3 : grad_enabled Toy.world0 = true) by reflexivity.
  assert (H4 : dataset (Toy.loader MNIST_train 1 false) <> []) by discriminate.
  repeat (split; [assumption|]).
  destruct (train_dry_run_one_batch Toy.args_dry cpu (Toy.loader MNIST_train 1 false)
              (Adam 1) 0 Toy.world0 H1 H2 H3 H4)
    as (b & rest & w0 & w' & _ & _ & Hrun & Hpar & Hout & Hwb).
  eexists _, w'. split; [exact Hrun|]. split; [|split].
  - rewrite Hpar. reflexivity.
  - rewrite Hout. reflexivity.
  - exact Hwb.
Defined.


(** C5 as stated fails: a model that scores the target class of the only
    sample at 1 gets an average loss of -1. *)
Lemma test_loss_negative :
  exists v w',
    test (B := Toy.backend) cpu (Toy.loader [(1, true)] 1 false) 0 Toy.world0 = (Ok v, w') /\
    ~ 0 <= v.
Proof.
  eexists _, _. split; [vm_compute; reflexivity|]. intros H. now vm_compute in H.
Qed.

Lemma test_accuracy_and_loss_bounds_witness :
  dataset (Toy.loader [(-1, true); (-2, false)] 1 true) <> [] /\
  Forall (fun s => forward false (parameters (model Toy.world0)) (fst s) (snd s) <= 0)
         (dataset (Toy.loader [(-1, true); (-2, false)] 1 true)) /\
  exists v percent c n w',
    test (B := Toy.backend) cpu (Toy.loader [(-1, true); (-2, false)] 1 true) 0 Toy.world0
    = (Ok v, w') /\
    stdout w' = stdout Toy.world0 ++ [TestSet v c n percent] /\
    0 <= inject_Z (Z.of_nat c) / inject_Z (Z.of_nat n) <= 1 /\
    0 <= v.
Proof.
  assert (H1 : dataset (Toy.loader [(-1, true); (-2, false)] 1 true) <> [])
    by discriminate.
  assert (H2 : Forall (fun s => forward false (parameters (model Toy.world0))
                                  (fst s) (snd s) <= 0)
                 (dataset (Toy.loader [(-1, true); (-2, false)] 1 true))).
  { repeat constructor; cbn; unfold Qle; cbn; lia. }
  split; [exact H1|]. split; [exact H2|].
  destruct (test_accuracy_and_loss_bounds cpu _ 0 Toy.world0 H1)
    as (v & percent & c & n & w' & Hrun & Hout & _ & Hacc & Hloss).
  exists v, percent, c, n, w'.
  split; [exact Hrun|]. split; [exact Hout|]. split; [exact Hacc|]. exact (Hloss H2).
Defined.

(** C6 as stated fails for the loss. On the machine a batch is summed in
    float32 and the batch sums are added up in binary64: for the two
    samples with target scores -8388608 and -0.5, the set as a single
    batch sums to 8388608 (in float32 the 0.5 is rounded away), and split
    into two batches it sums to 8388608.5. *)
Lemma test_summed_loss_depends_on_batching :
  let a := float32 (-8388608) 0 in
  let b := float32 (-1) (-1) in
  summed_loss_float [[a; b]] = float64 8388608 0 /\
  summed_loss_float [[a]; [b]] = float64 16777217 (-1) /\
  SFltb (summed_loss_float [[a; b]]) (summed_loss_float [[a]; [b]]) = true.
Proof. vm_compute. repeat split. Qed.

Lemma test_correct_count_batch_invariant_witness :
  Permutation (concat [[(-1, true); (1, true)]; [(-1, false)]])
              [(1, true); (-1, true); (-1, false)] /\
  exists l l1 c c1,
    test_loop (B := Toy.backend) cpu [[(-1, true); (1, true)]; [(-1, false)]]
              0 0%nat Toy.world0
    = (Ok (l, c), Toy.world0) /\
    test_loop (B := Toy.backend) cpu [[(1, true); (-1, true); (-1, false)]]
              0 0%nat Toy.world0
    = (Ok (l1, c1), Toy.world0) /\
    c = c1 /\ c1 = 2%nat.
Proof.
  assert (H : Permutation (concat [[(-1, true); (1, true)]; [(-1, false)]])
                [(1, true); (-1, true); (-1, false)]) by apply perm_swap.
  split; [exact H|].
  destruct (test_correct_count_batch_invariant (B := Toy.backend) cpu
              [[(-1, true); (1, true)]; [(-1, false)]] Toy.world0 H)
    as (l & l1 & c & c1 & Hrun & Hrun1 & Hc & Hc1).
  exists l, l1, c, c1.
  split; [exact Hrun|]. split; [exact Hrun1|]. split; [exact Hc|].
  rewrite Hc1. vm_compute. reflexivity.
Defined.

Lemma step_decay_learning_rate_witness :
  nth_error (storage Toy.world1) (trial_id Toy.trial0) = Some (mkTrial 0 [] RUNNING None) /\
  params (mkTrial 0 [] RUNNING None) = [] /\
  (0 < test_batch_size Toy.args_two_epochs)%Z /\
  exists initial_lr gamma batch_size train_loader test_loader w3 o s l w',
    trial_params Toy.trial0 (storage w3)
    = [("lr"%string, PFloat initial_lr); ("batch_size"%string, PInt batch_size);
       ("gamma"%string, PFloat gamma)] /\
    epoch_loop (B := Toy.backend) Toy.args_two_epochs cpu train_loader test_loader
      (range (epochs Toy.args_two_epochs)) (Adam initial_lr) (new_StepLR 1 gamma)
      None w3
    = (Ok (o, s, l), w') /\
    opt_lr o == initial_lr * gamma ^ 2.
Proof.
  assert (H1 : nth_error (storage Toy.world1) (trial_id Toy.trial0)
               = Some (mkTrial 0 [] RUNNING None)) by reflexivity.
  assert (H2 : params (mkTrial 0 [] RUNNING None) = []) by reflexivity.
  assert (H3 : (0 < test_batch_size Toy.args_two_epochs)%Z) by (cbn; lia).
  split; [exact H1|]. split; [exact H2|]. split; [exact H3|].
  destruct (step_decay_learning_rate Toy.trial0 Toy.args_two_epochs cpu Toy.world1
              H1 H2 H3)
    as (initial_lr & gamma & batch_size & train_loader & test_loader & w3
        & Hparams & Hbody & Hdecay).
  assert (Hrun : exists v w', train_model (B := Toy.backend) Toy.trial0
                                Toy.args_two_epochs cpu Toy.world1 = (Ok v, w')).
  { eexists _, _. vm_compute. reflexivity. }
  destruct Hrun as (v & w' & Hrun). rewrite Hbody in Hrun.
  apply bind_inv in Hrun as ([[o s] l] & w4 & Hloop & _).
  exists initial_lr, gamma, batch_size, train_loader, test_loader, w3, o, s, l, w4.
  split; [exact Hparams|]. split; [exact Hloop|].
  apply (Hdecay 2%nat o s l w4); [cbn; lia | exact Hloop].
Defined.

Lemma train_model_ignores_superseded_flags_witness :
  same_but_superseded Toy.args0 Toy.args_flags /\
  train_model (B := Toy.backend) Toy.trial0 Toy.args0 cpu Toy.world1
  = train_model (B := Toy.backend) Toy.trial0 Toy.args_flags cpu Toy.world1.
Proof.
  assert (H : same_but_superseded Toy.args0 Toy.args_flags)
    by (repeat split; reflexivity).
  split; [exact H|].
  exact (train_model_ignores_superseded_flags Toy.trial0 cpu Toy.world1 H).
Defined.

Lemma train_model_needs_an_epoch_witness :
  (0 < test_batch_size Toy.args_no_epoch)%Z /\
  trial_params Toy.trial0 (storage Toy.world1) = [] /\
  fst (train_model (B := Toy.backend) Toy.trial0 Toy.args_no_epoch cpu Toy.world1)
  = Raise UnboundLocalError.
Proof.
  assert (H1 : (0 < test_batch_size Toy.args_no_epoch)%Z) by reflexivity.
  assert (H2 : trial_params Toy.trial0 (storage Toy.world1) = []) by reflexivity.
  split; [exact H1|]. split; [exact H2|].
  apply (train_model_needs_an_epoch Toy.trial0 Toy.args_no_epoch cpu Toy.world1 H1 H2).
  cbn. lia.
Defined.

(** A run of [main] in which the ten trials return 16, 9, 4, 1, 0, 1, 4,
    9, 16 and 25: the parameters printed as best are those of the fifth
    trial. *)
Lemma search_reports_minimum_witness :
  exists w',
    main (B := ToySteps.backend) Toy.args0 ToySteps.world0 = (Ok tt, w') /\
    map value (storage w')
    = map Some [16 # 1; 9 # 1; 4 # 1; 1 # 1; 0 # 1; 1 # 1; 4 # 1; 9 # 1; 16 # 1; 25 # 1] /\
    (exists t, nth_error (storage w') 4 = Some t /\
               last (stdout w') (BestParameters []) = BestParameters (params t)) /\
    exists vs best bv,
      length vs = 10%nat /\
      outcomes w' = map completed (combine (seq 0 10) vs) /\
      In best (storage w') /\ value best = Some bv /\
      (forall v, In v vs -> bv <= v) /\
      exists out, stdout w' = out ++ [BestParameters (params best)].
Proof.
  eexists.
  assert (H : main (B := ToySteps.backend) Toy.args0 ToySteps.world0 = (Ok tt, _))
    by (vm_compute; reflexivity).
  split; [exact H|].
  split; [vm_compute; reflexivity|].
  split; [eexists; split; vm_compute; reflexivity|].
  exact (proj1 search_reports_minimum _ _ _ H).
Defined.

(** ** Runs for the further properties *)

Lemma test_returns_iff_nonempty_witness :
  dataset (Toy.loader [] 1 false) = [] /\
  exists w',
    test cpu (Toy.loader [] 1 false) 0 Toy.world0 = (Raise ZeroDivisionError, w') /\
    stdout w' = stdout Toy.world0 /\ wandb_run w' = wandb_run Toy.world0 /\
    training (model w') = false.
Proof.
  assert (H : dataset (Toy.loader [] 1 false) = []) by reflexivity.
  split; [exact H|].
  exact (proj2 (test_returns_iff_nonempty cpu (Toy.loader [] 1 false) 0 Toy.world0) H).
Defined.

Lemma test_logs_what_it_returns_witness :
  exists v w',
    test cpu (Toy.loader MNIST_test 1 false) 3 Toy.world0 = (Ok v, w') /\
    wandb_run w' = wandb_run Toy.world0 ++ [test_loss_epoch v 3] /\
    (exists c n percent, stdout w' = stdout Toy.world0 ++ [TestSet v c n percent]) /\
    training (model w') = false.
Proof.
  eexists _, _.
  assert (H : test cpu (Toy.loader MNIST_test 1 false) 3 Toy.world0 = (Ok _, _))
    by (vm_compute; reflexivity).
  split; [exact H|].
  exact (test_logs_what_it_returns _ _ _ _ H).
Defined.

Lemma train_log_interval_zero_witness :
  log_interval Toy.args_li0 = 0%Z /\
  grad_enabled Toy.world0 = true /\
  dataset (Toy.loader MNIST_train 2 false) <> [] /\
  exists w',
    train Toy.args_li0 cpu (Toy.loader MNIST_train 2 false) (Adam 1) 0 Toy.world0
    = (Raise ZeroDivisionError, w') /\
    parameters (model w') = 1%Z /\
    stdout w' = stdout Toy.world0 /\ wandb_run w' = wandb_run Toy.world0.
Proof.
  assert (H1 : log_interval Toy.args_li0 = 0%Z) by reflexivity.
  assert (H2 : grad_enabled Toy.world0 = true) by reflexivity.
  assert (H3 : dataset (Toy.loader MNIST_train 2 false) <> []) by discriminate.
  repeat (split; [assumption|]).
  destruct (train_log_interval_zero Toy.args_li0 cpu (Toy.loader MNIST_train 2 false)
              (Adam 1) 0 Toy.world0 H1 H2 H3)
    as (b & rest & w0 & w' & _ & Hrun & Hpar & Hout & Hwb).
  exists w'. split; [exact Hrun|]. split; [|split; assumption].
  rewrite Hpar. reflexivity.
Defined.

Lemma train_returns_iff_witness :
  (grad_enabled Toy.world0 = true /\ log_interval Toy.args0 <> 0%Z) /\
  exists o w',
    train Toy.args0 cpu (Toy.loader MNIST_train 2 false) (Adam 1) 0 Toy.world0
    = (Ok o, w').
Proof.
  assert (H : grad_enabled Toy.world0 = true /\ log_interval Toy.args0 <> 0%Z)
    by (split; [reflexivity | discriminate]).
  split; [exact H|].
  exact (proj2 (proj1 (train_returns_iff Toy.args0 cpu (Toy.loader MNIST_train 2 false)
                         (Adam 1) 0 Toy.world0)) (or_intror H)).
Defined.

Lemma train_emits_one_loss_per_batch_witness :
  dry_run Toy.args0 = false /\
  log_interval Toy.args0 <> 0%Z /\
  grad_enabled Toy.world0 = true /\
  exists o' w' ls lines,
    train Toy.args0 cpu (Toy.loader MNIST_train 1 false) (Adam 1) 0 Toy.world0
    = (Ok o', w') /\
    wandb_run w' = wandb_run Toy.world0 ++ ls /\
    length ls = 3%nat /\
    Forall (fun m => exists q, m = training_loss q) ls /\
    stdout w' = stdout Toy.world0 ++ lines /\
    length lines = 1%nat.
Proof.
  assert (H1 : dry_run Toy.args0 = false) by reflexivity.
  assert (H2 : log_interval Toy.args0 <> 0%Z) by discriminate.
  assert (H3 : grad_enabled Toy.world0 = true) by reflexivity.
  repeat (split; [assumption|]).
  exact (train_emits_one_loss_per_batch Toy.args0 cpu (Toy.loader MNIST_train 1 false)
           (Adam 1) 0 Toy.world0 H1 H2 H3).
Defined.

Lemma train_model_returns_last_logged_loss_witness :
  exists v w',
    train_model Toy.trial0 Toy.args_two_epochs cpu Toy.world1 = (Ok v, w') /\
    (1 <= epochs Toy.args_two_epochs)%Z /\
    exists pre, wandb_run w' = pre ++ [test_loss_epoch v (epochs Toy.args_two_epochs - 1)].
Proof.
  eexists _, _.
  assert (H : train_model Toy.trial0 Toy.args_two_epochs cpu Toy.world1 = (Ok _, _))
    by (vm_compute; reflexivity).
  split; [exact H|].
  exact (train_model_returns_last_logged_loss _ _ _ _ H).
Defined.

Lemma train_model_test_batch_size_not_positive_witness :
  (test_batch_size Toy.args_tb0 <= 0)%Z /\
  exists w',
    train_model Toy.trial0 Toy.args_tb0 cpu Toy.world1 = (Raise ValueError, w') /\
    model w' = model Toy.world1 /\ wandb_run w' = wandb_run Toy.world1 /\
    stdout w' = stdout Toy.world1.
Proof.
  assert (H : (test_batch_size Toy.args_tb0 <= 0)%Z) by (cbn; lia).
  split; [exact H|].
  exact (train_model_test_batch_size_not_positive Toy.trial0 Toy.args_tb0 cpu
           Toy.world1 H).
Defined.

Lemma train_model_without_epoch_witness :
  (epochs Toy.args_no_epoch <= 0)%Z /\
  exists e w',
    train_model Toy.trial0 Toy.args_no_epoch cpu Toy.world1 = (Raise e, w') /\
    (e = UnboundLocalError \/ e = ValueError) /\
    model w' = model Toy.world1 /\ wandb_run w' = wandb_run Toy.world1 /\
    stdout w' = stdout Toy.world1 /\ rng w' = rng Toy.world1.
Proof.
  assert (H : (epochs Toy.args_no_epoch <= 0)%Z) by (cbn; lia).
  split; [exact H|].
  exact (train_model_without_epoch Toy.trial0 Toy.args_no_epoch cpu Toy.world1 H).
Defined.

Lemma train_model_records_hyperparameters_witness :
  nth_error (storage Toy.world1) (trial_id Toy.trial0)
  = Some (mkTrial 0 [] RUNNING None) /\
  exists r',
    nth_error (storage (snd (train_model Toy.trial0 Toy.args0 cpu Toy.world1)))
      (trial_id Toy.trial0) = Some r' /\
    hyperparameters (params r').
Proof.
  assert (H : nth_error (storage Toy.world1) (trial_id Toy.trial0)
              = Some (mkTrial 0 [] RUNNING None)) by reflexivity.
  split; [exact H|].
  destruct (train_model_records_hyperparameters Toy.trial0 Toy.args0 cpu Toy.world1
              H eq_refl) as (r' & Hr' & Hhyp & _).
  exists r'. split; assumption.
Defined.

Lemma main_reports_three_hyperparameters_witness :
  exists w',
    main Toy.args0 Toy.world0 = (Ok tt, w') /\
    exists a b c out,
      stdout w' = out ++ [BestParameters [("lr"%string, PFloat a);
                                          ("batch_size"%string, PInt b);
                                          ("gamma"%string, PFloat c)]] /\
      In b [64; 128; 256]%Z.
Proof.
  eexists.
  assert (H : main Toy.args0 Toy.world0 = (Ok tt, _)) by (vm_compute; reflexivity).
  split; [exact H|].
  exact (main_reports_three_hyperparameters _ _ H).
Defined.

Lemma main_saves_final_parameters_witness :
  exists w',
    main Toy.args_save Toy.world0 = (Ok tt, w') /\
    files w' = [mnist_cnn_pt (parameters (model w'));
                code_artifact "training_script" "scripts/train.py"].
Proof.
  eexists.
  assert (H : main Toy.args_save Toy.world0 = (Ok tt, _)) by (vm_compute; reflexivity).
  split; [exact H|].
  exact (main_saves_final_parameters _ _ H).
Defined.

Lemma main_forgets_initial_state_witness :
  grad_enabled Toy.world0 = grad_enabled Toy.world2 /\
  wandb_run Toy.world0 = wandb_run Toy.world2 /\
  stdout Toy.world0 = stdout Toy.world2 /\
  files Toy.world0 = files Toy.world2 /\
  main Toy.args0 Toy.world0 = main Toy.args0 Toy.world2.
Proof.
  split; [reflexivity|]. split; [reflexivity|].
  split; [reflexivity|]. split; [reflexivity|].
  exact (main_forgets_initial_state Toy.args0 Toy.world0 Toy.world2
           eq_refl eq_refl eq_refl eq_refl).
Defined.

Lemma main_ignores_superseded_flags_witness :
  same_but_superseded Toy.args0 Toy.args_flags /\
  main Toy.args0 Toy.world0 = main Toy.args_flags Toy.world0.
Proof.
  assert (H : same_but_superseded Toy.args0 Toy.args_flags)
    by (repeat split; reflexivity).
  split; [exact H|].
  exact (main_ignores_superseded_flags Toy.world0 H).
Defined.

Lemma search_stops_at_first_failure_witness :
  exists e w',
    search_driver (fun trial => train_model trial Toy.args_li0 cpu) 10 Toy.world0
    = (Raise e, w') /\
    exists k vs,
      (k < 10)%nat /\ length vs = k /\
      outcomes w' = map completed (combine (seq 0 k) vs) ++ [(k, FAIL, None)] /\
      files w' = files Toy.world0.
Proof.
  eexists _, _.
  assert (H : search_driver (fun trial => train_model trial Toy.args_li0 cpu) 10
                Toy.world0 = (Raise _, _)) by (vm_compute; reflexivity).
  split; [exact H|].
  exact (search_stops_at_first_failure _ _ _ H).
Defined.

Lemma iter_loader_covers_dataset_witness :
  exists batches w1,
    iter_loader (Toy.loader MNIST_train 2 true) Toy.world0 = (Ok batches, w1) /\
    Permutation (concat batches) MNIST_train /\
    length batches = loader_len (Toy.loader MNIST_train 2 true) /\
    Forall (fun b => (1 <= length b <= 2)%nat) batches.
Proof.
  eexists _, _.
  assert (H : iter_loader (Toy.loader MNIST_train 2 true) Toy.world0 = (Ok _, _))
    by (vm_compute; reflexivity).
  split; [exact H|].
  exact (iter_loader_covers_dataset _ _ H).
Defined.
